(** * Revocation checking of X.509 certificates (package [revoke])

    A shallow embedding of the revocation engine of go-webauthn/x:
    the package-level functions of [revoke.go] (with the pre-go1.19 variant
    of the CRL check from [revoke_legacy.go]) and the methods of
    [Verifier] from [verifier.go].

    The Go code talks to the outside world through an HTTP client, the
    clock, and the parsers and signature checks of [crypto/x509],
    [encoding/pem] and [golang.org/x/crypto/ocsp].  These are collected in
    the class [Externals]; the HTTP client and the clock act on an abstract
    [World], so that two requests for one URL may be answered differently.
    Every function of the package is a computation in the state monad [M]
    over the world, the CRL cache and a trace of the lock operations and
    HTTP requests performed so far. *)

From Stdlib Require Import ZArith Lia.
From stdpp Require Import base option list strings gmap.

Local Open Scope string_scope.
Local Open Scope list_scope.
Local Open Scope Z_scope.

(** ** Data of the standard library the package consumes *)

Definition bytes := list Byte.byte.

Module time.
(** [time.Time]: an instant; [Before] and [After] are strict. *)
Definition Time := Z.
Definition Before (t u : Time) : bool := t <? u.
Definition After (t u : Time) : bool := u <? t.
End time.

(** Go's [error] interface; [nil] is [None] of [option error]. *)
Inductive error :=
  | ErrCertificateExpired (notAfter : time.Time)
      (* fmt.Errorf("Certificate expired %s\n", cert.NotAfter) *)
  | ErrCertificateNotYetValid (notBefore : time.Time)
      (* fmt.Errorf("Certificate isn't valid until %s\n", cert.NotBefore) *)
  | ErrFailedGetCRL
  | errors_New (msg : string)
  | ErrExternal (code : Z).
      (* an error value made by the standard library or the network *)

Module pkix.
Record RevokedCertificate := {
  SerialNumber : Z;
  RevocationTime : time.Time
}.
Record TBSCertificateList := {
  NextUpdate : time.Time;
  RevokedCertificates : list RevokedCertificate
}.
Record CertificateList := { TBSCertList : TBSCertificateList }.

(** [certList.HasExpired(now)] *)
Definition HasExpired (certList : CertificateList) (now : time.Time) : bool :=
  negb (time.Before now (NextUpdate (TBSCertList certList))).
End pkix.

Module x509.
Record Certificate := {
  SerialNumber : Z;
  NotBefore : time.Time;
  NotAfter : time.Time;
  CRLDistributionPoints : list string;
  OCSPServer : list string;
  IssuingCertificateURL : list string
}.
Record RevocationListEntry := {
  EntrySerialNumber : Z;
  EntryRevocationTime : time.Time
}.
Record RevocationList := {
  NextUpdate : time.Time;
  RevokedCertificateEntries : list RevocationListEntry;
  RevokedCertificates : list pkix.RevokedCertificate
}.
End x509.

Module ocsp.
Inductive ResponseStatus := Good | Revoked | Unknown.
Record Response := { Status : ResponseStatus; NextUpdate : time.Time }.

Definition status_eqb (a b : ResponseStatus) : bool :=
  match a, b with
  | Good, Good | Revoked, Revoked | Unknown, Unknown => true
  | _, _ => false
  end.

(** The DER encodings of the unsuccessful OCSPResponseStatus values. *)
Definition MalformedRequestErrorResponse : bytes :=
  [Byte.x30; Byte.x03; Byte.x0a; Byte.x01; Byte.x01].
Definition InternalErrorErrorResponse : bytes :=
  [Byte.x30; Byte.x03; Byte.x0a; Byte.x01; Byte.x02].
Definition TryLaterErrorResponse : bytes :=
  [Byte.x30; Byte.x03; Byte.x0a; Byte.x01; Byte.x03].
Definition SigRequredErrorResponse : bytes :=
  [Byte.x30; Byte.x03; Byte.x0a; Byte.x01; Byte.x05].
Definition UnauthorizedErrorResponse : bytes :=
  [Byte.x30; Byte.x03; Byte.x0a; Byte.x01; Byte.x06].
End ocsp.

Module http.
(** The body of a response is the stream a [Reader] consumes. *)
Record Response := { StatusCode : Z; Body : bytes }.
Definition StatusOK : Z := 200.
End http.

Module url.
Record URL := { Scheme : string }.
End url.

(** [bytes.Equal] *)
Fixpoint bytes_Equal (a b : bytes) : bool :=
  match a, b with
  | [], [] => true
  | x :: a', y :: b' => Byte.eqb x y && bytes_Equal a' b'
  | _, _ => false
  end.

(** [type Reader func(r io.Reader) ([]byte, error)] *)
Definition Reader := bytes -> error + bytes.

(** ** The outside world *)

(** What the trace records: the operations on the cache mutex and the
    requests sent through the HTTP client. *)
Inductive Event :=
  | EvLock
  | EvUnlock
  | EvGet (uri : string)
  | EvPost (uri contentType : string) (body : bytes).

Definition isNetwork (e : Event) : bool :=
  match e with
  | EvGet _ | EvPost _ _ _ => true
  | EvLock | EvUnlock => false
  end.

(** The requests of a trace, in order. *)
Definition network (tr : list Event) : list Event := List.filter isNetwork tr.

(** A parser or builder returns an error or a value, never a nil value
    together with a nil error. *)
Class Externals (World : Type) := {
  (* net/http: the methods Get and Post of http.Client *)
  http_Get : string -> World -> (error + http.Response) * World;
  http_Post : string -> string -> bytes -> World -> (error + http.Response) * World;
  (* time.Now *)
  time_Now : World -> time.Time * World;
  (* io.ReadAll *)
  io_ReadAll : Reader;
  (* net/url *)
  url_Parse : string -> error + url.URL;
  url_QueryEscape : string -> string;
  (* encoding/base64: StdEncoding.EncodeToString *)
  base64_EncodeToString : bytes -> string;
  (* encoding/pem: whether pem.Decode finds a block *)
  pem_Decode : bytes -> bool;
  (* the helper ParseCertificatePEM of this package *)
  ParseCertificatePEM : bytes -> error + x509.Certificate;
  (* crypto/x509 *)
  x509_ParseCertificate : bytes -> error + x509.Certificate;
  x509_ParseRevocationList : bytes -> error + x509.RevocationList;
  x509_ParseCRL : bytes -> error + pkix.CertificateList;
  (* crl.CheckSignatureFrom(issuer) of x509.RevocationList *)
  CheckSignatureFrom : x509.RevocationList -> x509.Certificate -> option error;
  (* issuer.CheckCRLSignature(crl) of x509.Certificate *)
  CheckCRLSignature : x509.Certificate -> pkix.CertificateList -> option error;
  (* golang.org/x/crypto/ocsp, with the package's ocspOpts (SHA1) *)
  ocsp_CreateRequest : x509.Certificate -> x509.Certificate -> error + bytes;
  ocsp_ParseResponseForCert :
    bytes -> x509.Certificate -> x509.Certificate -> error + ocsp.Response
}.

(** ** State and the monad of the package *)

Section Monad.
Context {World : Type} {E : Externals World}.
(** [L] is the type of the cached lists: [x509.RevocationList], or
    [pkix.CertificateList] before go1.19. *)
Context {L : Type}.

(** [crls] is the map [map[string]*L]: a key may be bound to [nil]. *)
Record State := mkState {
  world : World;
  crls : gmap string (option L);
  trace : list Event
}.

Definition M (A : Type) : Type := State -> A * State.

Definition ret {A} (a : A) : M A := fun st => (a, st).
Definition bind {A B} (c : M A) (k : A -> M B) : M B :=
  fun st => let (a, st') := c st in k a st'.

Definition emit (e : Event) : M unit :=
  fun st => (tt, mkState (world st) (crls st) (trace st ++ [e])).

(** [Lock] and [Unlock] of [sync.Mutex].  A check is run on its own, so
    that [Lock] finds the mutex free; the trace tells where it is held. *)
Definition Lock : M unit := emit EvLock.
Definition Unlock : M unit := emit EvUnlock.

(** [crl, ok := m[uri]] *)
Definition mapLookup (uri : string) : M (option (option L)) :=
  fun st => (crls st !! uri, st).
(** [delete(m, uri)] *)
Definition mapDelete (uri : string) : M unit :=
  fun st => (tt, mkState (world st) (delete uri (crls st)) (trace st)).
(** [m[uri] = crl] *)
Definition mapStore (uri : string) (crl : L) : M unit :=
  fun st => (tt, mkState (world st) (<[uri := Some crl]> (crls st)) (trace st)).

(** [time.Now()] *)
Definition Now : M time.Time :=
  fun st => let (t, w) := time_Now (world st) in
            (t, mkState w (crls st) (trace st)).

(** [client.Get(uri)] *)
Definition client_Get (uri : string) : M (error + http.Response) :=
  fun st => let (r, w) := http_Get uri (world st) in
            (r, mkState w (crls st) (trace st ++ [EvGet uri])).

(** [client.Post(uri, contentType, body)] *)
Definition client_Post (uri contentType : string) (body : bytes)
  : M (error + http.Response) :=
  fun st => let (r, w) := http_Post uri contentType body (world st) in
            (r, mkState w (crls st) (trace st ++ [EvPost uri contentType body])).
End Monad.

Arguments State World L : clear implicits.
Arguments M World L A : clear implicits.

#[global] Instance M_ret {World L} : MRet (M World L) := fun A a => ret a.
#[global] Instance M_bind {World L} : MBind (M World L) := fun A B k c => bind c k.

(** A verdict: [(revoked, ok bool, err error)]. *)
Definition Verdict : Type := bool * bool * option error.

(** ** revoke.go: the package-level functions *)

(** The package variables a check reads.  [HTTPClient] is the client of
    [Externals]; [CRLSet] is the [crls] field of the state and [crlLock]
    shows in the trace. *)
Record Globals := {
  HardFail : bool;
  crlRead : Reader;
  remoteRead : Reader;
  ocspRead : Reader
}.

Definition SetCRLFetcher (fn : Reader) (g : Globals) : Globals :=
  {| HardFail := HardFail g; crlRead := fn;
     remoteRead := remoteRead g; ocspRead := ocspRead g |}.
Definition SetRemoteFetcher (fn : Reader) (g : Globals) : Globals :=
  {| HardFail := HardFail g; crlRead := crlRead g;
     remoteRead := fn; ocspRead := ocspRead g |}.
Definition SetOCSPFetcher (fn : Reader) (g : Globals) : Globals :=
  {| HardFail := HardFail g; crlRead := crlRead g;
     remoteRead := remoteRead g; ocspRead := fn |}.

Section Shared.
Context {World : Type} {E : Externals World}.

Definition ldapURL (uri : string) : bool :=
  match url_Parse uri with
  | inl _ => false
  | inr u => if String.eqb (url.Scheme u) "ldap" then true else false
  end.

(** The [switch] of [sendOCSPRequest] and [fetchOCSP] on the body. *)
Definition ocspErrorResponse (body : bytes) : option error :=
  if bytes_Equal body ocsp.UnauthorizedErrorResponse
  then Some (errors_New "OSCP unauthorized")
  else if bytes_Equal body ocsp.MalformedRequestErrorResponse
  then Some (errors_New "OSCP malformed")
  else if bytes_Equal body ocsp.InternalErrorErrorResponse
  then Some (errors_New "OSCP internal error")
  else if bytes_Equal body ocsp.TryLaterErrorResponse
  then Some (errors_New "OSCP try later")
  else if bytes_Equal body ocsp.SigRequredErrorResponse
  then Some (errors_New "OSCP signature required")
  else None.

(** The request the two OCSP senders issue: [len(req) > 256] posts the
    raw request, anything shorter is put into the URL of a GET. *)
Definition ocspSend {L} (server : string) (req : bytes)
  : M World L (error + http.Response) :=
  if 256 <? Z.of_nat (length req)
  then client_Post server "application/ocsp-request" req
  else
    let reqURL :=
      server +:+ "/" +:+ url_QueryEscape (base64_EncodeToString req) in
    client_Get reqURL.

(** The scans over the revoked entries:
    [cert.SerialNumber.Cmp(rcert.SerialNumber) == 0] for some entry. *)
Definition listedIn (cert : x509.Certificate)
    (revoked : list pkix.RevokedCertificate) : bool :=
  existsb (fun rcert => x509.SerialNumber cert =? pkix.SerialNumber rcert)
          revoked.
Definition listedInEntries (cert : x509.Certificate)
    (revoked : list x509.RevocationListEntry) : bool :=
  existsb (fun rcert => x509.SerialNumber cert =? x509.EntrySerialNumber rcert)
          revoked.
End Shared.

Section Package.
Context {World : Type} {E : Externals World}.
Variable g : Globals.

Section AnyList.
Context {L : Type}.
Local Abbreviation M' := (M World L).

Definition fetchRemote (uri : string) : M' (error + x509.Certificate) :=
  resp ← client_Get uri;
  match resp with
  | inl err => mret (inl err)
  | inr resp =>
      match remoteRead g (http.Body resp) with
      | inl err => mret (inl err)
      | inr body =>
          if pem_Decode body
          then mret (ParseCertificatePEM body)
          else mret (x509_ParseCertificate body)
      end
  end.

(** The loop of [getIssuer]; [issuer] is [nil] after a failed fetch. *)
Fixpoint getIssuer_from (urls : list string) : M' (option x509.Certificate) :=
  match urls with
  | [] => mret None
  | issuingCert :: rest =>
      r ← fetchRemote issuingCert;
      match r with
      | inl _ => getIssuer_from rest
      | inr issuer => mret (Some issuer)
      end
  end.

Definition getIssuer (cert : x509.Certificate) : M' (option x509.Certificate) :=
  getIssuer_from (x509.IssuingCertificateURL cert).

Definition sendOCSPRequest (server : string) (req : bytes)
    (leaf issuer : x509.Certificate) : M' (error + ocsp.Response) :=
  resp ← ocspSend server req;
  match resp with
  | inl err => mret (inl err)
  | inr resp =>
      if negb (http.StatusCode resp =? http.StatusOK)
      then mret (inl (errors_New "failed to retrieve OSCP"))
      else
        match ocspRead g (http.Body resp) with
        | inl err => mret (inl err)
        | inr body =>
            match ocspErrorResponse body with
            | Some err => mret (inl err)
            | None => mret (ocsp_ParseResponseForCert body leaf issuer)
            end
        end
  end.

(** The loop of [certIsRevokedOCSP].  [resp, err := sendOCSPRequest(..)]
    declares a new [err] inside the loop body, so the [err] returned
    after the loop is the one of the function scope, passed along here
    unchanged. *)
Fixpoint certIsRevokedOCSP_servers (servers : list string) (req : bytes)
    (leaf issuer : x509.Certificate) (strict : bool) (err : option error)
  : M' Verdict :=
  match servers with
  | [] => mret (false, false, err)
  | server :: rest =>
      r ← sendOCSPRequest server req leaf issuer;
      match r with
      | inl err' =>
          if strict then mret (false, false, Some err')
          else certIsRevokedOCSP_servers rest req leaf issuer strict err
      | inr resp =>
          let revoked := negb (ocsp.status_eqb (ocsp.Status resp) ocsp.Good) in
          mret (revoked, true, None)
      end
  end.

Definition certIsRevokedOCSP (leaf : x509.Certificate) (strict : bool)
  : M' Verdict :=
  let ocspURLs := x509.OCSPServer leaf in
  if (length ocspURLs =? 0)%nat then mret (false, true, None)
  else
    issuer ← getIssuer leaf;
    match issuer with
    | None => mret (false, false, None)
    | Some issuer =>
        match ocsp_CreateRequest leaf issuer with
        | inl err => mret (false, false, Some err)
        | inr ocspRequest =>
            certIsRevokedOCSP_servers ocspURLs ocspRequest leaf issuer
                                      strict None
        end
    end.
End AnyList.

Local Abbreviation M' := (M World x509.RevocationList).

Definition fetchCRL (uri : string) : M' (error + x509.RevocationList) :=
  resp ← client_Get uri;
  match resp with
  | inl err => mret (inl err)
  | inr resp =>
      if 300 <=? http.StatusCode resp
      then mret (inl (errors_New "failed to retrieve CRL"))
      else
        match crlRead g (http.Body resp) with
        | inl err => mret (inl err)
        | inr body => mret (x509_ParseRevocationList body)
        end
  end.

(** [certIsRevokedCRL] up to its scan: the list the scan runs over, or the
    error returned.  [cached] is the looked-up list when [ok] holds after
    the locked block; [fresh] is that list when [shouldFetchCRL] is
    false. *)
Definition certIsRevokedCRL_list (cert : x509.Certificate) (uri : string)
  : M' (error + x509.RevocationList) :=
  Lock;;
  r ← mapLookup uri;
  cached ← match r with
           | Some None => mapDelete uri;; mret None
           | Some (Some crl) => mret (Some crl)
           | None => mret None
           end;
  Unlock;;
  fresh ← match cached with
          | Some crl =>
              now ← Now;
              mret (if time.Before now (x509.NextUpdate crl)
                    then Some crl else None)
          | None => mret None
          end;
  issuer ← getIssuer cert;
  match fresh with
  | Some crl => mret (inr crl)
  | None =>
      r ← fetchCRL uri;
      match r with
      | inl err => mret (inl err)
      | inr crl =>
          match from_option (CheckSignatureFrom crl) None issuer with
          | Some err => mret (inl err)
          | None => Lock;; mapStore uri crl;; Unlock;; mret (inr crl)
          end
      end
  end.

Definition certIsRevokedCRL (cert : x509.Certificate) (uri : string)
  : M' Verdict :=
  r ← certIsRevokedCRL_list cert uri;
  match r with
  | inl err => mret (false, false, Some err)
  | inr crl =>
      if listedIn cert (x509.RevokedCertificates crl)
      then mret (true, true, None)
      else mret (false, true, None)
  end.

(** The first loop of [revCheck]: [Some] verdict when it returns. *)
Fixpoint revCheck_crls (cert : x509.Certificate) (urls : list string)
  : M' (option Verdict) :=
  match urls with
  | [] => mret None
  | uri :: rest =>
      if ldapURL uri then revCheck_crls cert rest
      else
        v ← certIsRevokedCRL cert uri;
        let '(revoked, ok, err) := (v : Verdict) in
        if negb ok then
          if HardFail g then mret (Some (true, false, err))
          else mret (Some (false, false, err))
        else if revoked then mret (Some (true, true, err))
        else revCheck_crls cert rest
  end.

Definition revCheck (cert : x509.Certificate) : M' Verdict :=
  r ← revCheck_crls cert (x509.CRLDistributionPoints cert);
  match r with
  | Some verdict => mret verdict
  | None =>
      v ← certIsRevokedOCSP cert (HardFail g);
      let '(revoked, ok, err) := (v : Verdict) in
      if negb ok then
        if HardFail g then mret (true, false, err)
        else mret (false, false, err)
      else if revoked then mret (true, true, err)
      else mret (false, true, None)
  end.

Definition VerifyCertificateError (cert : x509.Certificate) : M' Verdict :=
  now ← Now;
  if negb (time.Before now (x509.NotAfter cert))
  then mret (true, true, Some (ErrCertificateExpired (x509.NotAfter cert)))
  else
    now ← Now;
    if negb (time.After now (x509.NotBefore cert))
    then mret (true, true, Some (ErrCertificateNotYetValid (x509.NotBefore cert)))
    else revCheck cert.

Definition VerifyCertificate (cert : x509.Certificate) : M' (bool * bool) :=
  v ← VerifyCertificateError cert;
  let '(revoked, ok, _) := (v : Verdict) in
  mret (revoked, ok).
End Package.

(** ** revoke_legacy.go: the CRL check before go1.19 *)

Module Legacy.
Section Legacy.
Context {World : Type} {E : Externals World}.
Variable g : Globals.
Local Abbreviation M' := (M World pkix.CertificateList).

Definition fetchCRL (uri : string) : M' (error + pkix.CertificateList) :=
  resp ← client_Get uri;
  match resp with
  | inl err => mret (inl err)
  | inr resp =>
      if 300 <=? http.StatusCode resp
      then mret (inl ErrFailedGetCRL)
      else
        match crlRead g (http.Body resp) with
        | inl err => mret (inl err)
        | inr body => mret (x509_ParseCRL body)
        end
  end.

(** As in [revoke.go], with [!crl.HasExpired(time.Now())] as the
    freshness test and [issuer.CheckCRLSignature(crl)] as the check. *)
Definition certIsRevokedCRL_list (cert : x509.Certificate) (uri : string)
  : M' (error + pkix.CertificateList) :=
  Lock;;
  r ← mapLookup uri;
  cached ← match r with
           | Some None => mapDelete uri;; mret None
           | Some (Some crl) => mret (Some crl)
           | None => mret None
           end;
  Unlock;;
  fresh ← match cached with
          | Some crl =>
              now ← Now;
              mret (if negb (pkix.HasExpired crl now) then Some crl else None)
          | None => mret None
          end;
  issuer ← getIssuer g cert;
  match fresh with
  | Some crl => mret (inr crl)
  | None =>
      r ← fetchCRL uri;
      match r with
      | inl err => mret (inl err)
      | inr crl =>
          match from_option (fun issuer => CheckCRLSignature issuer crl)
                            None issuer with
          | Some err => mret (inl err)
          | None => Lock;; mapStore uri crl;; Unlock;; mret (inr crl)
          end
      end
  end.

Definition certIsRevokedCRL (cert : x509.Certificate) (uri : string)
  : M' Verdict :=
  r ← certIsRevokedCRL_list cert uri;
  match r with
  | inl err => mret (false, false, Some err)
  | inr crl =>
      if listedIn cert (pkix.RevokedCertificates (pkix.TBSCertList crl))
      then mret (true, true, None)
      else mret (false, true, None)
  end.
End Legacy.
End Legacy.

(** ** verifier.go: the methods of [Verifier] *)

(** The configuration of a [Verifier].  Its [client] is the client of
    [Externals]; its [crls] map is the [crls] field of the state and its
    [lock] shows in the trace.  [readerCRL] and [readerOCSP] may be nil. *)
Record Verifier := {
  strict : bool;
  reader : Reader;
  readerCRL : option Reader;
  readerOCSP : option Reader
}.

Definition VerifierOption := Verifier -> Verifier.

Definition WithStrict : VerifierOption := fun validator =>
  {| strict := true; reader := reader validator;
     readerCRL := readerCRL validator; readerOCSP := readerOCSP validator |}.
Definition WithReader (r : Reader) : VerifierOption := fun validator =>
  {| strict := strict validator; reader := r;
     readerCRL := readerCRL validator; readerOCSP := readerOCSP validator |}.
Definition WithCRLReader (r : Reader) : VerifierOption := fun validator =>
  {| strict := strict validator; reader := reader validator;
     readerCRL := Some r; readerOCSP := readerOCSP validator |}.
Definition WithOCSPReader (r : Reader) : VerifierOption := fun validator =>
  {| strict := strict validator; reader := reader validator;
     readerCRL := readerCRL validator; readerOCSP := Some r |}.

Module Verifier.
Section Verifier.
Context {World : Type} {E : Externals World}.
Local Abbreviation M' := (M World x509.RevocationList).

(** [NewVerifier]: the configuration; its cache starts empty. *)
Definition NewVerifier (opts : list VerifierOption) : Verifier :=
  fold_left (fun verifier opt => opt verifier) opts
    {| strict := false; reader := io_ReadAll;
       readerCRL := None; readerOCSP := None |}.
Definition NewVerifier_state (w : World) : State World x509.RevocationList :=
  mkState w ∅ [].

Variable v : Verifier.

Definition readfunc (r : option Reader) : Reader :=
  match r with
  | Some r => r
  | None => reader v
  end.

Definition fetch (uri : string) (read : Reader)
  : M' (error + http.Response * bytes) :=
  resp ← client_Get uri;
  match resp with
  | inl err => mret (inl err)
  | inr resp =>
      match read (http.Body resp) with
      | inl err => mret (inl err)
      | inr body => mret (inr (resp, body))
      end
  end.

Definition fetchCert (uri : string) : M' (error + x509.Certificate) :=
  r ← fetch uri (reader v);
  match r with
  | inl err => mret (inl err)
  | inr (_, body) =>
      if pem_Decode body
      then mret (ParseCertificatePEM body)
      else mret (x509_ParseCertificate body)
  end.

Definition fetchCRL (uri : string) : M' (error + x509.RevocationList) :=
  r ← fetch uri (readfunc (readerCRL v));
  match r with
  | inl err => mret (inl err)
  | inr (resp, body) =>
      if 300 <=? http.StatusCode resp
      then mret (inl ErrFailedGetCRL)
      else mret (x509_ParseRevocationList body)
  end.

Definition fetchOCSP (server : string) (req : bytes)
    (leaf issuer : x509.Certificate) : M' (error + ocsp.Response) :=
  resp ← ocspSend server req;
  match resp with
  | inl err => mret (inl err)
  | inr resp =>
      if negb (http.StatusCode resp =? http.StatusOK)
      then mret (inl (errors_New "failed to retrieve OSCP"))
      else
        match readfunc (readerOCSP v) (http.Body resp) with
        | inl err => mret (inl err)
        | inr body =>
            match ocspErrorResponse body with
            | Some err => mret (inl err)
            | None => mret (ocsp_ParseResponseForCert body leaf issuer)
            end
        end
  end.

Fixpoint GetIssuer_from (urls : list string) : M' (option x509.Certificate) :=
  match urls with
  | [] => mret None
  | uri :: rest =>
      r ← fetchCert uri;
      match r with
      | inl _ => GetIssuer_from rest
      | inr issuer => mret (Some issuer)
      end
  end.

Definition GetIssuer (cert : x509.Certificate) : M' (option x509.Certificate) :=
  GetIssuer_from (x509.IssuingCertificateURL cert).

(** The loop of [CertificateRevokedOCSP]; here [resp, err = ...] assigns
    the [err] of the function scope, which is returned after the loop. *)
Fixpoint CertificateRevokedOCSP_servers (servers : list string) (req : bytes)
    (cert issuer : x509.Certificate) (err : option error) : M' Verdict :=
  match servers with
  | [] => mret (false, false, err)
  | server :: rest =>
      r ← fetchOCSP server req cert issuer;
      match r with
      | inl err' =>
          if strict v then mret (false, false, Some err')
          else CertificateRevokedOCSP_servers rest req cert issuer (Some err')
      | inr resp =>
          let revoked := negb (ocsp.status_eqb (ocsp.Status resp) ocsp.Good) in
          mret (revoked, true, None)
      end
  end.

Definition CertificateRevokedOCSP (cert : x509.Certificate) : M' Verdict :=
  let ocspURLs := x509.OCSPServer cert in
  if (length ocspURLs =? 0)%nat then mret (false, true, None)
  else
    issuer ← GetIssuer cert;
    match issuer with
    | None => mret (false, false, None)
    | Some issuer =>
        match ocsp_CreateRequest cert issuer with
        | inl err => mret (false, false, Some err)
        | inr req =>
            CertificateRevokedOCSP_servers ocspURLs req cert issuer None
        end
    end.

(** [CertificateRevokedCRL] up to its scan.  The mutex taken on entry is
    released by [defer v.lock.Unlock()], that is, when the function
    returns: see [CertificateRevokedCRL]. *)
Definition CertificateRevokedCRL_list (cert : x509.Certificate) (uri : string)
  : M' (error + x509.RevocationList) :=
  Lock;;
  r ← mapLookup uri;
  cached ← match r with
           | Some None => mapDelete uri;; mret None
           | Some (Some crl) => mret (Some crl)
           | None => mret None
           end;
  fresh ← match cached with
          | Some crl =>
              now ← Now;
              mret (if time.Before now (x509.NextUpdate crl)
                    then Some crl else None)
          | None => mret None
          end;
  issuer ← GetIssuer cert;
  match fresh with
  | Some crl => mret (inr crl)
  | None =>
      r ← fetchCRL uri;
      match r with
      | inl err => mret (inl err)
      | inr crl =>
          match from_option (CheckSignatureFrom crl) None issuer with
          | Some err => mret (inl err)
          | None => mapStore uri crl;; mret (inr crl)
          end
      end
  end.

Definition CertificateRevokedCRL (cert : x509.Certificate) (uri : string)
  : M' Verdict :=
  r ← CertificateRevokedCRL_list cert uri;
  let verdict : Verdict :=
    match r with
    | inl err => (false, false, Some err)
    | inr crl =>
        if listedInEntries cert (x509.RevokedCertificateEntries crl)
        then (true, true, None)
        else (false, true, None)
    end in
  Unlock;;
  mret verdict.

Fixpoint CertificateRevoked_crls (cert : x509.Certificate) (urls : list string)
  : M' (option Verdict) :=
  match urls with
  | [] => mret None
  | uri :: rest =>
      if ldapURL uri then CertificateRevoked_crls cert rest
      else
        r ← CertificateRevokedCRL cert uri;
        let '(revoked, ok, err) := (r : Verdict) in
        if negb ok then
          if strict v then mret (Some (true, false, err))
          else mret (Some (false, false, err))
        else if revoked then mret (Some (true, true, err))
        else CertificateRevoked_crls cert rest
  end.

Definition CertificateRevoked (cert : x509.Certificate) : M' Verdict :=
  r ← CertificateRevoked_crls cert (x509.CRLDistributionPoints cert);
  match r with
  | Some verdict => mret verdict
  | None =>
      r ← CertificateRevokedOCSP cert;
      let '(revoked, ok, err) := (r : Verdict) in
      if negb ok then
        if strict v then mret (true, false, err)
        else mret (false, false, err)
      else if revoked then mret (true, true, err)
      else mret (false, true, None)
  end.

Definition CertificateValid (cert : x509.Certificate) : M' Verdict :=
  now ← Now;
  if negb (time.Before now (x509.NotAfter cert))
  then mret (true, true, Some (ErrCertificateExpired (x509.NotAfter cert)))
  else
    now ← Now;
    if negb (time.After now (x509.NotBefore cert))
    then mret (true, true, Some (ErrCertificateNotYetValid (x509.NotBefore cert)))
    else CertificateRevoked cert.
End Verifier.
End Verifier.

(** ** The two code paths behind the contracts of the specification

    [verify], [checkCRL], [checkOCSP] and [resolveIssuer] are implemented
    twice: by the package-level functions, governed by [HardFail], and by
    the methods of a [Verifier], governed by its [strict] flag. *)

Inductive path :=
  | PackageLevel (g : Globals)
  | Method (v : Verifier).

Section Paths.
Context {World : Type} {E : Externals World}.
Local Abbreviation M' := (M World x509.RevocationList).

Definition strictOf (p : path) : bool :=
  match p with
  | PackageLevel g => HardFail g
  | Method v => strict v
  end.

Definition verify (p : path) : x509.Certificate -> M' Verdict :=
  match p with
  | PackageLevel g => VerifyCertificateError g
  | Method v => Verifier.CertificateValid v
  end.

Definition resolveIssuer (p : path)
  : x509.Certificate -> M' (option x509.Certificate) :=
  match p with
  | PackageLevel g => getIssuer g
  | Method v => Verifier.GetIssuer v
  end.

Definition checkCRL_list (p : path)
  : x509.Certificate -> string -> M' (error + x509.RevocationList) :=
  match p with
  | PackageLevel g => certIsRevokedCRL_list g
  | Method v => Verifier.CertificateRevokedCRL_list v
  end.

Definition checkCRL (p : path) : x509.Certificate -> string -> M' Verdict :=
  match p with
  | PackageLevel g => certIsRevokedCRL g
  | Method v => Verifier.CertificateRevokedCRL v
  end.

(** The loop over the distribution points; [None] when it falls through
    to the OCSP stage. *)
Definition checkCRLs (p : path)
  : x509.Certificate -> list string -> M' (option Verdict) :=
  match p with
  | PackageLevel g => revCheck_crls g
  | Method v => Verifier.CertificateRevoked_crls v
  end.

Definition checkOCSP (p : path) : x509.Certificate -> M' Verdict :=
  match p with
  | PackageLevel g => fun cert => certIsRevokedOCSP g cert (HardFail g)
  | Method v => Verifier.CertificateRevokedOCSP v
  end.

(** The two stages after the temporal check. *)
Definition revocation (p : path) : x509.Certificate -> M' Verdict :=
  match p with
  | PackageLevel g => revCheck g
  | Method v => Verifier.CertificateRevoked v
  end.

Definition sendOCSP (p : path)
  : string -> bytes -> x509.Certificate -> x509.Certificate ->
    M' (error + ocsp.Response) :=
  match p with
  | PackageLevel g => sendOCSPRequest g
  | Method v => Verifier.fetchOCSP v
  end.

(** The reader applied to the body of a fetched CRL. *)
Definition crlReader (p : path) : Reader :=
  match p with
  | PackageLevel g => crlRead g
  | Method v => Verifier.readfunc v (readerCRL v)
  end.

(** Whether the scan of a path finds the serial number of [cert]. *)
Definition listed (p : path) (cert : x509.Certificate)
    (crl : x509.RevocationList) : bool :=
  match p with
  | PackageLevel _ => listedIn cert (x509.RevokedCertificates crl)
  | Method _ => listedInEntries cert (x509.RevokedCertificateEntries crl)
  end.

(** The serial numbers a path scans. *)
Definition serials (p : path) (crl : x509.RevocationList) : list Z :=
  match p with
  | PackageLevel _ => map pkix.SerialNumber (x509.RevokedCertificates crl)
  | Method _ => map x509.EntrySerialNumber (x509.RevokedCertificateEntries crl)
  end.
End Paths.

(** ** Properties of traces and caches *)

(** No request is sent while the mutex is held; [held] tells whether it is
    held where the trace starts. *)
Fixpoint lockScoped_from (held : bool) (tr : list Event) : bool :=
  match tr with
  | [] => true
  | EvLock :: tr' => lockScoped_from true tr'
  | EvUnlock :: tr' => lockScoped_from false tr'
  | (EvGet _ | EvPost _ _ _) :: tr' => negb held && lockScoped_from held tr'
  end.

Definition lockScoped (tr : list Event) : bool := lockScoped_from false tr.

(** Whether the mutex is held at the end of a trace. *)
Fixpoint heldAfter (held : bool) (tr : list Event) : bool :=
  match tr with
  | [] => held
  | EvLock :: tr' => heldAfter true tr'
  | EvUnlock :: tr' => heldAfter false tr'
  | _ :: tr' => heldAfter held tr'
  end.

(** The cache once a nil entry for [uri] has been evicted. *)
Definition evict {L} (uri : string) (m : gmap string (option L))
  : gmap string (option L) :=
  match m !! uri with
  | Some None => delete uri m
  | _ => m
  end.

(** What a caller can observe of a verdict when errors are compared by
    presence only. *)
Definition observe (v : Verdict) : bool * bool * bool :=
  let '(revoked, ok, err) := v in (revoked, ok, bool_decide (is_Some err)).

(** What a call of the CRL check for [uri], which took the cache from that
    of [st] to that of [st'], may do to the cache: nothing beyond the
    eviction of a nil entry for [uri], or, on a completed check only, bind
    [uri] to a non-nil list that satisfies [accepted]. *)
Definition cacheOutcome {World L} (st st' : State World L) (uri : string)
    (ok : bool) (err : option error) (accepted : L -> Prop) : Prop :=
  crls st' = evict uri (crls st)
  ∨ (ok = true ∧ err = None
     ∧ ∃ crl, crls st' = <[uri := Some crl]> (crls st) ∧ accepted crl).

Section Accepted.
Context {World : Type} {E : Externals World}.

(** [crl] was obtained during a call for [cert] and [uri] entered in state
    [st]: after the eviction of a nil entry and at most one reading of the
    clock the issuer was looked for; then the GET of [uri] answered with a
    status below 300 and a body that was read and parsed to [crl]; and the
    signature of [crl] was validated against the issuer if one was found. *)
Definition acceptedList (p : path) (cert : x509.Certificate) (uri : string)
    (st : State World x509.RevocationList) (crl : x509.RevocationList) : Prop :=
  ∃ sa sb issuer resp w body,
    crls sa = evict uri (crls st)
    ∧ (world sa = world st ∨ world sa = (time_Now (world st)).2)
    ∧ resolveIssuer p cert sa = (issuer, sb)
    ∧ http_Get uri (world sb) = (inr resp, w)
    ∧ http.StatusCode resp < 300
    ∧ crlReader p (http.Body resp) = inr body
    ∧ x509_ParseRevocationList body = inr crl
    ∧ ∀ i, issuer = Some i → CheckSignatureFrom crl i = None.

(** The same for the check of [revoke_legacy.go]. *)
Definition acceptedLegacyList (g : Globals) (cert : x509.Certificate)
    (uri : string) (st : State World pkix.CertificateList)
    (crl : pkix.CertificateList) : Prop :=
  ∃ sa sb issuer resp w body,
    crls sa = evict uri (crls st)
    ∧ (world sa = world st ∨ world sa = (time_Now (world st)).2)
    ∧ getIssuer g cert sa = (issuer, sb)
    ∧ http_Get uri (world sb) = (inr resp, w)
    ∧ http.StatusCode resp < 300
    ∧ crlRead g (http.Body resp) = inr body
    ∧ x509_ParseCRL body = inr crl
    ∧ ∀ i, issuer = Some i → CheckCRLSignature i crl = None.
End Accepted.

(** The events a package-level CRL check appends to the trace: the locked
    lookup, the GETs of issuer resolution, and then nothing (fresh cached
    list), the fetch alone (fetch or validation failed) or the fetch and
    the locked store. *)
Definition unlockedShape (uri : string) (issuers : list string)
    (evs : list Event) : Prop :=
  ∃ k tail, evs = [EvLock; EvUnlock] ++ map EvGet (take k issuers) ++ tail
    ∧ (tail = [] ∨ tail = [EvGet uri] ∨ tail = [EvGet uri; EvLock; EvUnlock]).

(** The events the CRL check of a [Verifier] appends: everything happens
    between taking the mutex and the deferred release. *)
Definition lockedShape (uri : string) (issuers : list string)
    (evs : list Event) : Prop :=
  ∃ k tail, evs = [EvLock] ++ map EvGet (take k issuers) ++ tail ++ [EvUnlock]
    ∧ (tail = [] ∨ tail = [EvGet uri]).

(** ** A small world to run the package in

    A certification authority at [ca.test] that publishes its certificate,
    one CRL listing serial 7, one CRL listing serial 9 and one CRL that
    answers with status 500; every other request fails to connect.  The
    clock starts at the value of the world and advances by one at each
    reading. *)

Module Scenario.
Definition issuerCert : x509.Certificate :=
  {| x509.SerialNumber := 1;
     x509.NotBefore := 0; x509.NotAfter := 5000;
     x509.CRLDistributionPoints := [];
     x509.OCSPServer := [];
     x509.IssuingCertificateURL := [] |}.

Definition listOf (serial : Z) : x509.RevocationList :=
  {| x509.NextUpdate := 2000;
     x509.RevokedCertificateEntries :=
       [ {| x509.EntrySerialNumber := serial; x509.EntryRevocationTime := 10 |} ];
     x509.RevokedCertificates :=
       [ {| pkix.SerialNumber := serial; pkix.RevocationTime := 10 |} ] |}.

Definition legacyListOf (serial : Z) : pkix.CertificateList :=
  {| pkix.TBSCertList :=
       {| pkix.NextUpdate := 2000;
          pkix.RevokedCertificates :=
            [ {| pkix.SerialNumber := serial; pkix.RevocationTime := 10 |} ] |} |}.

Definition get (uri : string) : error + http.Response :=
  if String.eqb uri "http://ca.test/ca.crt"
  then inr {| http.StatusCode := 200; http.Body := [Byte.x01] |}
  else if String.eqb uri "http://ca.test/seven.crl"
  then inr {| http.StatusCode := 200; http.Body := [Byte.x07] |}
  else if String.eqb uri "http://ca.test/nine.crl"
  then inr {| http.StatusCode := 200; http.Body := [Byte.x09] |}
  else if String.eqb uri "http://ca.test/down.crl"
  then inr {| http.StatusCode := 500; http.Body := [] |}
  else inl (ErrExternal 1).

#[global] Instance env : Externals Z := {|
  http_Get := fun uri w => (get uri, w);
  http_Post := fun _ _ _ w => (inl (ErrExternal 1), w);
  time_Now := fun w => (w, w + 1);
  io_ReadAll := inr;
  url_Parse := fun uri =>
    if String.prefix "ldap:" uri
    then inr {| url.Scheme := "ldap" |}
    else inr {| url.Scheme := "http" |};
  url_QueryEscape := fun s => s;
  base64_EncodeToString := fun _ => "AA==";
  pem_Decode := fun _ => false;
  ParseCertificatePEM := fun _ => inl (ErrExternal 2);
  x509_ParseCertificate := fun body =>
    if bytes_Equal body [Byte.x01] then inr issuerCert
    else inl (ErrExternal 3);
  x509_ParseRevocationList := fun body =>
    match body with
    | [b] => inr (listOf (Z.of_N (Byte.to_N b)))
    | _ => inl (ErrExternal 4)
    end;
  x509_ParseCRL := fun body =>
    match body with
    | [b] => inr (legacyListOf (Z.of_N (Byte.to_N b)))
    | _ => inl (ErrExternal 4)
    end;
  CheckSignatureFrom := fun _ _ => None;
  CheckCRLSignature := fun _ _ => None;
  ocsp_CreateRequest := fun _ _ => inr [Byte.x00];
  ocsp_ParseResponseForCert := fun _ _ _ =>
    inr {| ocsp.Status := ocsp.Good; ocsp.NextUpdate := 3000 |}
|}.

Definition globals (hardFail : bool) : Globals :=
  {| HardFail := hardFail; crlRead := inr; remoteRead := inr; ocspRead := inr |}.

Definition verifier (strict : bool) : Verifier :=
  {| strict := strict; reader := inr; readerCRL := None; readerOCSP := None |}.

(** A leaf certificate, valid from 100 to 1000. *)
Definition leaf (serial : Z) (crlURLs ocspURLs issuerURLs : list string)
  : x509.Certificate :=
  {| x509.SerialNumber := serial;
     x509.NotBefore := 100; x509.NotAfter := 1000;
     x509.CRLDistributionPoints := crlURLs;
     x509.OCSPServer := ocspURLs;
     x509.IssuingCertificateURL := issuerURLs |}.

(** The state at time [now] with the given cache and an empty trace. *)
Definition at_time {L} (now : Z) (cache : gmap string (option L))
  : State Z L :=
  mkState now cache [].
End Scenario.

(** ** Notions used to describe runs of the loops *)

Section Runs.
Context {World : Type} {E : Externals World}.
Local Abbreviation M' := (M World x509.RevocationList).

(** Fetching one issuer certificate, on either path. *)
Definition fetchIssuer (p : path) : string -> M' (error + x509.Certificate) :=
  match p with
  | PackageLevel g => fetchRemote g
  | Method v => Verifier.fetchCert v
  end.

(** The state after fetching the certificates at [urls] in order when every
    one of these fetches fails; [None] when one of them succeeds. *)
Fixpoint fetchesFail (p : path) (urls : list string)
    (st : State World x509.RevocationList)
  : option (State World x509.RevocationList) :=
  match urls with
  | [] => Some st
  | uri :: rest =>
      match fetchIssuer p uri st with
      | (inl _, st1) => fetchesFail p rest st1
      | (inr _, _) => None
      end
  end.

(** The state after sending [req] to the responders [servers] in order when
    every one of them fails; [None] when one of them answers. *)
Fixpoint respondersFail (p : path) (servers : list string) (req : bytes)
    (leaf issuer : x509.Certificate) (st : State World x509.RevocationList)
  : option (State World x509.RevocationList) :=
  match servers with
  | [] => Some st
  | server :: rest =>
      match sendOCSP p server req leaf issuer st with
      | (inl _, st1) => respondersFail p rest req leaf issuer st1
      | (inr _, _) => None
      end
  end.
End Runs.

(** ** What a CRL check does, told by the calls it makes *)

Section Described.
Context {World : Type} {E : Externals World}.
Local Abbreviation St := (State World x509.RevocationList).

(** The cached list for [uri] when there is one and the clock, read once,
    shows an instant before its next-update instant. *)
Definition freshList (uri : string) (st : St) : option x509.RevocationList :=
  match crls st !! uri with
  | Some (Some crl) =>
      if time.Before (time_Now (world st)).1 (x509.NextUpdate crl)
      then Some crl else None
  | _ => None
  end.

(** The state in which a CRL check for [uri] entered in [st] looks for the
    issuer: the mutex was taken (and, at package level, released), a nil
    entry for [uri] was evicted, and the clock was read if a list was
    cached. *)
Definition lookupState (p : path) (uri : string) (st : St) : St :=
  mkState
    (match crls st !! uri with
     | Some (Some _) => (time_Now (world st)).2
     | _ => world st
     end)
    (evict uri (crls st))
    (trace st ++ match p with
                 | PackageLevel _ => [EvLock; EvUnlock]
                 | Method _ => [EvLock]
                 end).

(** Fetching and parsing a list, on either path. *)
Definition fetchList (p : path) : string -> M World x509.RevocationList
                                            (error + x509.RevocationList) :=
  match p with
  | PackageLevel g => fetchCRL g
  | Method v => Verifier.fetchCRL v
  end.

(** The state after [crl] was stored for [uri] in state [st]: under the
    mutex at package level, under the mutex still held for a verifier. *)
Definition storeState (p : path) (uri : string) (crl : x509.RevocationList)
    (st : St) : St :=
  mkState (world st) (<[uri := Some crl]> (crls st))
    (trace st ++ match p with
                 | PackageLevel _ => [EvLock; EvUnlock]
                 | Method _ => []
                 end).

(** The state a CRL check returns when its list was obtained in [st]: a
    verifier releases the mutex on return. *)
Definition returnState (p : path) (st : St) : St :=
  mkState (world st) (crls st)
    (trace st ++ match p with
                 | PackageLevel _ => []
                 | Method _ => [EvUnlock]
                 end).

(** The list a distribution point offers to a check entered in [st], with
    the state in which the check has it: the cached list while it is
    fresh; otherwise the list fetched from [uri], when the fetch succeeds
    and the signature is valid for the issuer, if one was resolved.  [None]
    when the fetch or the validation fails. *)
Definition offered (p : path) (cert : x509.Certificate) (uri : string)
    (st : St) : option (x509.RevocationList * St) :=
  let (issuer, sb) := resolveIssuer p cert (lookupState p uri st) in
  match freshList uri st with
  | Some crl => Some (crl, sb)
  | None =>
      match fetchList p uri sb with
      | (inl _, _) => None
      | (inr crl, sc) =>
          match from_option (CheckSignatureFrom crl) None issuer with
          | Some _ => None
          | None => Some (crl, storeState p uri crl sc)
          end
      end
  end.

(** The state after the CRL checks of the distribution points [urls], one
    after the other and those of the ldap scheme left out, when every check
    is completed and finds the certificate not revoked; [None] when one of
    them fails or finds it revoked. *)
Fixpoint pointsPass (p : path) (cert : x509.Certificate) (urls : list string)
    (st : St) : option St :=
  match urls with
  | [] => Some st
  | uri :: rest =>
      if ldapURL uri then pointsPass p cert rest st
      else
        match checkCRL p cert uri st with
        | ((false, true, _), st1) => pointsPass p cert rest st1
        | _ => None
        end
  end.

(** The issuer URLs asked when the certificates at [urls] are fetched in
    order until one fetch yields a certificate: the URLs up to and
    including the first that does, or all of them. *)
Fixpoint issuerRequests (p : path) (urls : list string) (st : St)
  : list string :=
  match urls with
  | [] => []
  | uri :: rest =>
      uri :: match fetchIssuer p uri st with
             | (inl _, st1) => issuerRequests p rest st1
             | (inr _, _) => []
             end
  end.
End Described.


(** The options of [verifier.go] that act on the configuration modelled
    here ([WithClient] replaces the client, which is part of [Externals]). *)
Inductive provided : VerifierOption -> Prop :=
  | provided_WithStrict : provided WithStrict
  | provided_WithReader r : provided (WithReader r)
  | provided_WithCRLReader r : provided (WithCRLReader r)
  | provided_WithOCSPReader r : provided (WithOCSPReader r).

(** The reader applied to the body of an OCSP answer. *)
Definition ocspReader (p : path) : Reader :=
  match p with
  | PackageLevel g => ocspRead g
  | Method v => Verifier.readfunc v (readerOCSP v)
  end.

(** ** Notions used to compare the two code paths *)

(** The two booleans of a verdict. *)
Definition decision (verdict : Verdict) : bool * bool :=
  let '(revoked, ok, _) := verdict in (revoked, ok).

(** Two states with the same world and the same cache. *)
Definition sameStore {World L} (s s' : State World L) : Prop :=
  world s = world s' ∧ crls s = crls s'.

(** The flag and the readers of the package variables are those of the
    verifier. *)
Definition sameConfig (g : Globals) (v : Verifier) : Prop :=
  HardFail g = strict v
  ∧ (∀ body, remoteRead g body = reader v body)
  ∧ (∀ body, crlRead g body = Verifier.readfunc v (readerCRL v) body)
  ∧ (∀ body, ocspRead g body = Verifier.readfunc v (readerOCSP v) body).

(** The two sequences of revoked certificates of a list, the one scanned by
    [certIsRevokedCRL] and the one scanned by [CertificateRevokedCRL], name
    the same serial numbers in the same order. *)
Definition sameSerials (crl : x509.RevocationList) : Prop :=
  map pkix.SerialNumber (x509.RevokedCertificates crl)
  = map x509.EntrySerialNumber (x509.RevokedCertificateEntries crl).

(** Every list in the cache does. *)
Definition cacheSameSerials (m : gmap string (option x509.RevocationList))
  : Prop :=
  ∀ uri crl, m !! uri = Some (Some crl) → sameSerials crl.

(** ** The small world with an OCSP responder

    As [Scenario], with a responder at [ocsp.ca.test] that answers every
    request with a response the parser reads as good, and a request builder
    that refuses the certificate with serial 13. *)

Module Responder.
Definition get (uri : string) : error + http.Response :=
  if String.eqb uri "http://ocsp.ca.test/AA=="
  then inr {| http.StatusCode := 200; http.Body := [Byte.x00] |}
  else Scenario.get uri.

Definition env : Externals Z := {|
  http_Get := fun uri w => (get uri, w);
  http_Post := @http_Post Z Scenario.env;
  time_Now := @time_Now Z Scenario.env;
  io_ReadAll := @io_ReadAll Z Scenario.env;
  url_Parse := @url_Parse Z Scenario.env;
  url_QueryEscape := @url_QueryEscape Z Scenario.env;
  base64_EncodeToString := @base64_EncodeToString Z Scenario.env;
  pem_Decode := @pem_Decode Z Scenario.env;
  ParseCertificatePEM := @ParseCertificatePEM Z Scenario.env;
  x509_ParseCertificate := @x509_ParseCertificate Z Scenario.env;
  x509_ParseRevocationList := @x509_ParseRevocationList Z Scenario.env;
  x509_ParseCRL := @x509_ParseCRL Z Scenario.env;
  CheckSignatureFrom := @CheckSignatureFrom Z Scenario.env;
  CheckCRLSignature := @CheckCRLSignature Z Scenario.env;
  ocsp_CreateRequest := fun leaf _ =>
    if x509.SerialNumber leaf =? 13 then inl (ErrExternal 5)
    else inr [Byte.x00];
  ocsp_ParseResponseForCert := @ocsp_ParseResponseForCert Z Scenario.env
|}.
End Responder.

(** Inputs of the examples: the list of serial 7 cached for its URL, and a
    leaf with that distribution point and the issuer URL of the
    authority. *)
Module Inputs.
Definition sevenURL : string := "http://ca.test/seven.crl".
Definition cachedSeven : gmap string (option x509.RevocationList) :=
  {[ sevenURL := Some (Scenario.listOf 7) ]}.
Definition leafCRL (serial : Z) : x509.Certificate :=
  Scenario.leaf serial [sevenURL] [] ["http://ca.test/ca.crt"].
Definition leafOCSP (serial : Z) (responders : list string) : x509.Certificate :=
  Scenario.leaf serial [] responders ["http://ca.test/ca.crt"].
End Inputs.

(** * Properties *)

(** ** Running the monad *)

Section Run.
Context {World : Type} {E : Externals World} {L : Type}.

Lemma run_bind {A B} (c : M World L A) (k : A -> M World L B) st :
  (c ≫= k) st = let (a, st') := c st in k a st'.
Proof. reflexivity. Qed.

Lemma run_ret {A} (a : A) (st : State World L) :
  (mret a : M World L A) st = (a, st).
Proof. reflexivity. Qed.
End Run.

Ltac run :=
  repeat (rewrite ?run_bind, ?run_ret; cbn beta iota).

(** ** C3: the temporal check *)

Section Temporal.
Context {World : Type} {E : Externals World}.
Implicit Types (p : path) (cert : x509.Certificate)
               (st : State World x509.RevocationList).

(** Both implementations of [verify] open with the same two readings of
    the clock. *)
Lemma verify_unfold p cert st :
  verify p cert st =
    let (t1, st1) := Now st in
    if negb (time.Before t1 (x509.NotAfter cert))
    then ((true, true, Some (ErrCertificateExpired (x509.NotAfter cert))), st1)
    else
      let (t2, st2) := Now st1 in
      if negb (time.After t2 (x509.NotBefore cert))
      then ((true, true, Some (ErrCertificateNotYetValid (x509.NotBefore cert))), st2)
      else
        revocation p cert st2.
Proof.
  destruct p; cbn [verify];
    unfold VerifyCertificateError, Verifier.CertificateValid; run;
    destruct (Now st) as [t1 st1];
    destruct (negb (time.Before t1 (x509.NotAfter cert))); run; try reflexivity;
    destruct (Now st1) as [t2 st2];
    destruct (negb (time.After t2 (x509.NotBefore cert))); reflexivity.
Qed.

Lemma Now_trace st t st' :
  Now st = (t, st') → trace st' = trace st ∧ crls st' = crls st.
Proof.
  unfold Now. destruct (time_Now (world st)). intros [= _ <-]. done.
Qed.

(** C3. A certificate whose not-after instant is not after the time read
    from the clock, or whose not-before instant is not before it, is
    reported as (true, true, non-nil error) by [verify]; the trace and the
    cache are those of the call, so no request was sent and neither the
    CRL stage nor the OCSP stage ran.  [t1] and [t2] are the two readings
    of the clock the code takes, one for each bound. *)
Theorem verify_outside_validity_window p cert st t1 st1 t2 st2 :
  Now st = (t1, st1) →
  Now st1 = (t2, st2) →
  x509.NotAfter cert <= t1 ∨ t2 <= x509.NotBefore cert →
  ∃ err st', verify p cert st = ((true, true, Some err), st')
             ∧ trace st' = trace st ∧ crls st' = crls st.
Proof.
  intros H1 H2 Hout. rewrite verify_unfold, H1.
  destruct (Now_trace _ _ _ H1) as [Ht1 Hc1].
  destruct (Now_trace _ _ _ H2) as [Ht2 Hc2].
  unfold time.Before, time.After.
  destruct (Z.ltb_spec t1 (x509.NotAfter cert)) as [Hlt|Hge]; cbn [negb].
  - rewrite H2.
    destruct (Z.ltb_spec (x509.NotBefore cert) t2) as [Hlt2|Hge2]; cbn [negb].
    + lia.
    + eexists _, _. split; [reflexivity|]. split; congruence.
  - eexists _, _. split; [reflexivity|]. done.
Qed.
End Temporal.

(** At time 1000 the leaf, valid until 1000, has expired. *)
Lemma verify_outside_validity_window_witness :
  ∃ err st',
    verify (Method (Scenario.verifier false))
           (Scenario.leaf 7 ["http://ca.test/seven.crl"] [] [])
           (Scenario.at_time 1000 ∅)
    = ((true, true, Some err), st')
    ∧ trace st' = [] ∧ crls st' = ∅.
Proof.
  apply (verify_outside_validity_window
           (Method (Scenario.verifier false))
           (Scenario.leaf 7 ["http://ca.test/seven.crl"] [] [])
           (Scenario.at_time 1000 ∅)
           1000 (mkState 1001 ∅ []) 1001 (mkState 1002 ∅ [])).
  - reflexivity.
  - reflexivity.
  - left. cbn. lia.
Defined.

(** ** The orchestrator and its two stages *)

Section Orchestrator.
Context {World : Type} {E : Externals World}.
Implicit Types (p : path) (cert : x509.Certificate)
               (st : State World x509.RevocationList).

(** One turn of the loop over the distribution points. *)
Lemma checkCRLs_cons p cert uri rest st :
  checkCRLs p cert (uri :: rest) st =
    if ldapURL uri then checkCRLs p cert rest st
    else
      let '((revoked, ok, err), st') := checkCRL p cert uri st in
      if negb ok then (Some (strictOf p, false, err), st')
      else if revoked then (Some (true, true, err), st')
      else checkCRLs p cert rest st'.
Proof.
  destruct p as [g|v]; cbn [checkCRLs checkCRL strictOf revCheck_crls
                            Verifier.CertificateRevoked_crls];
    destruct (ldapURL uri); try reflexivity; run.
  - destruct (certIsRevokedCRL g cert uri st) as [[[revoked ok] err] st'].
    destruct ok, revoked, (HardFail g); reflexivity.
  - destruct (Verifier.CertificateRevokedCRL v cert uri st)
      as [[[revoked ok] err] st'].
    destruct ok, revoked, (strict v); reflexivity.
Qed.

Lemma checkCRLs_nil p cert st : checkCRLs p cert [] st = (None, st).
Proof. destruct p; reflexivity. Qed.

(** The loop over [pre ++ rest] runs [rest] from where [pre] falls through. *)
Lemma checkCRLs_app p cert (pre rest : list string) st st' :
  checkCRLs p cert pre st = (None, st') →
  checkCRLs p cert (pre ++ rest) st = checkCRLs p cert rest st'.
Proof.
  revert st. induction pre as [|uri pre IH]; intros st.
  - rewrite checkCRLs_nil. intros [= <-]. reflexivity.
  - cbn [app]. rewrite !checkCRLs_cons.
    destruct (ldapURL uri); [apply IH|].
    destruct (checkCRL p cert uri st) as [[[revoked ok] err] st1].
    destruct ok; cbn [negb]; [|discriminate].
    destruct revoked; [discriminate|apply IH].
Qed.

Lemma revocation_unfold p cert st :
  revocation p cert st =
    let (r, st1) := checkCRLs p cert (x509.CRLDistributionPoints cert) st in
    match r with
    | Some verdict => (verdict, st1)
    | None =>
        let '((revoked, ok, err), st2) := checkOCSP p cert st1 in
        if negb ok then ((strictOf p, false, err), st2)
        else if revoked then ((true, true, err), st2)
        else ((false, true, None), st2)
    end.
Proof.
  destruct p as [g|v]; cbn [revocation checkCRLs checkOCSP strictOf];
    unfold revCheck, Verifier.CertificateRevoked; run.
  - destruct (revCheck_crls g cert _ st) as [[verdict|] st1]; [reflexivity|].
    run. destruct (certIsRevokedOCSP g cert (HardFail g) st1)
      as [[[revoked ok] err] st2].
    destruct ok, revoked, (HardFail g); reflexivity.
  - destruct (Verifier.CertificateRevoked_crls v cert _ st)
      as [[verdict|] st1]; [reflexivity|].
    run. destruct (Verifier.CertificateRevokedOCSP v cert st1)
      as [[[revoked ok] err] st2].
    destruct ok, revoked, (strict v); reflexivity.
Qed.

(** A temporally valid certificate goes on to the two stages. *)
Lemma verify_valid p cert st t1 st1 t2 st2 :
  Now st = (t1, st1) → t1 < x509.NotAfter cert →
  Now st1 = (t2, st2) → x509.NotBefore cert < t2 →
  verify p cert st = revocation p cert st2.
Proof.
  intros H1 Hlt1 H2 Hlt2. rewrite verify_unfold, H1.
  unfold time.Before, time.After.
  destruct (Z.ltb_spec t1 (x509.NotAfter cert)); [|lia]. cbn [negb].
  rewrite H2.
  destruct (Z.ltb_spec (x509.NotBefore cert) t2); [|lia]. reflexivity.
Qed.

(** The CRL check is the scan of the list [checkCRL_list] hands over. *)
Lemma checkCRL_unfold p cert uri st :
  ∃ st', (checkCRL p cert uri st).2 = st' ∧
    match checkCRL_list p cert uri st with
    | (inl err, _) => (checkCRL p cert uri st).1 = (false, false, Some err)
    | (inr crl, _) => (checkCRL p cert uri st).1 = (listed p cert crl, true, None)
    end.
Proof.
  eexists; split; [reflexivity|].
  destruct p as [g|v]; cbn [checkCRL checkCRL_list listed];
    unfold certIsRevokedCRL, Verifier.CertificateRevokedCRL; run.
  - destruct (certIsRevokedCRL_list g cert uri st) as [[err|crl] st1]; run;
      [reflexivity|].
    destruct (listedIn cert _); reflexivity.
  - destruct (Verifier.CertificateRevokedCRL_list v cert uri st)
      as [[err|crl] st1]; run; [reflexivity|].
    destruct (listedInEntries cert _); reflexivity.
Qed.

(** A CRL check that could not be completed carries an error and does not
    report a revocation. *)
Lemma checkCRL_unchecked p cert uri st revoked err st' :
  checkCRL p cert uri st = ((revoked, false, err), st') →
  revoked = false ∧ is_Some err.
Proof.
  intros H. destruct (checkCRL_unfold p cert uri st) as (? & _ & Hu).
  rewrite H in Hu. cbn [fst] in Hu.
  destruct (checkCRL_list p cert uri st) as [[e|crl] ?].
  - injection Hu as -> ->. eauto.
  - discriminate.
Qed.

Lemma pointsPass_checkCRLs p cert (urls : list string) st st' :
  pointsPass p cert urls st = Some st' →
  checkCRLs p cert urls st = (None, st').
Proof.
  revert st. induction urls as [|uri urls IH]; intros st.
  - cbn. intros [= <-]. apply checkCRLs_nil.
  - cbn [pointsPass]. rewrite checkCRLs_cons.
    destruct (ldapURL uri); [apply IH|].
    destruct (checkCRL p cert uri st) as [[[revoked ok] err] st1].
    destruct revoked, ok; try done. apply IH.
Qed.

(** The list phase of a CRL check, in terms of the calls it makes. *)
Lemma checkCRL_list_eq p cert uri st :
  checkCRL_list p cert uri st
  = let (issuer, sb) := resolveIssuer p cert (lookupState p uri st) in
    match freshList uri st with
    | Some crl => (inr crl, sb)
    | None =>
        match fetchList p uri sb with
        | (inl e, sc) => (inl e, sc)
        | (inr crl, sc) =>
            match from_option (CheckSignatureFrom crl) None issuer with
            | Some e => (inl e, sc)
            | None => (inr crl, storeState p uri crl sc)
            end
        end
    end.
Proof.
  unfold lookupState, freshList, storeState, evict.
  destruct p as [g|v]; cbn [checkCRL_list resolveIssuer fetchList].
  - unfold certIsRevokedCRL_list, Lock, Unlock, emit, mapLookup, mapDelete,
      mapStore, Now; run; cbn [world crls trace].
    destruct (crls st !! uri) as [[c|]|]; run; cbn [world crls trace];
      rewrite <- ?app_assoc; cbn [app].
    + destruct (time_Now (world st)) as [t w]; run. cbn [fst snd].
      destruct (getIssuer g cert _) as [issuer sb]; run.
      destruct (time.Before t (x509.NextUpdate c)); run; [done|].
      destruct (fetchCRL g uri sb) as [[e|crl] sc]; run; [done|].
      destruct (from_option _ None issuer); run; [done|].
      cbn [world crls trace]. by rewrite <- !app_assoc.
    + destruct (getIssuer g cert _) as [issuer sb]; run.
      destruct (fetchCRL g uri sb) as [[e|crl] sc]; run; [done|].
      destruct (from_option _ None issuer); run; [done|].
      cbn [world crls trace]. by rewrite <- !app_assoc.
    + destruct (getIssuer g cert _) as [issuer sb]; run.
      destruct (fetchCRL g uri sb) as [[e|crl] sc]; run; [done|].
      destruct (from_option _ None issuer); run; [done|].
      cbn [world crls trace]. by rewrite <- !app_assoc.
  - unfold Verifier.CertificateRevokedCRL_list, Lock, Unlock, emit, mapLookup,
      mapDelete, mapStore, Now; run; cbn [world crls trace].
    destruct (crls st !! uri) as [[c|]|]; run; cbn [world crls trace].
    + destruct (time_Now (world st)) as [t w]; run. cbn [fst snd].
      destruct (Verifier.GetIssuer v cert _) as [issuer sb]; run.
      destruct (time.Before t (x509.NextUpdate c)); run; [done|].
      destruct (Verifier.fetchCRL v uri sb) as [[e|crl] sc]; run; [done|].
      destruct (from_option _ None issuer); run; [done|].
      cbn [world crls trace]. by rewrite app_nil_r.
    + destruct (Verifier.GetIssuer v cert _) as [issuer sb]; run.
      destruct (Verifier.fetchCRL v uri sb) as [[e|crl] sc]; run; [done|].
      destruct (from_option _ None issuer); run; [done|].
      cbn [world crls trace]. by rewrite app_nil_r.
    + destruct (Verifier.GetIssuer v cert _) as [issuer sb]; run.
      destruct (Verifier.fetchCRL v uri sb) as [[e|crl] sc]; run; [done|].
      destruct (from_option _ None issuer); run; [done|].
      cbn [world crls trace]. by rewrite app_nil_r.
Qed.

(** A CRL check is its list phase, the scan and the return. *)
Lemma checkCRL_eq p cert uri st :
  checkCRL p cert uri st
  = match checkCRL_list p cert uri st with
    | (inl e, s) => ((false, false, Some e), returnState p s)
    | (inr crl, s) => ((listed p cert crl, true, None), returnState p s)
    end.
Proof.
  unfold returnState.
  destruct p as [g|v]; cbn [checkCRL checkCRL_list listed];
    unfold certIsRevokedCRL, Verifier.CertificateRevokedCRL, Unlock, emit; run.
  - destruct (certIsRevokedCRL_list g cert uri st) as [[e|crl] [w c tr]]; run;
      cbn [world crls trace]; rewrite ?app_nil_r; [done|].
    by destruct (listedIn cert _).
  - destruct (Verifier.CertificateRevokedCRL_list v cert uri st)
      as [[e|crl] s]; run; [done|].
    by destruct (listedInEntries cert _).
Qed.

(** C1. For a temporally valid certificate: when the CRL checks of the
    distribution points before [uri] were completed without finding a
    revocation (those of the ldap scheme being skipped) and the CRL check of
    [uri] returns checked = false, [verify] returns (true, false, error)
    under the strict policy and (false, false, error) otherwise, with the
    error of that check, which is not nil.  The state returned is the state
    that check left: no further distribution point and no OCSP responder
    was consulted. *)
Theorem verify_aborts_on_unchecked_crl
    p cert st t1 st1 t2 st2 (pre : list string) (uri : string)
    (post : list string) st3 revoked err st4 :
  Now st = (t1, st1) → t1 < x509.NotAfter cert →
  Now st1 = (t2, st2) → x509.NotBefore cert < t2 →
  x509.CRLDistributionPoints cert = (pre ++ uri :: post) →
  pointsPass p cert pre st2 = Some st3 →
  ldapURL uri = false →
  checkCRL p cert uri st3 = ((revoked, false, err), st4) →
  verify p cert st = ((strictOf p, false, err), st4) ∧ is_Some err.
Proof.
  intros H1 Hlt1 H2 Hlt2 Hdps Hpre Hldap Hcheck.
  apply pointsPass_checkCRLs in Hpre.
  split; [|eapply checkCRL_unchecked; eassumption].
  rewrite (verify_valid _ _ _ _ _ _ _ H1 Hlt1 H2 Hlt2).
  rewrite revocation_unfold, Hdps, (checkCRLs_app _ _ _ _ _ _ Hpre).
  rewrite checkCRLs_cons, Hldap, Hcheck. reflexivity.
Qed.
End Orchestrator.

(** At time 500: the first distribution point is skipped, the second lists
    serial 9 only, the third answers with status 500, and the fourth, which
    lists serial 7, is never asked; with the strict package variables and
    with a lenient verifier. *)
Lemma verify_aborts_on_unchecked_crl_witness :
  (verify (PackageLevel (Scenario.globals true))
          (Scenario.leaf 7 ["ldap://dir.test/crl"; "http://ca.test/nine.crl";
                            "http://ca.test/down.crl"; "http://ca.test/seven.crl"]
                         ["http://ocsp.test"] [])
          (Scenario.at_time 500 ∅)
   = ((true, false, Some (errors_New "failed to retrieve CRL")),
      mkState 502
        (<["http://ca.test/nine.crl" := Some (Scenario.listOf 9)]> ∅)
        [EvLock; EvUnlock; EvGet "http://ca.test/nine.crl"; EvLock; EvUnlock;
         EvLock; EvUnlock; EvGet "http://ca.test/down.crl"])
   ∧ is_Some (Some (errors_New "failed to retrieve CRL")))
  ∧ (verify (Method (Scenario.verifier false))
            (Scenario.leaf 7 ["ldap://dir.test/crl"; "http://ca.test/nine.crl";
                              "http://ca.test/down.crl";
                              "http://ca.test/seven.crl"]
                           ["http://ocsp.test"] [])
            (Scenario.at_time 500 ∅)
     = ((false, false, Some ErrFailedGetCRL),
        mkState 502
          (<["http://ca.test/nine.crl" := Some (Scenario.listOf 9)]> ∅)
          [EvLock; EvGet "http://ca.test/nine.crl"; EvUnlock;
           EvLock; EvGet "http://ca.test/down.crl"; EvUnlock])
     ∧ is_Some (Some ErrFailedGetCRL)).
Proof.
  split.
  - apply (verify_aborts_on_unchecked_crl
             (PackageLevel (Scenario.globals true))
             (Scenario.leaf 7 ["ldap://dir.test/crl"; "http://ca.test/nine.crl";
                               "http://ca.test/down.crl";
                               "http://ca.test/seven.crl"]
                            ["http://ocsp.test"] [])
             (Scenario.at_time 500 ∅)
             500 (mkState 501 ∅ []) 501 (mkState 502 ∅ [])
             ["ldap://dir.test/crl"; "http://ca.test/nine.crl"]
             "http://ca.test/down.crl" ["http://ca.test/seven.crl"]
             (mkState 502
                (<["http://ca.test/nine.crl" := Some (Scenario.listOf 9)]> ∅)
                [EvLock; EvUnlock; EvGet "http://ca.test/nine.crl";
                 EvLock; EvUnlock])
             false).
    + reflexivity.
    + cbn. lia.
    + reflexivity.
    + cbn. lia.
    + reflexivity.
    + vm_compute. reflexivity.
    + reflexivity.
    + vm_compute. reflexivity.
  - apply (verify_aborts_on_unchecked_crl
             (Method (Scenario.verifier false))
             (Scenario.leaf 7 ["ldap://dir.test/crl"; "http://ca.test/nine.crl";
                               "http://ca.test/down.crl";
                               "http://ca.test/seven.crl"]
                            ["http://ocsp.test"] [])
             (Scenario.at_time 500 ∅)
             500 (mkState 501 ∅ []) 501 (mkState 502 ∅ [])
             ["ldap://dir.test/crl"; "http://ca.test/nine.crl"]
             "http://ca.test/down.crl" ["http://ca.test/seven.crl"]
             (mkState 502
                (<["http://ca.test/nine.crl" := Some (Scenario.listOf 9)]> ∅)
                [EvLock; EvGet "http://ca.test/nine.crl"; EvUnlock])
             false).
    + reflexivity.
    + cbn. lia.
    + reflexivity.
    + cbn. lia.
    + reflexivity.
    + vm_compute. reflexivity.
    + reflexivity.
    + vm_compute. reflexivity.
Defined.

(** ** Scanning a list, resolving the issuer, sending an OCSP request *)

Section Stages.
Context {World : Type} {E : Externals World}.
Implicit Types (p : path) (cert : x509.Certificate)
               (st : State World x509.RevocationList).

Lemma listed_serials p cert crl :
  listed p cert crl = true ↔ x509.SerialNumber cert ∈ serials p crl.
Proof.
  destruct p; cbn [listed serials]; unfold listedIn, listedInEntries;
    rewrite existsb_exists, list_elem_of_In, in_map_iff;
    (split; [intros (x & Hin & Heq); apply Z.eqb_eq in Heq; eauto
            |intros (x & Heq & Hin); exists x; split; [done|]; by apply Z.eqb_eq]).
Qed.

(** The state a CRL check returns differs from the state in which its list
    was obtained by lock operations only. *)
Lemma checkCRL_after_list p cert uri st :
  let st1 := (checkCRL_list p cert uri st).2 in
  let st2 := (checkCRL p cert uri st).2 in
  world st2 = world st1 ∧ crls st2 = crls st1
  ∧ network (trace st2) = network (trace st1).
Proof.
  destruct p as [g|v]; cbn [checkCRL checkCRL_list];
    unfold certIsRevokedCRL, Verifier.CertificateRevokedCRL; run.
  - destruct (certIsRevokedCRL_list g cert uri st) as [[err|crl] st1]; run;
      [done|]. destruct (listedIn cert _); done.
  - destruct (Verifier.CertificateRevokedCRL_list v cert uri st)
      as [r st1]; run. cbn. unfold network. rewrite List.filter_app, app_nil_r.
    done.
Qed.

(** C4. For a temporally valid certificate: when the CRL checks of the
    distribution points before [uri] were completed without finding a
    revocation (so none of them failed; those of the ldap scheme are
    skipped) and the list [uri] offers, cached and fresh or else fetched
    and validated, contains the serial number of the certificate, [verify]
    returns (true, true, nil).  The state returned is the one in which that
    list was at hand, with the mutex released: the OCSP checker was not
    invoked. *)
Theorem verify_revoked_by_crl
    p cert st t1 st1 t2 st2 (pre : list string) (uri : string)
    (post : list string) st3 crl st4 :
  Now st = (t1, st1) → t1 < x509.NotAfter cert →
  Now st1 = (t2, st2) → x509.NotBefore cert < t2 →
  x509.CRLDistributionPoints cert = (pre ++ uri :: post) →
  pointsPass p cert pre st2 = Some st3 →
  ldapURL uri = false →
  offered p cert uri st3 = Some (crl, st4) →
  x509.SerialNumber cert ∈ serials p crl →
  verify p cert st = ((true, true, None), returnState p st4).
Proof.
  intros H1 Hlt1 H2 Hlt2 Hdps Hpre Hldap Hoffer Hin.
  apply pointsPass_checkCRLs in Hpre. apply listed_serials in Hin.
  assert (Hlist : checkCRL_list p cert uri st3 = (inr crl, st4)).
  { rewrite checkCRL_list_eq. unfold offered in Hoffer.
    destruct (resolveIssuer p cert _) as [issuer sb].
    destruct (freshList uri st3); [by injection Hoffer as -> ->|].
    destruct (fetchList p uri sb) as [[e|c] sc]; [done|].
    destruct (from_option _ None issuer); [done|].
    by injection Hoffer as -> ->. }
  rewrite (verify_valid _ _ _ _ _ _ _ H1 Hlt1 H2 Hlt2).
  rewrite revocation_unfold, Hdps, (checkCRLs_app _ _ _ _ _ _ Hpre).
  rewrite checkCRLs_cons, Hldap, checkCRL_eq, Hlist, Hin. reflexivity.
Qed.

(** Fetching a certificate sends one GET. *)
Lemma fetchRemote_trace g uri st :
  trace (fetchRemote (L:=x509.RevocationList) g uri st).2
  = trace st ++ [EvGet uri].
Proof.
  unfold fetchRemote, client_Get; run.
  destruct (http_Get uri (world st)) as [[err|resp] w]; run; [done|].
  destruct (remoteRead g _); run; [done|]. destruct (pem_Decode _); done.
Qed.

Lemma fetchCert_trace v uri st :
  trace (Verifier.fetchCert v uri st).2 = trace st ++ [EvGet uri].
Proof.
  unfold Verifier.fetchCert, Verifier.fetch, client_Get; run.
  destruct (http_Get uri (world st)) as [[err|resp] w]; run; [done|].
  destruct (reader v _); run; [done|]. destruct (pem_Decode _); done.
Qed.

Lemma network_app (tr1 tr2 : list Event) :
  network (tr1 ++ tr2) = network tr1 ++ network tr2.
Proof. apply List.filter_app. Qed.

Lemma network_gets (urls : list string) : network (map EvGet urls) = map EvGet urls.
Proof. induction urls as [|u urls IH]; [done|]. cbn. by rewrite <- IH at 2. Qed.

(** Issuer resolution sends GETs to the issuer URLs in order, to all of
    them when it ends without an issuer, and touches neither the cache nor
    the mutex. *)
Lemma resolveIssuer_from_trace p (urls : list string) st :
  let c := match p with
           | PackageLevel g => getIssuer_from g urls
           | Method v => Verifier.GetIssuer_from v urls
           end in
  crls (c st).2 = crls st ∧
  ∃ k, trace (c st).2 = trace st ++ map EvGet (take k urls)
       ∧ ((c st).1 = None → k = length urls).
Proof.
  cbn zeta. revert st. induction urls as [|u urls IH]; intros st.
  - destruct p; cbn; (split; [done|]); exists 0%nat; by rewrite app_nil_r.
  - destruct p as [g|v]; cbn [getIssuer_from Verifier.GetIssuer_from]; run.
    + pose proof (fetchRemote_trace g u st) as Ht.
      assert (Hc : crls (fetchRemote (L:=x509.RevocationList) g u st).2 = crls st).
      { unfold fetchRemote, client_Get; run.
        destruct (http_Get u (world st)) as [[err|resp] w]; run; [done|].
        destruct (remoteRead g _); run; [done|]. destruct (pem_Decode _); done. }
      destruct (fetchRemote g u st) as [[err|issuer] st1]; cbn [snd] in Ht, Hc.
      * destruct (IH st1) as (Hc1 & k & Hk & Hall). split; [congruence|].
        exists (S k). cbn [take map length]. rewrite Hk, Ht, <- app_assoc.
        split; [done|]. intros Hn. by rewrite Hall.
      * run. cbn [fst snd]. split; [done|]. exists 1%nat. cbn [take map].
        rewrite take_0. split; [done|discriminate].
    + pose proof (fetchCert_trace v u st) as Ht.
      assert (Hc : crls (Verifier.fetchCert v u st).2 = crls st).
      { unfold Verifier.fetchCert, Verifier.fetch, client_Get; run.
        destruct (http_Get u (world st)) as [[err|resp] w]; run; [done|].
        destruct (reader v _); run; [done|]. destruct (pem_Decode _); done. }
      destruct (Verifier.fetchCert v u st) as [[err|issuer] st1];
        cbn [snd] in Ht, Hc.
      * destruct (IH st1) as (Hc1 & k & Hk & Hall). split; [congruence|].
        exists (S k). cbn [take map length]. rewrite Hk, Ht, <- app_assoc.
        split; [done|]. intros Hn. by rewrite Hall.
      * run. cbn [fst snd]. split; [done|]. exists 1%nat. cbn [take map].
        rewrite take_0. split; [done|discriminate].
Qed.

Lemma resolveIssuer_trace p cert st :
  crls (resolveIssuer p cert st).2 = crls st ∧
  ∃ k, trace (resolveIssuer p cert st).2
       = trace st ++ map EvGet (take k (x509.IssuingCertificateURL cert))
       ∧ ((resolveIssuer p cert st).1 = None →
          k = length (x509.IssuingCertificateURL cert)).
Proof.
  pose proof (resolveIssuer_from_trace p (x509.IssuingCertificateURL cert) st).
  destruct p; exact H.
Qed.

(** Without an issuer the OCSP checker gives up before building a request. *)
Lemma checkOCSP_absent_issuer p cert st st1 :
  x509.OCSPServer cert ≠ [] →
  resolveIssuer p cert st = (None, st1) →
  checkOCSP p cert st = ((false, false, None), st1).
Proof.
  intros Hservers Hissuer.
  destruct p as [g|v];
    cbn [checkOCSP resolveIssuer] in *;
    unfold certIsRevokedOCSP, Verifier.CertificateRevokedOCSP;
    (destruct (x509.OCSPServer cert); [done|]); cbn [length Nat.eqb];
    run; rewrite Hissuer; reflexivity.
Qed.

(** C7. When the certificate names an OCSP responder and issuer resolution
    ends without an issuer, [checkOCSP] returns (false, false, nil) in the
    state issuer resolution left: the requests sent are the GETs to the
    issuer URLs of the certificate, and no responder was contacted. *)
Theorem checkOCSP_without_issuer p cert st st1 :
  x509.OCSPServer cert ≠ [] →
  resolveIssuer p cert st = (None, st1) →
  checkOCSP p cert st = ((false, false, None), st1)
  ∧ trace st1 = trace st ++ map EvGet (x509.IssuingCertificateURL cert).
Proof.
  intros Hservers Hissuer. split.
  - by apply checkOCSP_absent_issuer.
  - destruct (resolveIssuer_trace p cert st) as (_ & k & Hk & Hall).
    rewrite Hissuer in Hk, Hall. cbn [fst snd] in Hk, Hall.
    rewrite Hk, Hall by done. by rewrite firstn_all.
Qed.
End Stages.

(** At time 500, with an empty cache: the first distribution point lists
    serial 9 only, the second lists serial 7, the serial of the leaf; for a
    verifier and for the package variables. *)
Lemma verify_revoked_by_crl_witness :
  verify (Method (Scenario.verifier false))
         (Scenario.leaf 7 ["http://ca.test/nine.crl"; "http://ca.test/seven.crl"]
                        ["http://ocsp.test"] ["http://ca.test/ca.crt"])
         (Scenario.at_time 500 ∅)
  = ((true, true, None),
     mkState 502
       (<["http://ca.test/seven.crl" := Some (Scenario.listOf 7)]>
          (<["http://ca.test/nine.crl" := Some (Scenario.listOf 9)]> ∅))
       [EvLock; EvGet "http://ca.test/ca.crt"; EvGet "http://ca.test/nine.crl";
        EvUnlock; EvLock; EvGet "http://ca.test/ca.crt";
        EvGet "http://ca.test/seven.crl"; EvUnlock])
  ∧ verify (PackageLevel (Scenario.globals false))
           (Scenario.leaf 7 ["http://ca.test/nine.crl";
                             "http://ca.test/seven.crl"]
                          ["http://ocsp.test"] ["http://ca.test/ca.crt"])
           (Scenario.at_time 500 ∅)
    = ((true, true, None),
       mkState 502
         (<["http://ca.test/seven.crl" := Some (Scenario.listOf 7)]>
            (<["http://ca.test/nine.crl" := Some (Scenario.listOf 9)]> ∅))
         [EvLock; EvUnlock; EvGet "http://ca.test/ca.crt";
          EvGet "http://ca.test/nine.crl"; EvLock; EvUnlock; EvLock; EvUnlock;
          EvGet "http://ca.test/ca.crt"; EvGet "http://ca.test/seven.crl";
          EvLock; EvUnlock]).
Proof.
  split.
  - refine (verify_revoked_by_crl
              (Method (Scenario.verifier false))
              (Scenario.leaf 7 ["http://ca.test/nine.crl";
                                "http://ca.test/seven.crl"]
                             ["http://ocsp.test"] ["http://ca.test/ca.crt"])
              (Scenario.at_time 500 ∅)
              500 (mkState 501 ∅ []) 501 (mkState 502 ∅ [])
              ["http://ca.test/nine.crl"] "http://ca.test/seven.crl" []
              (mkState 502
                 (<["http://ca.test/nine.crl" := Some (Scenario.listOf 9)]> ∅)
                 [EvLock; EvGet "http://ca.test/ca.crt";
                  EvGet "http://ca.test/nine.crl"; EvUnlock])
              (Scenario.listOf 7)
              (mkState 502
                 (<["http://ca.test/seven.crl" := Some (Scenario.listOf 7)]>
                    (<["http://ca.test/nine.crl" := Some (Scenario.listOf 9)]> ∅))
                 [EvLock; EvGet "http://ca.test/ca.crt";
                  EvGet "http://ca.test/nine.crl"; EvUnlock;
                  EvLock; EvGet "http://ca.test/ca.crt";
                  EvGet "http://ca.test/seven.crl"])
              _ _ _ _ _ _ _ _ _).
    + reflexivity.
    + cbn. lia.
    + reflexivity.
    + cbn. lia.
    + reflexivity.
    + vm_compute. reflexivity.
    + reflexivity.
    + vm_compute. reflexivity.
    + cbn. apply list_elem_of_here.
  - refine (verify_revoked_by_crl
              (PackageLevel (Scenario.globals false))
              (Scenario.leaf 7 ["http://ca.test/nine.crl";
                                "http://ca.test/seven.crl"]
                             ["http://ocsp.test"] ["http://ca.test/ca.crt"])
              (Scenario.at_time 500 ∅)
              500 (mkState 501 ∅ []) 501 (mkState 502 ∅ [])
              ["http://ca.test/nine.crl"] "http://ca.test/seven.crl" []
              (mkState 502
                 (<["http://ca.test/nine.crl" := Some (Scenario.listOf 9)]> ∅)
                 [EvLock; EvUnlock; EvGet "http://ca.test/ca.crt";
                  EvGet "http://ca.test/nine.crl"; EvLock; EvUnlock])
              (Scenario.listOf 7)
              (mkState 502
                 (<["http://ca.test/seven.crl" := Some (Scenario.listOf 7)]>
                    (<["http://ca.test/nine.crl" := Some (Scenario.listOf 9)]> ∅))
                 [EvLock; EvUnlock; EvGet "http://ca.test/ca.crt";
                  EvGet "http://ca.test/nine.crl"; EvLock; EvUnlock;
                  EvLock; EvUnlock; EvGet "http://ca.test/ca.crt";
                  EvGet "http://ca.test/seven.crl"; EvLock; EvUnlock])
              _ _ _ _ _ _ _ _ _).
    + reflexivity.
    + cbn. lia.
    + reflexivity.
    + cbn. lia.
    + reflexivity.
    + vm_compute. reflexivity.
    + reflexivity.
    + vm_compute. reflexivity.
    + cbn. apply list_elem_of_here.
Defined.

(** The only issuer URL of the leaf cannot be reached. *)
Lemma checkOCSP_without_issuer_witness :
  checkOCSP (PackageLevel (Scenario.globals false))
            (Scenario.leaf 7 [] ["http://ocsp.test"] ["http://ca.test/missing.crt"])
            (Scenario.at_time 500 ∅)
  = ((false, false, None),
     mkState 500 ∅ [EvGet "http://ca.test/missing.crt"])
  ∧ [EvGet "http://ca.test/missing.crt"]
    = [] ++ map EvGet ["http://ca.test/missing.crt"].
Proof.
  apply (checkOCSP_without_issuer
           (PackageLevel (Scenario.globals false))
           (Scenario.leaf 7 [] ["http://ocsp.test"] ["http://ca.test/missing.crt"])
           (Scenario.at_time 500 ∅)
           (mkState 500 ∅ [EvGet "http://ca.test/missing.crt"])).
  - cbn. discriminate.
  - vm_compute. reflexivity.
Defined.

(** ** C8 and C9 *)

Section Requests.
Context {World : Type} {E : Externals World}.
Implicit Types (p : path) (cert : x509.Certificate)
               (st : State World x509.RevocationList).

Lemma ocspSend_trace (server : string) (req : bytes) st :
  trace (ocspSend server req st).2
  = trace st ++
    [ if Z.of_nat (length req) <=? 256
      then EvGet (server +:+ "/" +:+ url_QueryEscape (base64_EncodeToString req))
      else EvPost server "application/ocsp-request" req ].
Proof.
  unfold ocspSend, client_Get, client_Post.
  destruct (Z.ltb_spec 256 (Z.of_nat (length req)));
    destruct (Z.leb_spec (Z.of_nat (length req)) 256); try lia.
  - by destruct (http_Post _ _ _ _).
  - by destruct (http_Get _ _).
Qed.

(** C8. Sending an OCSP request appends exactly one request to the trace:
    a GET of the responder URL followed by "/" and the base64-encoded,
    URL-escaped request when the request is at most 256 bytes long, and a
    POST of the raw request to the responder URL when it is longer. *)
Theorem sendOCSP_method p server req leaf issuer st :
  trace (sendOCSP p server req leaf issuer st).2
  = trace st ++
    [ if Z.of_nat (length req) <=? 256
      then EvGet (server +:+ "/" +:+ url_QueryEscape (base64_EncodeToString req))
      else EvPost server "application/ocsp-request" req ].
Proof.
  rewrite <- ocspSend_trace.
  destruct p as [g|v]; cbn [sendOCSP];
    unfold sendOCSPRequest, Verifier.fetchOCSP; run;
    destruct (ocspSend server req st) as [[err|resp] st']; run; try done;
    destruct (negb _); run; try done.
  - destruct (ocspRead g _); run; [done|].
    destruct (ocspErrorResponse _); done.
  - destruct (Verifier.readfunc v _ _); run; [done|].
    destruct (ocspErrorResponse _); done.
Qed.

Lemma checkCRLs_all_ldap p cert (urls : list string) st :
  forallb ldapURL urls = true → checkCRLs p cert urls st = (None, st).
Proof.
  induction urls as [|u urls IH]; [intros _; apply checkCRLs_nil|].
  cbn [forallb]. intros [Hu Hrest]%andb_prop.
  rewrite checkCRLs_cons, Hu. auto.
Qed.

(** C9. Under the strict policy, a temporally valid certificate all of
    whose distribution points are skipped, which names an OCSP responder and
    whose issuer cannot be resolved, gets the verdict (true, false, nil):
    the (false, false, nil) of the OCSP checker is promoted to revoked
    without any error value. *)
Theorem verify_strict_unchecked_without_error p cert st t1 st1 t2 st2 st3 :
  strictOf p = true →
  Now st = (t1, st1) → t1 < x509.NotAfter cert →
  Now st1 = (t2, st2) → x509.NotBefore cert < t2 →
  forallb ldapURL (x509.CRLDistributionPoints cert) = true →
  x509.OCSPServer cert ≠ [] →
  resolveIssuer p cert st2 = (None, st3) →
  checkOCSP p cert st2 = ((false, false, None), st3)
  ∧ verify p cert st = ((true, false, None), st3).
Proof.
  intros Hstrict H1 Hlt1 H2 Hlt2 Hldap Hservers Hissuer.
  pose proof (checkOCSP_absent_issuer p cert st2 st3 Hservers Hissuer)
    as Hocsp.
  split; [exact Hocsp|].
  rewrite (verify_valid _ _ _ _ _ _ _ H1 Hlt1 H2 Hlt2).
  rewrite revocation_unfold, (checkCRLs_all_ldap _ _ _ _ Hldap), Hocsp.
  cbn. by rewrite Hstrict.
Qed.
End Requests.

(** A strict verifier, a leaf with a directory-access distribution point
    only, an OCSP responder and no issuer URL. *)
Lemma verify_strict_unchecked_without_error_witness :
  checkOCSP (Method (Scenario.verifier true))
            (Scenario.leaf 7 ["ldap://dir.test/crl"] ["http://ocsp.test"] [])
            (mkState 502 ∅ [])
  = ((false, false, None), mkState 502 ∅ [])
  ∧ verify (Method (Scenario.verifier true))
           (Scenario.leaf 7 ["ldap://dir.test/crl"] ["http://ocsp.test"] [])
           (Scenario.at_time 500 ∅)
    = ((true, false, None), mkState 502 ∅ []).
Proof.
  apply (verify_strict_unchecked_without_error
           (Method (Scenario.verifier true))
           (Scenario.leaf 7 ["ldap://dir.test/crl"] ["http://ocsp.test"] [])
           (Scenario.at_time 500 ∅)
           500 (mkState 501 ∅ []) 501 (mkState 502 ∅ [])
           (mkState 502 ∅ [])).
  - reflexivity.
  - reflexivity.
  - cbn. lia.
  - reflexivity.
  - cbn. lia.
  - reflexivity.
  - cbn. discriminate.
  - reflexivity.
Defined.

(** ** C2: a fresh cached list *)

Section CacheHit.
Context {World : Type} {E : Externals World}.
Implicit Types (p : path) (cert : x509.Certificate)
               (st : State World x509.RevocationList).

(** Issuer resolution sends exactly the GETs of [issuerRequests]: one to
    each issuer URL in order, ending with the first whose fetch yields a
    certificate. *)
Lemma resolveIssuer_from_requests p (urls : list string) st :
  trace (match p with
         | PackageLevel g => getIssuer_from g urls
         | Method v => Verifier.GetIssuer_from v urls
         end st).2
  = trace st ++ map EvGet (issuerRequests p urls st).
Proof.
  revert st. induction urls as [|u urls IH]; intros st.
  - destruct p; cbn; by rewrite app_nil_r.
  - destruct p as [g|v];
      cbn [getIssuer_from Verifier.GetIssuer_from issuerRequests fetchIssuer];
      run.
    + pose proof (fetchRemote_trace g u st) as Ht.
      destruct (fetchRemote g u st) as [[err|issuer] st1]; cbn [snd] in Ht.
      * rewrite (IH st1), Ht, <- app_assoc. reflexivity.
      * run. cbn [snd map]. exact Ht.
    + pose proof (fetchCert_trace v u st) as Ht.
      destruct (Verifier.fetchCert v u st) as [[err|issuer] st1];
        cbn [snd] in Ht.
      * rewrite (IH st1), Ht, <- app_assoc. reflexivity.
      * run. cbn [snd map]. exact Ht.
Qed.

Lemma resolveIssuer_requests p cert st :
  trace (resolveIssuer p cert st).2
  = trace st
    ++ map EvGet (issuerRequests p (x509.IssuingCertificateURL cert) st).
Proof.
  pose proof (resolveIssuer_from_requests p (x509.IssuingCertificateURL cert) st).
  destruct p; exact H.
Qed.

Lemma network_lookupState p uri st :
  network (trace (lookupState p uri st)) = network (trace st).
Proof.
  unfold lookupState; cbn [trace]. rewrite network_app.
  destruct p; cbn; by rewrite app_nil_r.
Qed.

Lemma network_returnState p st :
  network (trace (returnState p st)) = network (trace st).
Proof.
  unfold returnState; cbn [trace]. rewrite network_app.
  destruct p; cbn; by rewrite app_nil_r.
Qed.

Lemma freshList_fresh uri st crl t w :
  crls st !! uri = Some (Some crl) →
  time_Now (world st) = (t, w) →
  t < x509.NextUpdate crl →
  freshList uri st = Some crl.
Proof.
  intros Hcache Hnow Hfresh. unfold freshList. rewrite Hcache, Hnow.
  cbn [fst]. unfold time.Before.
  by destruct (Z.ltb_spec t (x509.NextUpdate crl)); [|lia].
Qed.

Lemma freshList_stale uri st crl t w :
  crls st !! uri = Some (Some crl) →
  time_Now (world st) = (t, w) →
  x509.NextUpdate crl <= t →
  freshList uri st = None.
Proof.
  intros Hcache Hnow Hstale. unfold freshList. rewrite Hcache, Hnow.
  cbn [fst]. unfold time.Before.
  by destruct (Z.ltb_spec t (x509.NextUpdate crl)); [lia|].
Qed.

(** C2, as amended.  When the cache binds [uri] to a list whose next-update
    instant is after the time read from the clock and which contains the
    serial number of the certificate, [checkCRL] returns (true, true, nil)
    in the state issuer resolution leaves after the cache lookup, with the
    mutex released, and the cache is as it was.  The list is not fetched:
    the requests sent are exactly those of issuer resolution, one GET to
    each issuer URL of the certificate in order, ending with the first whose
    fetch yields a certificate; so none when the certificate has no issuer
    URL. *)
Theorem checkCRL_cache_hit p cert uri st crl t w :
  crls st !! uri = Some (Some crl) →
  time_Now (world st) = (t, w) →
  t < x509.NextUpdate crl →
  x509.SerialNumber cert ∈ serials p crl →
  checkCRL p cert uri st
  = ((true, true, None),
     returnState p (resolveIssuer p cert (lookupState p uri st)).2)
  ∧ crls (returnState p (resolveIssuer p cert (lookupState p uri st)).2)
    = crls st
  ∧ network
      (trace (returnState p (resolveIssuer p cert (lookupState p uri st)).2))
    = network (trace st)
      ++ map EvGet (issuerRequests p (x509.IssuingCertificateURL cert)
                                   (lookupState p uri st))
  ∧ (x509.IssuingCertificateURL cert = [] →
     network
       (trace (returnState p (resolveIssuer p cert (lookupState p uri st)).2))
     = network (trace st)).
Proof.
  intros Hcache Hnow Hfresh Hin. apply listed_serials in Hin.
  pose proof (freshList_fresh _ _ _ _ _ Hcache Hnow Hfresh) as Hf.
  assert (Hnet :
    network
      (trace (returnState p (resolveIssuer p cert (lookupState p uri st)).2))
    = network (trace st)
      ++ map EvGet (issuerRequests p (x509.IssuingCertificateURL cert)
                                   (lookupState p uri st))).
  { rewrite network_returnState, resolveIssuer_requests, network_app,
      network_gets, network_lookupState. reflexivity. }
  split; [|split; [|split; [exact Hnet|]]].
  - rewrite checkCRL_eq, checkCRL_list_eq.
    destruct (resolveIssuer p cert (lookupState p uri st)) as [issuer sb].
    rewrite Hf, Hin. reflexivity.
  - destruct (resolveIssuer_trace p cert (lookupState p uri st)) as [Hc _].
    destruct p; cbn [returnState crls] in *; rewrite Hc;
      unfold lookupState, evict; cbn [crls]; by rewrite Hcache.
  - intros Hnil. rewrite Hnet, Hnil. cbn. by rewrite app_nil_r.
Qed.
End CacheHit.

(** At time 500 the cache holds the list of serial 7, fresh until 2000.
    A verifier asks the first issuer URL, which fails, and the second, which
    yields the issuer, and never the third; the package variables, given a
    leaf without issuer URL, send nothing. *)
Lemma checkCRL_cache_hit_witness :
  (checkCRL (Method (Scenario.verifier false))
            (Scenario.leaf 7 ["http://ca.test/seven.crl"] []
                           ["http://ca.test/down.crt"; "http://ca.test/ca.crt";
                            "http://ca.test/other.crt"])
            "http://ca.test/seven.crl"
            (Scenario.at_time 500
               {["http://ca.test/seven.crl" := Some (Scenario.listOf 7)]})
   = ((true, true, None),
      mkState 501
        {["http://ca.test/seven.crl" := Some (Scenario.listOf 7)]}
        [EvLock; EvGet "http://ca.test/down.crt"; EvGet "http://ca.test/ca.crt";
         EvUnlock]))
  ∧ (checkCRL (PackageLevel (Scenario.globals false))
              (Scenario.leaf 7 ["http://ca.test/seven.crl"] [] [])
              "http://ca.test/seven.crl"
              (Scenario.at_time 500
                 {["http://ca.test/seven.crl" := Some (Scenario.listOf 7)]})
     = ((true, true, None),
        mkState 501
          {["http://ca.test/seven.crl" := Some (Scenario.listOf 7)]}
          [EvLock; EvUnlock])).
Proof.
  split.
  - refine (proj1 (checkCRL_cache_hit
            (Method (Scenario.verifier false))
            (Scenario.leaf 7 ["http://ca.test/seven.crl"] []
                           ["http://ca.test/down.crt"; "http://ca.test/ca.crt";
                            "http://ca.test/other.crt"])
            "http://ca.test/seven.crl"
            (Scenario.at_time 500
               {["http://ca.test/seven.crl" := Some (Scenario.listOf 7)]})
            (Scenario.listOf 7) 500 501 _ _ _ _)).
    + vm_compute. reflexivity.
    + reflexivity.
    + cbn. lia.
    + cbn. apply list_elem_of_here.
  - refine (proj1 (checkCRL_cache_hit
            (PackageLevel (Scenario.globals false))
            (Scenario.leaf 7 ["http://ca.test/seven.crl"] [] [])
            "http://ca.test/seven.crl"
            (Scenario.at_time 500
               {["http://ca.test/seven.crl" := Some (Scenario.listOf 7)]})
            (Scenario.listOf 7) 500 501 _ _ _ _)).
    + vm_compute. reflexivity.
    + reflexivity.
    + cbn. lia.
    + cbn. apply list_elem_of_here.
Defined.

(** C2 as stated does not hold: the same call sends a request although the
    list is cached and fresh, because the issuer is looked for before the
    cached list is used. *)
Lemma checkCRL_cache_hit_requests_issuer :
  ¬ (∀ (World : Type) (E : Externals World) (p : path)
       (cert : x509.Certificate) (uri : string)
       (st : State World x509.RevocationList) (crl : x509.RevocationList)
       (t : time.Time) (w : World),
       crls st !! uri = Some (Some crl) →
       time_Now (world st) = (t, w) →
       t < x509.NextUpdate crl →
       x509.SerialNumber cert ∈ serials p crl →
       (checkCRL p cert uri st).1 = (true, true, None)
       ∧ network (trace (checkCRL p cert uri st).2) = network (trace st)).
Proof.
  intros Hclaim.
  destruct (Hclaim Z Scenario.env
              (Method (Scenario.verifier false))
              (Scenario.leaf 7 ["http://ca.test/seven.crl"] []
                             ["http://ca.test/ca.crt"])
              "http://ca.test/seven.crl"
              (Scenario.at_time 500
                 {["http://ca.test/seven.crl" := Some (Scenario.listOf 7)]})
              (Scenario.listOf 7) 500 501) as [_ Hnet].
  - vm_compute. reflexivity.
  - reflexivity.
  - cbn. lia.
  - cbn. apply list_elem_of_here.
  - vm_compute in Hnet. discriminate Hnet.
Qed.

(** ** C10: what a CRL check does to the cache *)

Section CacheInvariant.
Context {World : Type} {E : Externals World}.

Lemma evict_absent {L} (uri : string) (m : gmap string (option L)) :
  m !! uri = None → evict uri m = m.
Proof. unfold evict. by intros ->. Qed.

Lemma evict_nil {L} (uri : string) (m : gmap string (option L)) :
  m !! uri = Some None → evict uri m = delete uri m.
Proof. unfold evict. by intros ->. Qed.

Lemma evict_list {L} (uri : string) (m : gmap string (option L)) crl :
  m !! uri = Some (Some crl) → evict uri m = m.
Proof. unfold evict. by intros ->. Qed.

Lemma insert_evict {L} (uri : string) (m : gmap string (option L)) x :
  <[uri := x]> (evict uri m) = <[uri := x]> m.
Proof.
  unfold evict. destruct (m !! uri) as [[?|]|]; try done.
  apply insert_delete_eq.
Qed.

(** Issuer resolution of the package leaves any cache alone. *)
Lemma getIssuer_crls {L} g cert (st : State World L) :
  crls (getIssuer g cert st).2 = crls st.
Proof.
  unfold getIssuer. generalize (x509.IssuingCertificateURL cert) as urls.
  intros urls. revert st. induction urls as [|u urls IH]; intros st; [done|].
  cbn [getIssuer_from]; run.
  assert (Hc : crls (fetchRemote g u st).2 = crls st).
  { unfold fetchRemote, client_Get; run.
    destruct (http_Get u (world st)) as [[err|resp] w]; run; [done|].
    destruct (remoteRead g _); run; [done|]. destruct (pem_Decode _); done. }
  destruct (fetchRemote g u st) as [[err|issuer] st1]; cbn [snd] in Hc.
  - by rewrite IH.
  - done.
Qed.

Lemma fetchCRL_spec g uri (st : State World x509.RevocationList) :
  crls (fetchCRL g uri st).2 = crls st
  ∧ ∀ crl, (fetchCRL g uri st).1 = inr crl →
      ∃ resp w body,
        http_Get uri (world st) = (inr resp, w)
        ∧ http.StatusCode resp < 300
        ∧ crlRead g (http.Body resp) = inr body
        ∧ x509_ParseRevocationList body = inr crl.
Proof.
  unfold fetchCRL, client_Get; run.
  destruct (http_Get uri (world st)) as [[err|resp] w]; run; [done|].
  destruct (Z.leb_spec 300 (http.StatusCode resp)); run; [done|].
  destruct (crlRead g (http.Body resp)) as [err|body] eqn:Hread; run; [done|].
  split; [done|]. intros crl Hparse. eauto 10.
Qed.

Lemma Verifier_fetchCRL_spec v uri (st : State World x509.RevocationList) :
  crls (Verifier.fetchCRL v uri st).2 = crls st
  ∧ ∀ crl, (Verifier.fetchCRL v uri st).1 = inr crl →
      ∃ resp w body,
        http_Get uri (world st) = (inr resp, w)
        ∧ http.StatusCode resp < 300
        ∧ Verifier.readfunc v (readerCRL v) (http.Body resp) = inr body
        ∧ x509_ParseRevocationList body = inr crl.
Proof.
  unfold Verifier.fetchCRL, Verifier.fetch, client_Get; run.
  destruct (http_Get uri (world st)) as [[err|resp] w]; run; [done|].
  destruct (Verifier.readfunc v (readerCRL v) (http.Body resp))
    as [err|body] eqn:Hread; run; [done|].
  destruct (Z.leb_spec 300 (http.StatusCode resp)); run; [done|].
  split; [done|]. intros crl Hparse. eauto 10.
Qed.

Lemma Legacy_fetchCRL_spec g uri (st : State World pkix.CertificateList) :
  crls (Legacy.fetchCRL g uri st).2 = crls st
  ∧ ∀ crl, (Legacy.fetchCRL g uri st).1 = inr crl →
      ∃ resp w body,
        http_Get uri (world st) = (inr resp, w)
        ∧ http.StatusCode resp < 300
        ∧ crlRead g (http.Body resp) = inr body
        ∧ x509_ParseCRL body = inr crl.
Proof.
  unfold Legacy.fetchCRL, client_Get; run.
  destruct (http_Get uri (world st)) as [[err|resp] w]; run; [done|].
  destruct (Z.leb_spec 300 (http.StatusCode resp)); run; [done|].
  destruct (crlRead g (http.Body resp)) as [err|body] eqn:Hread; run; [done|].
  split; [done|]. intros crl Hparse. eauto 10.
Qed.
(** The part of a CRL check after issuer resolution: a fetch that fails, a
    signature that is refused, or a store.  [Hsa], [Hw] and [Hiss] describe
    the state [sa] in which the issuer was looked for, [Hc] and [Hspec] what
    issuer resolution and the fetch do. *)
Ltac settle_fetch sa Hsa Hw Hiss Hc call Hspec :=
  let Hfc := fresh "Hfc" in
  let Hfs := fresh "Hfs" in
  let Hsig := fresh "Hsig" in
  run; destruct Hspec as [Hfc Hfs];
  destruct call as [[?err|?crl] ?sc];
  cbn [fst snd] in Hfc, Hfs; run;
  [ left; cbn [crls]; congruence
  | match goal with
    | |- context [from_option ?chk None ?issuer] =>
        destruct (from_option chk None issuer) as [?err|] eqn:Hsig
    end; run; cbn [world crls trace];
    [ left; cbn [crls]; congruence
    | match goal with
      | |- context [if ?b then _ else _] => destruct b
      end; run;
      (right; split; [reflexivity|]; split; [reflexivity|]; eexists; split;
       [ cbn [crls]; rewrite Hfc, Hc, Hsa; apply insert_evict
       | destruct (Hfs _ eq_refl) as (?resp & ?w & ?body & ? & ? & ? & ?);
         exists sa; do 5 eexists;
         split; [exact Hsa|]; split; [exact Hw|]; split; [exact Hiss|];
         split; [eassumption|]; split; [eassumption|];
         split; [eassumption|]; split; [eassumption|];
         intros ? ->; exact Hsig ]) ] ].

Lemma certIsRevokedCRL_cache g cert uri (st : State World x509.RevocationList) :
  let '((_, ok, err), st') := certIsRevokedCRL g cert uri st in
  cacheOutcome st st' uri ok err (acceptedList (PackageLevel g) cert uri st).
Proof.
  unfold certIsRevokedCRL, certIsRevokedCRL_list, Lock, Unlock, emit,
    mapLookup, mapDelete, mapStore, Now; run; cbn [world crls trace].
  destruct (crls st !! uri) as [[c|]|] eqn:Hlook; run; cbn [world crls trace].
  - destruct (time_Now (world st)) as [t w] eqn:Hnow; run.
    set (sa := mkState w (crls st) _).
    assert (Hsa : crls sa = evict uri (crls st))
      by (by rewrite (evict_list _ _ _ Hlook)).
    assert (Hw : world sa = world st ∨ world sa = (time_Now (world st)).2)
      by (right; by rewrite Hnow).
    pose proof (getIssuer_crls g cert sa) as Hc.
    destruct (getIssuer g cert sa) as [issuer sb] eqn:Hiss; cbn [snd] in Hc.
    destruct (time.Before t (x509.NextUpdate c)); run.
    + destruct (listedIn _ _); run; left; cbn [crls]; congruence.
    + settle_fetch sa Hsa Hw Hiss Hc (fetchCRL g uri sb) (fetchCRL_spec g uri sb).
  - set (sa := mkState (world st) (delete uri (crls st)) _).
    assert (Hsa : crls sa = evict uri (crls st))
      by (by rewrite (evict_nil _ _ Hlook)).
    assert (Hw : world sa = world st ∨ world sa = (time_Now (world st)).2)
      by (by left).
    pose proof (getIssuer_crls g cert sa) as Hc.
    destruct (getIssuer g cert sa) as [issuer sb] eqn:Hiss; cbn [snd] in Hc.
    settle_fetch sa Hsa Hw Hiss Hc (fetchCRL g uri sb) (fetchCRL_spec g uri sb).
  - set (sa := mkState (world st) (crls st) _).
    assert (Hsa : crls sa = evict uri (crls st))
      by (by rewrite (evict_absent _ _ Hlook)).
    assert (Hw : world sa = world st ∨ world sa = (time_Now (world st)).2)
      by (by left).
    pose proof (getIssuer_crls g cert sa) as Hc.
    destruct (getIssuer g cert sa) as [issuer sb] eqn:Hiss; cbn [snd] in Hc.
    settle_fetch sa Hsa Hw Hiss Hc (fetchCRL g uri sb) (fetchCRL_spec g uri sb).
Qed.

Lemma CertificateRevokedCRL_cache v cert uri (st : State World x509.RevocationList) :
  let '((_, ok, err), st') := Verifier.CertificateRevokedCRL v cert uri st in
  cacheOutcome st st' uri ok err (acceptedList (Method v) cert uri st).
Proof.
  unfold Verifier.CertificateRevokedCRL, Verifier.CertificateRevokedCRL_list,
    Lock, Unlock, emit, mapLookup, mapDelete, mapStore, Now;
    run; cbn [world crls trace].
  destruct (crls st !! uri) as [[c|]|] eqn:Hlook; run; cbn [world crls trace].
  - destruct (time_Now (world st)) as [t w] eqn:Hnow; run.
    set (sa := mkState w (crls st) _).
    assert (Hsa : crls sa = evict uri (crls st))
      by (by rewrite (evict_list _ _ _ Hlook)).
    assert (Hw : world sa = world st ∨ world sa = (time_Now (world st)).2)
      by (right; by rewrite Hnow).
    destruct (resolveIssuer_trace (Method v) cert sa) as [Hc _].
    cbn [resolveIssuer] in Hc.
    destruct (Verifier.GetIssuer v cert sa) as [issuer sb] eqn:Hiss;
      cbn [snd] in Hc.
    destruct (time.Before t (x509.NextUpdate c)); run.
    + destruct (listedInEntries _ _); run; left; cbn [crls]; congruence.
    + settle_fetch sa Hsa Hw Hiss Hc (Verifier.fetchCRL v uri sb)
        (Verifier_fetchCRL_spec v uri sb).
  - set (sa := mkState (world st) (delete uri (crls st)) _).
    assert (Hsa : crls sa = evict uri (crls st))
      by (by rewrite (evict_nil _ _ Hlook)).
    assert (Hw : world sa = world st ∨ world sa = (time_Now (world st)).2)
      by (by left).
    destruct (resolveIssuer_trace (Method v) cert sa) as [Hc _].
    cbn [resolveIssuer] in Hc.
    destruct (Verifier.GetIssuer v cert sa) as [issuer sb] eqn:Hiss;
      cbn [snd] in Hc.
    settle_fetch sa Hsa Hw Hiss Hc (Verifier.fetchCRL v uri sb)
      (Verifier_fetchCRL_spec v uri sb).
  - set (sa := mkState (world st) (crls st) _).
    assert (Hsa : crls sa = evict uri (crls st))
      by (by rewrite (evict_absent _ _ Hlook)).
    assert (Hw : world sa = world st ∨ world sa = (time_Now (world st)).2)
      by (by left).
    destruct (resolveIssuer_trace (Method v) cert sa) as [Hc _].
    cbn [resolveIssuer] in Hc.
    destruct (Verifier.GetIssuer v cert sa) as [issuer sb] eqn:Hiss;
      cbn [snd] in Hc.
    settle_fetch sa Hsa Hw Hiss Hc (Verifier.fetchCRL v uri sb)
      (Verifier_fetchCRL_spec v uri sb).
Qed.

Lemma Legacy_certIsRevokedCRL_cache g cert uri
    (st : State World pkix.CertificateList) :
  let '((_, ok, err), st') := Legacy.certIsRevokedCRL g cert uri st in
  cacheOutcome st st' uri ok err (acceptedLegacyList g cert uri st).
Proof.
  unfold Legacy.certIsRevokedCRL, Legacy.certIsRevokedCRL_list, Lock, Unlock,
    emit, mapLookup, mapDelete, mapStore, Now; run; cbn [world crls trace].
  destruct (crls st !! uri) as [[c|]|] eqn:Hlook; run; cbn [world crls trace].
  - destruct (time_Now (world st)) as [t w] eqn:Hnow; run.
    set (sa := mkState w (crls st) _).
    assert (Hsa : crls sa = evict uri (crls st))
      by (by rewrite (evict_list _ _ _ Hlook)).
    assert (Hw : world sa = world st ∨ world sa = (time_Now (world st)).2)
      by (right; by rewrite Hnow).
    pose proof (getIssuer_crls g cert sa) as Hc.
    destruct (getIssuer g cert sa) as [issuer sb] eqn:Hiss; cbn [snd] in Hc.
    destruct (negb (pkix.HasExpired c t)); run.
    + destruct (listedIn _ _); run; left; cbn [crls]; congruence.
    + settle_fetch sa Hsa Hw Hiss Hc (Legacy.fetchCRL g uri sb)
        (Legacy_fetchCRL_spec g uri sb).
  - set (sa := mkState (world st) (delete uri (crls st)) _).
    assert (Hsa : crls sa = evict uri (crls st))
      by (by rewrite (evict_nil _ _ Hlook)).
    assert (Hw : world sa = world st ∨ world sa = (time_Now (world st)).2)
      by (by left).
    pose proof (getIssuer_crls g cert sa) as Hc.
    destruct (getIssuer g cert sa) as [issuer sb] eqn:Hiss; cbn [snd] in Hc.
    settle_fetch sa Hsa Hw Hiss Hc (Legacy.fetchCRL g uri sb)
      (Legacy_fetchCRL_spec g uri sb).
  - set (sa := mkState (world st) (crls st) _).
    assert (Hsa : crls sa = evict uri (crls st))
      by (by rewrite (evict_absent _ _ Hlook)).
    assert (Hw : world sa = world st ∨ world sa = (time_Now (world st)).2)
      by (by left).
    pose proof (getIssuer_crls g cert sa) as Hc.
    destruct (getIssuer g cert sa) as [issuer sb] eqn:Hiss; cbn [snd] in Hc.
    settle_fetch sa Hsa Hw Hiss Hc (Legacy.fetchCRL g uri sb)
      (Legacy_fetchCRL_spec g uri sb).
Qed.

(** A call introduces no nil entry, and removes the one of [uri]. *)
Lemma cacheOutcome_nil {L} (st st' : State World L) uri ok err accepted u :
  cacheOutcome st st' uri ok err accepted →
  crls st' !! u = Some None → crls st !! u = Some None ∧ u ≠ uri.
Proof.
  intros [Hc|(_ & _ & crl & Hc & _)]; rewrite Hc.
  - unfold evict. destruct (crls st !! uri) as [[c|]|] eqn:Hu;
      try (intros Hl; split; [done|]; congruence).
    rewrite lookup_delete. case_decide; [done|]. intros Hl. split; congruence.
  - rewrite lookup_insert. case_decide; [done|]. intros Hl. split; congruence.
Qed.

(** C10. Whatever a CRL check returns, on either code path and in the
    variant of [revoke_legacy.go], it leaves the cache as it found it but
    for the eviction of a nil entry for its URL, or, only when it returns
    checked = true with a nil error, it has bound its URL to a list that is
    not nil, was parsed from the body fetched from that URL during the call
    and passed signature validation against the issuer if one was
    resolved.  So a call that returns an error stores nothing. *)
Theorem checkCRL_cache_invariant :
  (∀ p cert uri (st : State World x509.RevocationList),
     let '((_, ok, err), st') := checkCRL p cert uri st in
     cacheOutcome st st' uri ok err (acceptedList p cert uri st))
  ∧ (∀ g cert uri (st : State World pkix.CertificateList),
     let '((_, ok, err), st') := Legacy.certIsRevokedCRL g cert uri st in
     cacheOutcome st st' uri ok err (acceptedLegacyList g cert uri st)).
Proof.
  split.
  - intros [g|v] cert uri st.
    + apply certIsRevokedCRL_cache.
    + apply CertificateRevokedCRL_cache.
  - apply Legacy_certIsRevokedCRL_cache.
Qed.
End CacheInvariant.

(** ** C5: the mutex and the network *)

Section LockScope.
Context {World : Type} {E : Externals World}.

Lemma getIssuer_trace {L} g cert (st : State World L) :
  ∃ k, trace (getIssuer g cert st).2
       = trace st ++ map EvGet (take k (x509.IssuingCertificateURL cert)).
Proof.
  unfold getIssuer. generalize (x509.IssuingCertificateURL cert) as urls.
  intros urls. revert st. induction urls as [|u urls IH]; intros st.
  - exists 0%nat. cbn. by rewrite app_nil_r.
  - cbn [getIssuer_from]; run.
    assert (Ht : trace (fetchRemote g u st).2 = trace st ++ [EvGet u]).
    { unfold fetchRemote, client_Get; run.
      destruct (http_Get u (world st)) as [[err|resp] w]; run; [done|].
      destruct (remoteRead g _); run; [done|]. destruct (pem_Decode _); done. }
    destruct (fetchRemote g u st) as [[err|issuer] st1]; cbn [snd] in Ht.
    + destruct (IH st1) as [k Hk]. exists (S k).
      cbn [take map]. by rewrite Hk, Ht, <- app_assoc.
    + exists 1%nat. cbn [take map]. by rewrite take_0.
Qed.

Lemma fetchCRL_trace g uri (st : State World x509.RevocationList) :
  trace (fetchCRL g uri st).2 = trace st ++ [EvGet uri].
Proof.
  unfold fetchCRL, client_Get; run.
  destruct (http_Get uri (world st)) as [[err|resp] w]; run; [done|].
  destruct (300 <=? _); run; [done|]. by destruct (crlRead g _).
Qed.

Lemma Verifier_fetchCRL_trace v uri (st : State World x509.RevocationList) :
  trace (Verifier.fetchCRL v uri st).2 = trace st ++ [EvGet uri].
Proof.
  unfold Verifier.fetchCRL, Verifier.fetch, client_Get; run.
  destruct (http_Get uri (world st)) as [[err|resp] w]; run; [done|].
  destruct (Verifier.readfunc v _ _); run; [done|]. by destruct (300 <=? _).
Qed.

Lemma Legacy_fetchCRL_trace g uri (st : State World pkix.CertificateList) :
  trace (Legacy.fetchCRL g uri st).2 = trace st ++ [EvGet uri].
Proof.
  unfold Legacy.fetchCRL, client_Get; run.
  destruct (http_Get uri (world st)) as [[err|resp] w]; run; [done|].
  destruct (300 <=? _); run; [done|]. by destruct (crlRead g _).
Qed.

Lemma lockScoped_gets held (urls : list string) (tail : list Event) :
  lockScoped_from held (map EvGet urls ++ tail)
  = (if held then match urls with [] => true | _ => false end else true)
    && lockScoped_from held tail.
Proof.
  induction urls as [|u urls IH]; cbn; [by destruct held|].
  rewrite IH. destruct held, urls; cbn; try done.
Qed.

Lemma unlockedShape_scoped uri issuers evs :
  unlockedShape uri issuers evs →
  lockScoped evs = true ∧ heldAfter false evs = false.
Proof.
  intros (k & tail & -> & Htail). unfold lockScoped. cbn [app lockScoped_from heldAfter].
  rewrite lockScoped_gets. cbn [andb].
  assert (Hheld : ∀ (urls : list string) tail',
            heldAfter false (map EvGet urls ++ tail') = heldAfter false tail').
  { intros urls tail'. induction urls as [|u urls IH]; cbn; done. }
  rewrite Hheld. destruct Htail as [->| [->| ->]]; done.
Qed.

Ltac close_trace sa Ht Hf k tail :=
  exists k, tail; split;
  [ cbn [trace snd]; rewrite ?Hf, Ht; subst sa; cbn [trace];
    rewrite <- ?app_assoc; cbn [app]; reflexivity
  | auto ].

Ltac settle_trace sa Ht call Hcall k uri stored :=
  let Hf := fresh "Hf" in
  run; pose proof Hcall as Hf;
  destruct call as [[?err|?crl] ?sc]; cbn [snd] in Hf; run;
  [ close_trace sa Ht Hf k [EvGet uri]
  | match goal with
    | |- context [from_option ?chk None ?issuer] =>
        destruct (from_option chk None issuer) as [?err|]
    end; run; cbn [world crls trace];
    [ close_trace sa Ht Hf k [EvGet uri]
    | match goal with
      | |- context [if ?b then _ else _] => destruct b
      end; run; close_trace sa Ht Hf k stored ] ].

Lemma certIsRevokedCRL_trace g cert uri (st : State World x509.RevocationList) :
  ∃ evs, trace (certIsRevokedCRL g cert uri st).2 = trace st ++ evs
         ∧ unlockedShape uri (x509.IssuingCertificateURL cert) evs.
Proof.
  enough (∃ k tail, trace (certIsRevokedCRL g cert uri st).2
            = trace st ++ [EvLock; EvUnlock]
              ++ map EvGet (take k (x509.IssuingCertificateURL cert)) ++ tail
            ∧ (tail = [] ∨ tail = [EvGet uri]
               ∨ tail = [EvGet uri; EvLock; EvUnlock]))
    as (k & tail & Ht & Htail) by (eexists; split; [exact Ht|]; by exists k, tail).
  unfold certIsRevokedCRL, certIsRevokedCRL_list, Lock, Unlock, emit,
    mapLookup, mapDelete, mapStore, Now; run; cbn [world crls trace].
  destruct (crls st !! uri) as [[c|]|]; run; cbn [world crls trace].
  - destruct (time_Now (world st)) as [t w]; run.
    set (sa := mkState w (crls st) _).
    destruct (getIssuer_trace g cert sa) as [k Ht].
    destruct (getIssuer g cert sa) as [issuer sb]; cbn [snd] in Ht.
    destruct (time.Before t (x509.NextUpdate c)); run.
    + destruct (listedIn _ _); run; exists k, []; cbn [trace snd];
        (split; [|auto]); rewrite Ht; subst sa; cbn [trace];
        rewrite <- !app_assoc; by rewrite app_nil_r.
    + settle_trace sa Ht (fetchCRL g uri sb) (fetchCRL_trace g uri sb)
        k uri [EvGet uri; EvLock; EvUnlock].
  - set (sa := mkState (world st) (delete uri (crls st)) _).
    destruct (getIssuer_trace g cert sa) as [k Ht].
    destruct (getIssuer g cert sa) as [issuer sb]; cbn [snd] in Ht.
    settle_trace sa Ht (fetchCRL g uri sb) (fetchCRL_trace g uri sb)
        k uri [EvGet uri; EvLock; EvUnlock].
  - set (sa := mkState (world st) (crls st) _).
    destruct (getIssuer_trace g cert sa) as [k Ht].
    destruct (getIssuer g cert sa) as [issuer sb]; cbn [snd] in Ht.
    settle_trace sa Ht (fetchCRL g uri sb) (fetchCRL_trace g uri sb)
        k uri [EvGet uri; EvLock; EvUnlock].
Qed.

Lemma Legacy_certIsRevokedCRL_trace g cert uri
    (st : State World pkix.CertificateList) :
  ∃ evs, trace (Legacy.certIsRevokedCRL g cert uri st).2 = trace st ++ evs
         ∧ unlockedShape uri (x509.IssuingCertificateURL cert) evs.
Proof.
  enough (∃ k tail, trace (Legacy.certIsRevokedCRL g cert uri st).2
            = trace st ++ [EvLock; EvUnlock]
              ++ map EvGet (take k (x509.IssuingCertificateURL cert)) ++ tail
            ∧ (tail = [] ∨ tail = [EvGet uri]
               ∨ tail = [EvGet uri; EvLock; EvUnlock]))
    as (k & tail & Ht & Htail) by (eexists; split; [exact Ht|]; by exists k, tail).
  unfold Legacy.certIsRevokedCRL, Legacy.certIsRevokedCRL_list, Lock, Unlock,
    emit, mapLookup, mapDelete, mapStore, Now; run; cbn [world crls trace].
  destruct (crls st !! uri) as [[c|]|]; run; cbn [world crls trace].
  - destruct (time_Now (world st)) as [t w]; run.
    set (sa := mkState w (crls st) _).
    destruct (getIssuer_trace g cert sa) as [k Ht].
    destruct (getIssuer g cert sa) as [issuer sb]; cbn [snd] in Ht.
    destruct (negb (pkix.HasExpired c t)); run.
    + destruct (listedIn _ _); run; exists k, []; cbn [trace snd];
        (split; [|auto]); rewrite Ht; subst sa; cbn [trace];
        rewrite <- !app_assoc; by rewrite app_nil_r.
    + settle_trace sa Ht (Legacy.fetchCRL g uri sb)
        (Legacy_fetchCRL_trace g uri sb) k uri [EvGet uri; EvLock; EvUnlock].
  - set (sa := mkState (world st) (delete uri (crls st)) _).
    destruct (getIssuer_trace g cert sa) as [k Ht].
    destruct (getIssuer g cert sa) as [issuer sb]; cbn [snd] in Ht.
    settle_trace sa Ht (Legacy.fetchCRL g uri sb)
      (Legacy_fetchCRL_trace g uri sb) k uri [EvGet uri; EvLock; EvUnlock].
  - set (sa := mkState (world st) (crls st) _).
    destruct (getIssuer_trace g cert sa) as [k Ht].
    destruct (getIssuer g cert sa) as [issuer sb]; cbn [snd] in Ht.
    settle_trace sa Ht (Legacy.fetchCRL g uri sb)
      (Legacy_fetchCRL_trace g uri sb) k uri [EvGet uri; EvLock; EvUnlock].
Qed.

Lemma CertificateRevokedCRL_trace v cert uri
    (st : State World x509.RevocationList) :
  ∃ evs, trace (Verifier.CertificateRevokedCRL v cert uri st).2 = trace st ++ evs
         ∧ lockedShape uri (x509.IssuingCertificateURL cert) evs.
Proof.
  enough (∃ k tail, trace (Verifier.CertificateRevokedCRL v cert uri st).2
            = trace st ++ [EvLock]
              ++ map EvGet (take k (x509.IssuingCertificateURL cert))
              ++ tail ++ [EvUnlock]
            ∧ (tail = [] ∨ tail = [EvGet uri]))
    as (k & tail & Ht & Htail) by (eexists; split; [exact Ht|]; by exists k, tail).
  unfold Verifier.CertificateRevokedCRL, Verifier.CertificateRevokedCRL_list,
    Lock, Unlock, emit, mapLookup, mapDelete, mapStore, Now;
    run; cbn [world crls trace].
  destruct (crls st !! uri) as [[c|]|]; run; cbn [world crls trace].
  - destruct (time_Now (world st)) as [t w]; run.
    set (sa := mkState w (crls st) _).
    destruct (resolveIssuer_trace (Method v) cert sa) as (_ & k & Ht & _).
    cbn [resolveIssuer] in Ht.
    destruct (Verifier.GetIssuer v cert sa) as [issuer sb]; cbn [snd] in Ht.
    destruct (time.Before t (x509.NextUpdate c)); run.
    + exists k, []; cbn [trace snd];
        (split; [|auto]); rewrite Ht; subst sa; cbn [trace];
        rewrite <- !app_assoc; reflexivity.
    + settle_trace sa Ht (Verifier.fetchCRL v uri sb)
        (Verifier_fetchCRL_trace v uri sb) k uri [EvGet uri].
  - set (sa := mkState (world st) (delete uri (crls st)) _).
    destruct (resolveIssuer_trace (Method v) cert sa) as (_ & k & Ht & _).
    cbn [resolveIssuer] in Ht.
    destruct (Verifier.GetIssuer v cert sa) as [issuer sb]; cbn [snd] in Ht.
    settle_trace sa Ht (Verifier.fetchCRL v uri sb)
      (Verifier_fetchCRL_trace v uri sb) k uri [EvGet uri].
  - set (sa := mkState (world st) (crls st) _).
    destruct (resolveIssuer_trace (Method v) cert sa) as (_ & k & Ht & _).
    cbn [resolveIssuer] in Ht.
    destruct (Verifier.GetIssuer v cert sa) as [issuer sb]; cbn [snd] in Ht.
    settle_trace sa Ht (Verifier.fetchCRL v uri sb)
      (Verifier_fetchCRL_trace v uri sb) k uri [EvGet uri].
Qed.

Lemma lockedShape_held uri issuers evs :
  lockedShape uri issuers evs →
  network evs ≠ [] → lockScoped evs = false.
Proof.
  intros (k & tail & -> & Htail) Hnet. unfold lockScoped.
  cbn [app lockScoped_from]. rewrite lockScoped_gets.
  destruct (take k issuers) as [|u urls] eqn:Hk.
  - destruct Htail as [-> | ->]; [|done].
    exfalso. apply Hnet. cbn. done.
  - done.
Qed.
End LockScope.

(** C5 fails for the [Verifier].  With an empty cache, its CRL check takes
    the mutex, resolves the issuer and fetches the list, and only then
    releases the mutex: both requests are sent with the mutex held.  The
    package-level check of the same certificate releases the mutex before
    its first request and takes it again for the store only. *)
Theorem CertificateRevokedCRL_fetches_under_lock :
  let cert := Scenario.leaf 7 ["http://ca.test/seven.crl"] []
                            ["http://ca.test/ca.crt"] in
  let uri := "http://ca.test/seven.crl" in
  let st := Scenario.at_time 500 ∅ in
  trace (Verifier.CertificateRevokedCRL (Scenario.verifier false) cert uri st).2
  = [EvLock; EvGet "http://ca.test/ca.crt"; EvGet "http://ca.test/seven.crl";
     EvUnlock]
  ∧ lockScoped
      (trace (Verifier.CertificateRevokedCRL (Scenario.verifier false)
                cert uri st).2) = false
  ∧ trace (certIsRevokedCRL (Scenario.globals false) cert uri st).2
    = [EvLock; EvUnlock; EvGet "http://ca.test/ca.crt";
       EvGet "http://ca.test/seven.crl"; EvLock; EvUnlock]
  ∧ lockScoped
      (trace (certIsRevokedCRL (Scenario.globals false) cert uri st).2) = true.
Proof. vm_compute. auto. Qed.

(** ** C6: the package-level functions against the [Verifier] *)

Section OCSPLoops.
Context {World : Type} {E : Externals World}.
Implicit Types (st : State World x509.RevocationList).

(** Under the lenient policy the package-level loop over the responders
    never returns an error, whatever the responders answered... *)
Lemma certIsRevokedOCSP_servers_lenient g servers req leaf issuer st revoked ok err :
  (certIsRevokedOCSP_servers g servers req leaf issuer false None st).1
  = (revoked, ok, err) →
  err = None.
Proof.
  revert st. induction servers as [|server rest IH]; intros st.
  - cbn. by intros [= _ _ <-].
  - cbn [certIsRevokedOCSP_servers]; run.
    destruct (sendOCSPRequest g server req leaf issuer st) as [[e|resp] st1].
    + apply IH.
    + run. by intros [= _ _ <-].
Qed.

(** ... while the loop of the [Verifier] returns the error of the last
    responder whenever it ends without an answer. *)
Lemma CertificateRevokedOCSP_servers_unchecked
    v servers req cert issuer err0 st revoked err :
  (Verifier.CertificateRevokedOCSP_servers v servers req cert issuer err0 st).1
  = (revoked, false, err) →
  (servers = [] ∧ err = err0) ∨ (servers ≠ [] ∧ is_Some err).
Proof.
  revert st err0. induction servers as [|server rest IH]; intros st err0.
  - cbn. intros [= _ <-]. by left.
  - cbn [Verifier.CertificateRevokedOCSP_servers]; run.
    destruct (Verifier.fetchOCSP v server req cert issuer st) as [[e|resp] st1].
    + destruct (strict v); run.
      * intros [= _ <-]. right. eauto.
      * intros H. right. split; [done|].
        destruct (IH _ _ H) as [[_ ->]|[_ ?]]; eauto.
    + run. discriminate.
Qed.
End OCSPLoops.

(** C6 fails under the lenient policy when every OCSP responder fails.
    The leaf has no distribution point, its issuer is resolved and its only
    responder cannot be reached; flags and readers of the two paths agree.
    [VerifyCertificateError] returns (false, false, nil), since the error of
    the responder is assigned to a variable local to the loop body, and
    [CertificateValid] returns (false, false, error): the verdicts differ in
    the presence of an error. *)
Theorem VerifyCertificateError_loses_ocsp_error :
  let cert := Scenario.leaf 7 [] ["http://ocsp.test"] ["http://ca.test/ca.crt"] in
  let st := Scenario.at_time 500 ∅ in
  let g := Scenario.globals false in
  let v := Scenario.verifier false in
  HardFail g = strict v
  ∧ (VerifyCertificateError g cert st).1 = (false, false, None)
  ∧ (Verifier.CertificateValid v cert st).1
    = (false, false, Some (ErrExternal 1))
  ∧ observe (VerifyCertificateError g cert st).1
    ≠ observe (Verifier.CertificateValid v cert st).1.
Proof. vm_compute. split_and!; try reflexivity. discriminate. Qed.

(** ** The cases of a CRL check *)

Section CRLCases.
Context {World : Type} {E : Externals World}.
Implicit Types (p : path) (cert : x509.Certificate)
               (st : State World x509.RevocationList).

(** The requests of a trace that ends in [EvGet]s and lock operations. *)
Ltac net_simpl :=
  repeat rewrite network_app; rewrite ?network_gets;
  cbn [network List.filter isNetwork app];
  rewrite ?app_nil_r, <- ?app_assoc; cbn [app].

Ltac fetch_cases Hlook Ht Hcs call Htr Hsp :=
  let Hf := fresh "Hf" in
  let Hg := fresh "Hg" in
  run; pose proof Htr as Hf; destruct Hsp as [Hg _];
  destruct call as [[?err|?crl] ?sc]; cbn [fst snd] in Hf, Hg; run;
  [ cbn [fst snd]; split;
    [ rewrite Hf, Ht; cbn [trace]; net_simpl; reflexivity
    | left; eexists; split; [reflexivity|]; rewrite Hg, Hcs; cbn [crls];
      first [ by rewrite (evict_list _ _ _ Hlook)
            | by rewrite (evict_nil _ _ Hlook)
            | by rewrite (evict_absent _ _ Hlook) ] ]
  | match goal with
    | |- context [from_option ?chk None ?issuer] =>
        destruct (from_option chk None issuer) as [?err|]
    end; run; cbn [world crls trace fst snd];
    [ split;
      [ rewrite Hf, Ht; cbn [trace]; net_simpl; reflexivity
      | left; eexists; split; [reflexivity|]; rewrite Hg, Hcs; cbn [crls];
        first [ by rewrite (evict_list _ _ _ Hlook)
              | by rewrite (evict_nil _ _ Hlook)
              | by rewrite (evict_absent _ _ Hlook) ] ]
    | split;
      [ rewrite ?Hf, Ht; cbn [trace]; net_simpl; reflexivity
      | right; eexists; split; [reflexivity|]; rewrite Hg, Hcs; cbn [crls];
        first [ done | apply insert_delete_eq ] ] ] ].

Lemma checkCRL_list_cases p cert uri st :
  let r := (checkCRL_list p cert uri st).1 in
  let st' := (checkCRL_list p cert uri st).2 in
  ∃ k,
    (∃ crl t w,
        crls st !! uri = Some (Some crl)
        ∧ time_Now (world st) = (t, w) ∧ t < x509.NextUpdate crl
        ∧ r = inr crl ∧ crls st' = crls st
        ∧ network (trace st')
          = network (trace st)
            ++ map EvGet (take k (x509.IssuingCertificateURL cert)))
    ∨ ((∀ crl, crls st !! uri = Some (Some crl) →
               x509.NextUpdate crl <= (time_Now (world st)).1)
       ∧ network (trace st')
         = network (trace st)
           ++ map EvGet (take k (x509.IssuingCertificateURL cert)) ++ [EvGet uri]
       ∧ ((∃ err, r = inl err ∧ crls st' = evict uri (crls st))
          ∨ (∃ crl, r = inr crl ∧ crls st' = <[uri := Some crl]> (crls st)))).
Proof.
  cbn zeta.
  destruct p as [g|v]; cbn [checkCRL_list].
  - unfold certIsRevokedCRL_list, Lock, Unlock, emit, mapLookup, mapDelete,
      mapStore, Now; run; cbn [world crls trace].
    destruct (crls st !! uri) as [[c|]|] eqn:Hlook; run; cbn [world crls trace].
    + destruct (time_Now (world st)) as [t w] eqn:Hnow; run.
      match goal with |- context [getIssuer g cert ?s] =>
        destruct (resolveIssuer_trace (PackageLevel g) cert s) as (Hcs & k & Ht & _);
        cbn [resolveIssuer] in Hcs, Ht; exists k;
        destruct (getIssuer g cert s) as [issuer sb]; cbn [snd] in Hcs, Ht end.
      unfold time.Before.
      destruct (Z.ltb_spec t (x509.NextUpdate c)); run.
      * left. exists c, t, w. cbn [fst snd]. split_and!; try done.
        rewrite Ht. cbn [trace]. net_simpl. reflexivity.
      * right. split; [intros ? [= <-]; done|].
        fetch_cases Hlook Ht Hcs (fetchCRL g uri sb) (fetchCRL_trace g uri sb)
          (fetchCRL_spec g uri sb).
    + match goal with |- context [getIssuer g cert ?s] =>
        destruct (resolveIssuer_trace (PackageLevel g) cert s) as (Hcs & k & Ht & _);
        cbn [resolveIssuer] in Hcs, Ht; exists k;
        destruct (getIssuer g cert s) as [issuer sb]; cbn [snd] in Hcs, Ht end.
      right. split; [intros ? [=]|].
      fetch_cases Hlook Ht Hcs (fetchCRL g uri sb) (fetchCRL_trace g uri sb)
          (fetchCRL_spec g uri sb).
    + match goal with |- context [getIssuer g cert ?s] =>
        destruct (resolveIssuer_trace (PackageLevel g) cert s) as (Hcs & k & Ht & _);
        cbn [resolveIssuer] in Hcs, Ht; exists k;
        destruct (getIssuer g cert s) as [issuer sb]; cbn [snd] in Hcs, Ht end.
      right. split; [intros ? [=]|].
      fetch_cases Hlook Ht Hcs (fetchCRL g uri sb) (fetchCRL_trace g uri sb)
          (fetchCRL_spec g uri sb).
  - unfold Verifier.CertificateRevokedCRL_list, Lock, Unlock, emit, mapLookup,
      mapDelete, mapStore, Now; run; cbn [world crls trace].
    destruct (crls st !! uri) as [[c|]|] eqn:Hlook; run; cbn [world crls trace].
    + destruct (time_Now (world st)) as [t w] eqn:Hnow; run.
      match goal with |- context [Verifier.GetIssuer v cert ?s] =>
        destruct (resolveIssuer_trace (Method v) cert s) as (Hcs & k & Ht & _);
        cbn [resolveIssuer] in Hcs, Ht; exists k;
        destruct (Verifier.GetIssuer v cert s) as [issuer sb];
        cbn [snd] in Hcs, Ht end.
      unfold time.Before.
      destruct (Z.ltb_spec t (x509.NextUpdate c)); run.
      * left. exists c, t, w. cbn [fst snd]. split_and!; try done.
        rewrite Ht. cbn [trace]. net_simpl. reflexivity.
      * right. split; [intros ? [= <-]; done|].
        fetch_cases Hlook Ht Hcs (Verifier.fetchCRL v uri sb)
          (Verifier_fetchCRL_trace v uri sb) (Verifier_fetchCRL_spec v uri sb).
    + match goal with |- context [Verifier.GetIssuer v cert ?s] =>
        destruct (resolveIssuer_trace (Method v) cert s) as (Hcs & k & Ht & _);
        cbn [resolveIssuer] in Hcs, Ht; exists k;
        destruct (Verifier.GetIssuer v cert s) as [issuer sb];
        cbn [snd] in Hcs, Ht end.
      right. split; [intros ? [=]|].
      fetch_cases Hlook Ht Hcs (Verifier.fetchCRL v uri sb)
        (Verifier_fetchCRL_trace v uri sb) (Verifier_fetchCRL_spec v uri sb).
    + match goal with |- context [Verifier.GetIssuer v cert ?s] =>
        destruct (resolveIssuer_trace (Method v) cert s) as (Hcs & k & Ht & _);
        cbn [resolveIssuer] in Hcs, Ht; exists k;
        destruct (Verifier.GetIssuer v cert s) as [issuer sb];
        cbn [snd] in Hcs, Ht end.
      right. split; [intros ? [=]|].
      fetch_cases Hlook Ht Hcs (Verifier.fetchCRL v uri sb)
        (Verifier_fetchCRL_trace v uri sb) (Verifier_fetchCRL_spec v uri sb).
Qed.
End CRLCases.

(** ** More on the CRL check *)

Section CRLStage.
Context {World : Type} {E : Externals World}.
Implicit Types (p : path) (cert : x509.Certificate)
               (st : State World x509.RevocationList).

(** The verdict and the state of a CRL check, from those of its list. *)
Lemma checkCRL_from_list p cert uri st :
  (checkCRL p cert uri st).1
  = match (checkCRL_list p cert uri st).1 with
    | inl err => (false, false, Some err)
    | inr crl => (listed p cert crl, true, None)
    end
  ∧ crls (checkCRL p cert uri st).2 = crls (checkCRL_list p cert uri st).2
  ∧ network (trace (checkCRL p cert uri st).2)
    = network (trace (checkCRL_list p cert uri st).2).
Proof.
  destruct (checkCRL_unfold p cert uri st) as (? & _ & Hu).
  destruct (checkCRL_after_list p cert uri st) as (_ & Hc & Hn).
  split; [|done].
  destruct (checkCRL_list p cert uri st) as [[err|crl] st1]; exact Hu.
Qed.

Lemma not_listed_serials p cert crl :
  listed p cert crl = false ↔ x509.SerialNumber cert ∉ serials p crl.
Proof.
  rewrite <- listed_serials. destruct (listed p cert crl); split; done.
Qed.

(** X4. When the cache binds [uri] to a list whose next-update instant is
    after the time read from the clock and which does not contain the
    serial number of the certificate, the CRL check returns
    (false, true, nil), leaves the cache as it was and sends nothing but
    the GETs of issuer resolution. *)
Theorem checkCRL_cache_hit_not_listed p cert uri st crl t w :
  crls st !! uri = Some (Some crl) →
  time_Now (world st) = (t, w) →
  t < x509.NextUpdate crl →
  x509.SerialNumber cert ∉ serials p crl →
  (checkCRL p cert uri st).1 = (false, true, None)
  ∧ crls (checkCRL p cert uri st).2 = crls st
  ∧ ∃ k, network (trace (checkCRL p cert uri st).2)
         = network (trace st)
           ++ map EvGet (take k (x509.IssuingCertificateURL cert)).
Proof.
  intros Hcache Hnow Hfresh Hout. apply not_listed_serials in Hout.
  destruct (checkCRL_from_list p cert uri st) as (Hv & Hc & Hn).
  destruct (checkCRL_list_cases p cert uri st) as [k Hcases]. cbn zeta in Hcases.
  destruct Hcases as [(crl' & t' & w' & Hl & Hnow' & _ & Hr & Hcs & Hnet)
                     |(Hstale & _)].
  - rewrite Hcache in Hl. injection Hl as <-.
    rewrite Hr, Hout in Hv. rewrite Hv, Hc, Hcs, Hn, Hnet. eauto.
  - specialize (Hstale crl Hcache). rewrite Hnow in Hstale. cbn in Hstale. lia.
Qed.

(** Fetching a list sends one GET for its URL and leaves the cache alone. *)
Lemma fetchList_spec p uri st :
  crls (fetchList p uri st).2 = crls st
  ∧ trace (fetchList p uri st).2 = trace st ++ [EvGet uri].
Proof.
  destruct p as [g|v]; cbn [fetchList].
  - split; [apply fetchCRL_spec|apply fetchCRL_trace].
  - split; [apply Verifier_fetchCRL_spec|apply Verifier_fetchCRL_trace].
Qed.

Lemma network_storeState p uri crl st :
  network (trace (storeState p uri crl st)) = network (trace st).
Proof.
  unfold storeState; cbn [trace]. rewrite network_app.
  destruct p; cbn; by rewrite app_nil_r.
Qed.

(** X5. When the cache binds [uri] to a list whose next-update instant is
    not after the time read from the clock, the CRL check sends exactly one
    GET for [uri], after the GETs of issuer resolution.  If that fetch
    fails, or the issuer found rejects the signature of the list fetched,
    the check returns (false, false, error) with that error and the stale
    list stays in the cache without being used; otherwise the list fetched
    takes its place and the verdict is read from it. *)
Theorem checkCRL_stale_refetch p cert uri st crl t w :
  crls st !! uri = Some (Some crl) →
  time_Now (world st) = (t, w) →
  x509.NextUpdate crl <= t →
  let '(issuer, sb) := resolveIssuer p cert (lookupState p uri st) in
  let '(r, sc) := fetchList p uri sb in
  network (trace (checkCRL p cert uri st).2)
  = network (trace st)
    ++ map EvGet (issuerRequests p (x509.IssuingCertificateURL cert)
                                 (lookupState p uri st))
    ++ [EvGet uri]
  ∧ match r with
    | inl e =>
        checkCRL p cert uri st = ((false, false, Some e), returnState p sc)
        ∧ crls (returnState p sc) = crls st
    | inr crl' =>
        match from_option (CheckSignatureFrom crl') None issuer with
        | Some e =>
            checkCRL p cert uri st = ((false, false, Some e), returnState p sc)
            ∧ crls (returnState p sc) = crls st
        | None =>
            checkCRL p cert uri st
            = ((listed p cert crl', true, None),
               returnState p (storeState p uri crl' sc))
            ∧ crls (returnState p (storeState p uri crl' sc))
              = <[uri := Some crl']> (crls st)
        end
    end.
Proof.
  intros Hcache Hnow Hstale.
  pose proof (freshList_stale _ _ _ _ _ Hcache Hnow Hstale) as Hf.
  pose proof (checkCRL_eq p cert uri st) as Heq.
  rewrite checkCRL_list_eq, Hf in Heq.
  pose proof (resolveIssuer_requests p cert (lookupState p uri st)) as Hreq.
  destruct (resolveIssuer_trace p cert (lookupState p uri st)) as [Hc _].
  destruct (resolveIssuer p cert (lookupState p uri st)) as [issuer sb].
  cbn [snd] in Hreq, Hc.
  destruct (fetchList_spec p uri sb) as [Hcf Htf].
  destruct (fetchList p uri sb) as [r sc]. cbn [snd] in Hcf, Htf.
  assert (Hcs : crls sc = crls st).
  { rewrite Hcf, Hc. unfold lookupState, evict; cbn [crls]. by rewrite Hcache. }
  assert (Hns : network (trace sc)
                = network (trace st)
                  ++ map EvGet (issuerRequests p (x509.IssuingCertificateURL cert)
                                               (lookupState p uri st))
                  ++ [EvGet uri]).
  { rewrite Htf, Hreq, !network_app, network_gets, network_lookupState.
    by rewrite <- app_assoc. }
  destruct r as [e|crl'].
  - rewrite Heq. cbn [snd]. rewrite network_returnState.
    split; [exact Hns|]. split; [done|]. destruct p; exact Hcs.
  - destruct (from_option _ None issuer) as [e|].
    + rewrite Heq. cbn [snd]. rewrite network_returnState.
      split; [exact Hns|]. split; [done|]. destruct p; exact Hcs.
    + rewrite Heq. cbn [snd]. rewrite network_returnState, network_storeState.
      split; [exact Hns|]. split; [done|].
      destruct p; cbn [returnState storeState crls]; by rewrite Hcs.
Qed.
(** X6. A CRL check sends the GETs of issuer resolution, to the first [k]
    issuer URLs of the certificate, and then at most one GET for its
    distribution point: it never posts, never asks any other URL and never
    asks twice. *)
Theorem checkCRL_requests p cert uri st :
  ∃ k tail,
    network (trace (checkCRL p cert uri st).2)
    = network (trace st)
      ++ map EvGet (take k (x509.IssuingCertificateURL cert)) ++ tail
    ∧ (tail = [] ∨ tail = [EvGet uri]).
Proof.
  destruct (checkCRL_from_list p cert uri st) as (_ & _ & Hn).
  destruct (checkCRL_list_cases p cert uri st) as [k Hcases]. cbn zeta in Hcases.
  exists k. rewrite Hn.
  destruct Hcases as [(crl' & t' & w' & _ & _ & _ & _ & _ & Hnet)
                     |(_ & Hnet & _)]; rewrite Hnet.
  - exists []. by rewrite app_nil_r; auto.
  - exists [EvGet uri]. auto.
Qed.

(** X7. A CRL check that returns checked = true returns no error, and the
    cache then binds its URL to a list that is not nil: the list the
    verdict was read from. *)
Theorem checkCRL_checked_binds p cert uri st revoked err st' :
  checkCRL p cert uri st = ((revoked, true, err), st') →
  err = None
  ∧ ∃ crl, crls st' !! uri = Some (Some crl) ∧ revoked = listed p cert crl.
Proof.
  intros Hrun.
  destruct (checkCRL_from_list p cert uri st) as (Hv & Hc & _).
  destruct (checkCRL_list_cases p cert uri st) as [k Hcases]. cbn zeta in Hcases.
  rewrite Hrun in Hv, Hc. cbn [fst snd] in Hv, Hc.
  destruct Hcases as [(crl & t & w & Hl & _ & _ & Hr & Hcs & _)
                     |(_ & _ & [(e & Hr & _)|(crl & Hr & Hcs)])];
    rewrite Hr in Hv; try discriminate; injection Hv as -> ->.
  - split; [done|]. exists crl. by rewrite Hc, Hcs.
  - split; [done|]. exists crl. by rewrite Hc, Hcs, lookup_insert_eq.
Qed.

(** X8. After a CRL check that returned checked = true, checking the same
    certificate at the same URL again, at an instant before the next-update
    instant of the list now cached, gives the same verdict, leaves the
    cache alone and sends nothing but the GETs of issuer resolution. *)
Theorem checkCRL_again p cert uri st revoked err st1 t w :
  checkCRL p cert uri st = ((revoked, true, err), st1) →
  time_Now (world st1) = (t, w) →
  (∀ crl, crls st1 !! uri = Some (Some crl) → t < x509.NextUpdate crl) →
  (checkCRL p cert uri st1).1 = (revoked, true, None)
  ∧ crls (checkCRL p cert uri st1).2 = crls st1
  ∧ ∃ k, network (trace (checkCRL p cert uri st1).2)
         = network (trace st1)
           ++ map EvGet (take k (x509.IssuingCertificateURL cert)).
Proof.
  intros Hrun Hnow Hfresh.
  assert (∃ crl, crls st1 !! uri = Some (Some crl)
                 ∧ revoked = listed p cert crl) as (crl & Hl & ->).
  { destruct (checkCRL_from_list p cert uri st) as (Hv & Hc & _).
    destruct (checkCRL_list_cases p cert uri st) as [k Hcases].
    cbn zeta in Hcases. rewrite Hrun in Hv, Hc. cbn [fst snd] in Hv, Hc.
    destruct Hcases as [(crl & ? & ? & Hl & _ & _ & Hr & Hcs & _)
                       |(_ & _ & [(e & Hr & _)|(crl & Hr & Hcs)])];
      rewrite Hr in Hv; try discriminate; injection Hv as -> ->;
      exists crl; rewrite Hc, Hcs; [done|by rewrite lookup_insert_eq]. }
  specialize (Hfresh crl Hl).
  destruct (checkCRL_from_list p cert uri st1) as (Hv & Hc & Hn).
  destruct (checkCRL_list_cases p cert uri st1) as [k Hcases]. cbn zeta in Hcases.
  destruct Hcases as [(crl' & t' & w' & Hl' & _ & _ & Hr & Hcs & Hnet)
                     |(Hstale & _)].
  - rewrite Hl in Hl'. injection Hl' as <-.
    rewrite Hr in Hv. rewrite Hv, Hc, Hcs, Hn, Hnet. eauto.
  - specialize (Hstale crl Hl). rewrite Hnow in Hstale. cbn in Hstale. lia.
Qed.
End CRLStage.

(** The leaf with serial 9 against the cached list of serial 7, at 500. *)
Lemma checkCRL_cache_hit_not_listed_witness :
  (checkCRL (Method (Scenario.verifier false)) (Inputs.leafCRL 9)
            Inputs.sevenURL (Scenario.at_time 500 Inputs.cachedSeven)).1
  = (false, true, None)
  ∧ crls (checkCRL (Method (Scenario.verifier false)) (Inputs.leafCRL 9)
                   Inputs.sevenURL
                   (Scenario.at_time 500 Inputs.cachedSeven)).2
    = crls (Scenario.at_time 500 Inputs.cachedSeven)
  ∧ ∃ k, network (trace (checkCRL (Method (Scenario.verifier false))
                           (Inputs.leafCRL 9) Inputs.sevenURL
                           (Scenario.at_time 500 Inputs.cachedSeven)).2)
         = network (trace (Scenario.at_time 500 Inputs.cachedSeven))
           ++ map EvGet (take k (x509.IssuingCertificateURL (Inputs.leafCRL 9))).
Proof.
  refine (checkCRL_cache_hit_not_listed
            (Method (Scenario.verifier false)) (Inputs.leafCRL 9)
            Inputs.sevenURL (Scenario.at_time 500 Inputs.cachedSeven)
            (Scenario.listOf 7) 500 501 _ _ _ _).
  - vm_compute. reflexivity.
  - reflexivity.
  - cbn. lia.
  - cbn. intros Hin. apply list_elem_of_singleton in Hin. discriminate.
Defined.

(** A cached list that went stale at 2000 is fetched anew at 2500: with
    the package variables the list of serial 7 is replaced, with a verifier
    the distribution point answers with status 500. *)
Lemma checkCRL_stale_refetch_witness :
  (network
     (trace (checkCRL (PackageLevel (Scenario.globals false)) (Inputs.leafCRL 7)
                      Inputs.sevenURL
                      (Scenario.at_time 2500 Inputs.cachedSeven)).2)
   = [] ++ map EvGet ["http://ca.test/ca.crt"] ++ [EvGet Inputs.sevenURL]
   ∧ checkCRL (PackageLevel (Scenario.globals false)) (Inputs.leafCRL 7)
              Inputs.sevenURL (Scenario.at_time 2500 Inputs.cachedSeven)
     = ((true, true, None),
        mkState 2501
          (<[Inputs.sevenURL := Some (Scenario.listOf 7)]> Inputs.cachedSeven)
          [EvLock; EvUnlock; EvGet "http://ca.test/ca.crt";
           EvGet Inputs.sevenURL; EvLock; EvUnlock])
     ∧ crls (mkState 2501
               (<[Inputs.sevenURL := Some (Scenario.listOf 7)]>
                  Inputs.cachedSeven)
               [EvLock; EvUnlock; EvGet "http://ca.test/ca.crt";
                EvGet Inputs.sevenURL; EvLock; EvUnlock])
       = <[Inputs.sevenURL := Some (Scenario.listOf 7)]> Inputs.cachedSeven)
  ∧ (network
       (trace (checkCRL (Method (Scenario.verifier false))
                        (Scenario.leaf 7 ["http://ca.test/down.crl"] []
                                       ["http://ca.test/ca.crt"])
                        "http://ca.test/down.crl"
                        (Scenario.at_time 2500
                           {["http://ca.test/down.crl"
                             := Some (Scenario.listOf 7)]})).2)
     = [] ++ map EvGet ["http://ca.test/ca.crt"]
       ++ [EvGet "http://ca.test/down.crl"]
     ∧ checkCRL (Method (Scenario.verifier false))
                (Scenario.leaf 7 ["http://ca.test/down.crl"] []
                               ["http://ca.test/ca.crt"])
                "http://ca.test/down.crl"
                (Scenario.at_time 2500
                   {["http://ca.test/down.crl" := Some (Scenario.listOf 7)]})
       = ((false, false, Some ErrFailedGetCRL),
          mkState 2501
            {["http://ca.test/down.crl" := Some (Scenario.listOf 7)]}
            [EvLock; EvGet "http://ca.test/ca.crt";
             EvGet "http://ca.test/down.crl"; EvUnlock])
       ∧ crls (mkState 2501
                 {["http://ca.test/down.crl" := Some (Scenario.listOf 7)]}
                 [EvLock; EvGet "http://ca.test/ca.crt";
                  EvGet "http://ca.test/down.crl"; EvUnlock])
         = {["http://ca.test/down.crl" := Some (Scenario.listOf 7)]}).
Proof.
  split.
  - refine (checkCRL_stale_refetch
              (PackageLevel (Scenario.globals false)) (Inputs.leafCRL 7)
              Inputs.sevenURL (Scenario.at_time 2500 Inputs.cachedSeven)
              (Scenario.listOf 7) 2500 2501 _ _ _).
    + vm_compute. reflexivity.
    + reflexivity.
    + cbn. lia.
  - refine (checkCRL_stale_refetch
              (Method (Scenario.verifier false))
              (Scenario.leaf 7 ["http://ca.test/down.crl"] []
                             ["http://ca.test/ca.crt"])
              "http://ca.test/down.crl"
              (Scenario.at_time 2500
                 {["http://ca.test/down.crl" := Some (Scenario.listOf 7)]})
              (Scenario.listOf 7) 2500 2501 _ _ _).
    + vm_compute. reflexivity.
    + reflexivity.
    + cbn. lia.
Defined.

(** A first check with an empty cache fetches the list of serial 7. *)
Lemma checkCRL_checked_binds_witness :
  @None error = None
  ∧ ∃ crl,
      crls (checkCRL (Method (Scenario.verifier false)) (Inputs.leafCRL 7)
                     Inputs.sevenURL (Scenario.at_time 500 ∅)).2
        !! Inputs.sevenURL = Some (Some crl)
      ∧ true = listed (Method (Scenario.verifier false)) (Inputs.leafCRL 7) crl.
Proof.
  refine (checkCRL_checked_binds
            (Method (Scenario.verifier false)) (Inputs.leafCRL 7)
            Inputs.sevenURL (Scenario.at_time 500 ∅) true None
            (checkCRL (Method (Scenario.verifier false)) (Inputs.leafCRL 7)
                      Inputs.sevenURL (Scenario.at_time 500 ∅)).2 _).
  vm_compute. reflexivity.
Defined.

(** A second check right after the first one, still at 500. *)
Lemma checkCRL_again_witness :
  (checkCRL (PackageLevel (Scenario.globals false)) (Inputs.leafCRL 7)
            Inputs.sevenURL
            (checkCRL (PackageLevel (Scenario.globals false))
                      (Inputs.leafCRL 7) Inputs.sevenURL
                      (Scenario.at_time 500 ∅)).2).1
  = (true, true, None).
Proof.
  refine (proj1 (checkCRL_again
            (PackageLevel (Scenario.globals false)) (Inputs.leafCRL 7)
            Inputs.sevenURL (Scenario.at_time 500 ∅) true None
            (checkCRL (PackageLevel (Scenario.globals false))
                      (Inputs.leafCRL 7) Inputs.sevenURL
                      (Scenario.at_time 500 ∅)).2
            500 501 _ _ _)).
  - vm_compute. reflexivity.
  - reflexivity.
  - intros crl Hcrl. vm_compute in Hcrl. injection Hcrl as <-. reflexivity.
Defined.

(** ** Verdicts *)

Section Verdicts.
Context {World : Type} {E : Externals World}.
Implicit Types (p : path) (cert : x509.Certificate)
               (st : State World x509.RevocationList).

(** X1. A temporally valid certificate all of whose distribution points
    use the ldap scheme (in particular one without distribution points) and
    which names no OCSP responder gets the verdict (false, true, nil); the
    trace is that of the call, so nothing was requested. *)
Theorem verify_nothing_to_check p cert st t1 st1 t2 st2 :
  Now st = (t1, st1) → t1 < x509.NotAfter cert →
  Now st1 = (t2, st2) → x509.NotBefore cert < t2 →
  forallb ldapURL (x509.CRLDistributionPoints cert) = true →
  x509.OCSPServer cert = [] →
  verify p cert st = ((false, true, None), st2) ∧ trace st2 = trace st.
Proof.
  intros H1 Hlt1 H2 Hlt2 Hldap Hocsp. split.
  - rewrite (verify_valid _ _ _ _ _ _ _ H1 Hlt1 H2 Hlt2).
    rewrite revocation_unfold, (checkCRLs_all_ldap _ _ _ _ Hldap).
    destruct p as [g|v]; cbn [checkOCSP];
      unfold certIsRevokedOCSP, Verifier.CertificateRevokedOCSP;
      rewrite Hocsp; reflexivity.
  - destruct (Now_trace _ _ _ H1) as [Ha _].
    destruct (Now_trace _ _ _ H2) as [Hb _]. congruence.
Qed.

(** X2. The loop over the distribution points behaves as if the URLs with
    the ldap scheme had been removed from the list: they are never
    checked, and they neither end nor alter the loop. *)
Theorem checkCRLs_skips_ldap p cert (urls : list string) st :
  checkCRLs p cert urls st
  = checkCRLs p cert (List.filter (fun uri => negb (ldapURL uri)) urls) st.
Proof.
  revert st. induction urls as [|uri urls IH]; intros st; [done|].
  cbn [List.filter]. rewrite checkCRLs_cons.
  destruct (ldapURL uri) eqn:Hldap; cbn [negb]; [apply IH|].
  rewrite checkCRLs_cons, Hldap.
  destruct (checkCRL p cert uri st) as [[[revoked ok] err] st'].
  destruct ok, revoked; cbn [negb]; try reflexivity. apply IH.
Qed.

(** The OCSP checker never reports a revocation without an answer, and an
    answer never comes with an error. *)
Lemma checkOCSP_shape p cert st revoked ok err :
  (checkOCSP p cert st).1 = (revoked, ok, err) →
  (ok = false → revoked = false) ∧ (ok = true → err = None).
Proof.
  assert (Hpkg : ∀ g servers req leaf issuer strict e st',
    (certIsRevokedOCSP_servers g servers req leaf issuer strict e st').1
    = (revoked, ok, err) →
    (ok = false → revoked = false) ∧ (ok = true → err = None)).
  { intros g servers req leaf issuer strict e.
    induction servers as [|server rest IH]; intros st'.
    - cbn. intros [= <- <- <-]. done.
    - cbn [certIsRevokedOCSP_servers]; run.
      destruct (sendOCSPRequest g server req leaf issuer st') as [[e'|resp] st1].
      + destruct strict; [|apply IH]. run. intros [= <- <- <-]. done.
      + run. intros [= <- <- <-]. done. }
  assert (Hver : ∀ v servers req leaf issuer e st',
    (Verifier.CertificateRevokedOCSP_servers v servers req leaf issuer e st').1
    = (revoked, ok, err) →
    (ok = false → revoked = false) ∧ (ok = true → err = None)).
  { intros v servers req leaf issuer e st'. revert e st'.
    induction servers as [|server rest IH]; intros e st'.
    - cbn. intros [= <- <- <-]. done.
    - cbn [Verifier.CertificateRevokedOCSP_servers]; run.
      destruct (Verifier.fetchOCSP v server req leaf issuer st') as [[e'|resp] st1].
      + destruct (strict v); [|apply IH]. run. intros [= <- <- <-]. done.
      + run. intros [= <- <- <-]. done. }
  destruct p as [g|v]; cbn [checkOCSP];
    unfold certIsRevokedOCSP, Verifier.CertificateRevokedOCSP;
    (destruct (length (x509.OCSPServer cert) =? 0)%nat;
     [cbn; intros [= <- <- <-]; done|]); run.
  - destruct (getIssuer g cert st) as [[issuer|] st1]; run;
      [|cbn; intros [= <- <- <-]; done].
    destruct (ocsp_CreateRequest cert issuer); run;
      [cbn; intros [= <- <- <-]; done|]. apply Hpkg.
  - destruct (Verifier.GetIssuer v cert st) as [[issuer|] st1]; run;
      [|cbn; intros [= <- <- <-]; done].
    destruct (ocsp_CreateRequest cert issuer); run;
      [cbn; intros [= <- <- <-]; done|]. apply Hver.
Qed.

(** A verdict of the loop over the distribution points. *)
Lemma checkCRLs_shape p cert (urls : list string) st verdict st' :
  checkCRLs p cert urls st = (Some verdict, st') →
  (∃ err, verdict = (strictOf p, false, Some err)) ∨ verdict = (true, true, None).
Proof.
  revert st. induction urls as [|uri urls IH]; intros st.
  - by rewrite checkCRLs_nil.
  - rewrite checkCRLs_cons. destruct (ldapURL uri); [apply IH|].
    destruct (checkCRL_unfold p cert uri st) as (? & _ & Hu).
    destruct (checkCRL p cert uri st) as [[[revoked ok] err] st1].
    cbn [fst] in Hu.
    destruct (checkCRL_list p cert uri st) as [[e|crl] ?];
      injection Hu as -> -> ->; cbn [negb].
    + intros [= <- _]. left. eauto.
    + destruct (listed p cert crl); [|apply IH]. intros [= <- _]. by right.
Qed.

(** X3. The verdicts of [verify], as listed in the comment of [revCheck]:
    an unchecked verdict reports revoked exactly under the strict policy;
    a checked verdict of not revoked carries no error; and a checked
    verdict of revoked carries no error unless it comes from the temporal
    check, whose two errors are the only ones it can carry. *)
Theorem verify_verdict_shape p cert st :
  let '(revoked, ok, err) := (verify p cert st).1 in
  (ok = false → revoked = strictOf p)
  ∧ (ok = true → revoked = false → err = None)
  ∧ (ok = true → revoked = true →
     err = None
     ∨ err = Some (ErrCertificateExpired (x509.NotAfter cert))
     ∨ err = Some (ErrCertificateNotYetValid (x509.NotBefore cert))).
Proof.
  rewrite verify_unfold.
  destruct (Now st) as [t1 st1].
  destruct (negb _); [cbn; split_and!; intros; try done; auto|].
  destruct (Now st1) as [t2 st2].
  destruct (negb _); [cbn; split_and!; intros; try done; auto|].
  rewrite revocation_unfold.
  destruct (checkCRLs p cert _ st2) as [[verdict|] st3] eqn:Hcrls.
  - apply checkCRLs_shape in Hcrls as [[e ->]| ->]; cbn;
      split_and!; intros; try done; auto.
  - pose proof (checkOCSP_shape p cert st3) as Hshape.
    destruct (checkOCSP p cert st3) as [[[revoked ok] err] st4].
    destruct (Hshape _ _ _ eq_refl) as [Hno Hyes].
    destruct ok; cbn [negb fst].
    + rewrite (Hyes eq_refl). destruct revoked; cbn; split_and!; intros; try done; auto.
    + cbn. split_and!; intros; done.
Qed.
End Verdicts.

(** Lenient policy, at 500: one distribution point, in a directory, and no
    responder. *)
Lemma verify_nothing_to_check_witness :
  verify (PackageLevel (Scenario.globals false))
         (Scenario.leaf 7 ["ldap://dir.test/crl"] [] ["http://ca.test/ca.crt"])
         (Scenario.at_time 500 ∅)
  = ((false, true, None), mkState 502 ∅ [])
  ∧ trace (mkState (L:=x509.RevocationList) 502 ∅ [])
    = trace (Scenario.at_time (L:=x509.RevocationList) 500 ∅).
Proof.
  refine (verify_nothing_to_check
            (PackageLevel (Scenario.globals false))
            (Scenario.leaf 7 ["ldap://dir.test/crl"] [] ["http://ca.test/ca.crt"])
            (Scenario.at_time 500 ∅)
            500 (mkState 501 ∅ []) 501 (mkState 502 ∅ []) _ _ _ _ _ _).
  - reflexivity.
  - cbn. lia.
  - reflexivity.
  - cbn. lia.
  - reflexivity.
  - reflexivity.
Defined.

(** ** More on the OCSP check and on issuer resolution *)

Section OCSPStage.
Context {World : Type} {E : Externals World}.
Implicit Types (p : path) (cert : x509.Certificate)
               (st : State World x509.RevocationList).

Lemma bytes_Equal_eq (a b : bytes) : bytes_Equal a b = true ↔ a = b.
Proof.
  revert b. induction a as [|x a IH]; intros [|y b]; cbn; try done.
  rewrite andb_true_iff, IH. split.
  - intros [Hx ->]. by rewrite (Byte.byte_dec_bl _ _ Hx).
  - intros [= -> ->]. split; [by apply Byte.byte_dec_lb|done].
Qed.

Lemma ocspErrorResponse_None (body : bytes) :
  ocspErrorResponse body = None ↔
  body ∉ [ocsp.UnauthorizedErrorResponse; ocsp.MalformedRequestErrorResponse;
          ocsp.InternalErrorErrorResponse; ocsp.TryLaterErrorResponse;
          ocsp.SigRequredErrorResponse].
Proof.
  unfold ocspErrorResponse. rewrite !not_elem_of_cons.
  repeat match goal with
  | |- context [bytes_Equal body ?c] =>
      let H := fresh in
      destruct (bytes_Equal body c) eqn:H;
      [apply bytes_Equal_eq in H; split; [done|intros ?; exfalso; tauto]|
       assert (body ≠ c) by (intros ?%bytes_Equal_eq; congruence); clear H]
  end.
  split; [|done]. intros _. split_and!; try done. apply not_elem_of_nil.
Qed.

(** X14. An OCSP response is only ever returned for an answer with status
    200 whose body was read without error, is none of the five unsuccessful
    responses of the ocsp package and was parsed for the leaf and its
    issuer; every other answer is an error. *)
Theorem sendOCSP_response_sound p server req leaf issuer st resp st' :
  sendOCSP p server req leaf issuer st = (inr resp, st') →
  ∃ answer body,
    ocspSend server req st = (inr answer, st')
    ∧ http.StatusCode answer = http.StatusOK
    ∧ ocspReader p (http.Body answer) = inr body
    ∧ (body ∉ [ocsp.UnauthorizedErrorResponse;
               ocsp.MalformedRequestErrorResponse;
               ocsp.InternalErrorErrorResponse; ocsp.TryLaterErrorResponse;
               ocsp.SigRequredErrorResponse])
    ∧ ocsp_ParseResponseForCert body leaf issuer = inr resp.
Proof.
  destruct p as [g|v]; cbn [sendOCSP ocspReader];
    unfold sendOCSPRequest, Verifier.fetchOCSP; run;
    (destruct (ocspSend server req st) as [[err|answer] st1]; run; [done|]);
    (destruct (Z.eqb_spec (http.StatusCode answer) http.StatusOK) as [Hok|];
     cbn [negb]; run; [|done]).
  - destruct (ocspRead g _) as [|body] eqn:Hread; run; [done|].
    destruct (ocspErrorResponse body) eqn:Herr; run; [done|].
    intros [= Hparse <-]. apply ocspErrorResponse_None in Herr.
    exists answer, body. done.
  - destruct (Verifier.readfunc v _ _) as [|body] eqn:Hread; run; [done|].
    destruct (ocspErrorResponse body) eqn:Herr; run; [done|].
    intros [= Hparse <-]. apply ocspErrorResponse_None in Herr.
    exists answer, body. done.
Qed.

(** The OCSP checker once the issuer is found and the request is built. *)
Lemma checkOCSP_with_request p cert st issuer st1 req :
  x509.OCSPServer cert ≠ [] →
  resolveIssuer p cert st = (Some issuer, st1) →
  ocsp_CreateRequest cert issuer = inr req →
  checkOCSP p cert st
  = match p with
    | PackageLevel g =>
        certIsRevokedOCSP_servers g (x509.OCSPServer cert) req cert issuer
                                  (HardFail g) None st1
    | Method v =>
        Verifier.CertificateRevokedOCSP_servers v (x509.OCSPServer cert) req
                                                cert issuer None st1
    end.
Proof.
  intros Hservers Hissuer Hreq.
  destruct p as [g|v]; cbn [checkOCSP resolveIssuer] in *;
    unfold certIsRevokedOCSP, Verifier.CertificateRevokedOCSP;
    (destruct (x509.OCSPServer cert) eqn:Hs; [done|]); cbn [length Nat.eqb];
    run; rewrite Hissuer; run; rewrite Hreq; reflexivity.
Qed.

(** X15. With the issuer resolved and the request built, the first
    responder that answers decides the OCSP check: good gives
    (false, true, nil), any other status (true, true, nil), and the
    responders after it are not contacted.  Responders before it may have
    failed under the lenient policy only. *)
Theorem checkOCSP_first_answer
    p cert st issuer st1 req (pre : list string) (server : string)
    (post : list string) st2 resp st3 :
  x509.OCSPServer cert = pre ++ server :: post →
  resolveIssuer p cert st = (Some issuer, st1) →
  ocsp_CreateRequest cert issuer = inr req →
  strictOf p = false ∨ pre = [] →
  respondersFail p pre req cert issuer st1 = Some st2 →
  sendOCSP p server req cert issuer st2 = (inr resp, st3) →
  checkOCSP p cert st
  = ((negb (ocsp.status_eqb (ocsp.Status resp) ocsp.Good), true, None), st3).
Proof.
  intros Hservers Hissuer Hreq Hpolicy Hpre Hsend.
  rewrite (checkOCSP_with_request p cert st issuer st1 req); try done;
    [|rewrite Hservers; by destruct pre].
  rewrite Hservers. clear Hservers Hissuer.
  destruct Hpolicy as [Hlen| ->].
  - destruct p as [g|v]; cbn [sendOCSP strictOf] in *.
    + rewrite Hlen. clear Hlen.
      revert st1 Hpre. induction pre as [|s pre IH]; intros st1 Hpre.
      * injection Hpre as ->. cbn [app certIsRevokedOCSP_servers]; run.
        by rewrite Hsend.
      * cbn [app certIsRevokedOCSP_servers respondersFail sendOCSP] in *; run.
        destruct (sendOCSPRequest g s req cert issuer st1) as [[e|r] st'];
          [|done].
        by apply IH.
    + enough (∀ e0,
        Verifier.CertificateRevokedOCSP_servers v (pre ++ server :: post) req
          cert issuer e0 st1
        = ((negb (ocsp.status_eqb (ocsp.Status resp) ocsp.Good), true, None),
           st3)) by done.
      revert st1 Hpre. induction pre as [|s pre IH]; intros st1 Hpre e0.
      * injection Hpre as ->.
        cbn [app Verifier.CertificateRevokedOCSP_servers]; run.
        by rewrite Hsend.
      * cbn [app Verifier.CertificateRevokedOCSP_servers respondersFail sendOCSP]
          in *; run.
        destruct (Verifier.fetchOCSP v s req cert issuer st1) as [[e|r] st'];
          [|done].
        rewrite Hlen. by apply IH.
  - injection Hpre as ->.
    destruct p as [g|v]; cbn [sendOCSP] in *;
      cbn [app certIsRevokedOCSP_servers Verifier.CertificateRevokedOCSP_servers];
      run; by rewrite Hsend.
Qed.

(** X16. Under the strict policy the failure of the first responder ends
    the OCSP check with (false, false, error), the error of that responder;
    the other responders are not contacted. *)
Theorem checkOCSP_strict_abort
    p cert st issuer st1 req (server : string) (rest : list string) err st2 :
  strictOf p = true →
  x509.OCSPServer cert = server :: rest →
  resolveIssuer p cert st = (Some issuer, st1) →
  ocsp_CreateRequest cert issuer = inr req →
  sendOCSP p server req cert issuer st1 = (inl err, st2) →
  checkOCSP p cert st = ((false, false, Some err), st2).
Proof.
  intros Hstrict Hservers Hissuer Hreq Hsend.
  rewrite (checkOCSP_with_request p cert st issuer st1 req); try done;
    [|by rewrite Hservers].
  rewrite Hservers.
  destruct p as [g|v]; cbn [sendOCSP strictOf] in *;
    cbn [certIsRevokedOCSP_servers Verifier.CertificateRevokedOCSP_servers];
    run; rewrite Hsend, Hstrict; reflexivity.
Qed.

(** X17. The OCSP check of a [Verifier] returns an unchecked verdict
    without an error in one case only: the certificate names a responder
    and issuer resolution found no issuer. *)
Theorem CertificateRevokedOCSP_unchecked_nil v cert st revoked st' :
  Verifier.CertificateRevokedOCSP v cert st = ((revoked, false, None), st') →
  x509.OCSPServer cert ≠ []
  ∧ Verifier.GetIssuer v cert st = (None, st').
Proof.
  unfold Verifier.CertificateRevokedOCSP.
  destruct (x509.OCSPServer cert) as [|server rest] eqn:Hs; [done|].
  cbn [length Nat.eqb]; run.
  destruct (Verifier.GetIssuer v cert st) as [[issuer|] st1]; run.
  - destruct (ocsp_CreateRequest cert issuer) as [|req]; run; [done|].
    intros Hloop. exfalso.
    pose proof (CertificateRevokedOCSP_servers_unchecked
                  v (server :: rest) req cert issuer None st1 revoked None) as H.
    rewrite Hloop in H. destruct (H eq_refl) as [[? _]|[_ [? ?]]]; done.
  - by intros [= _ <-].
Qed.

(** X18. Under the lenient policy the package-level OCSP check reports no
    error of a responder: the only error it returns is the one of building
    the request. *)
Theorem certIsRevokedOCSP_lenient_error g leaf st revoked ok err :
  (certIsRevokedOCSP g leaf false st).1 = (revoked, ok, Some err) →
  ∃ issuer, (getIssuer g leaf st).1 = Some issuer
            ∧ ocsp_CreateRequest leaf issuer = inl err.
Proof.
  unfold certIsRevokedOCSP.
  destruct (length (x509.OCSPServer leaf) =? 0)%nat; [done|]. run.
  destruct (getIssuer g leaf st) as [[issuer|] st1]; run; [|done].
  destruct (ocsp_CreateRequest leaf issuer) as [e|req] eqn:Hreq; run.
  - intros [= _ _ <-]. eauto.
  - intros Hloop.
    by apply certIsRevokedOCSP_servers_lenient in Hloop.
Qed.
End OCSPStage.

Section Issuer.
Context {World : Type} {E : Externals World}.
Implicit Types (p : path) (cert : x509.Certificate)
               (st : State World x509.RevocationList).

Lemma resolveIssuer_cons p cert (uri : string) (rest : list string) st :
  let run_from urls :=
    match p with
    | PackageLevel g => getIssuer_from g urls
    | Method v => Verifier.GetIssuer_from v urls
    end in
  run_from (uri :: rest) st
  = match fetchIssuer p uri st with
    | (inl _, st1) => run_from rest st1
    | (inr issuer, st1) => (Some issuer, st1)
    end.
Proof.
  destruct p as [g|v]; cbn [fetchIssuer getIssuer_from Verifier.GetIssuer_from];
    run.
  - by destruct (fetchRemote g uri st) as [[?|?] ?].
  - by destruct (Verifier.fetchCert v uri st) as [[?|?] ?].
Qed.

Lemma resolveIssuer_eq p cert st :
  resolveIssuer p cert st
  = match p with
    | PackageLevel g => getIssuer_from g (x509.IssuingCertificateURL cert)
    | Method v => Verifier.GetIssuer_from v (x509.IssuingCertificateURL cert)
    end st.
Proof. by destruct p. Qed.

(** X12. Issuer resolution returns the certificate of the first issuer URL
    whose fetch succeeds, in the state that fetch left: the URLs after it
    are not contacted. *)
Theorem resolveIssuer_first_success
    p cert (pre : list string) (uri : string) (post : list string)
    st st1 issuer st2 :
  x509.IssuingCertificateURL cert = pre ++ uri :: post →
  fetchesFail p pre st = Some st1 →
  fetchIssuer p uri st1 = (inr issuer, st2) →
  resolveIssuer p cert st = (Some issuer, st2).
Proof.
  intros Hurls Hpre Hfetch. rewrite resolveIssuer_eq, Hurls. clear Hurls.
  revert st Hpre. induction pre as [|u pre IH]; intros st Hpre.
  - injection Hpre as ->. cbn [app].
    rewrite (resolveIssuer_cons p cert). by rewrite Hfetch.
  - cbn [app]. rewrite (resolveIssuer_cons p cert).
    cbn [fetchesFail] in Hpre.
    destruct (fetchIssuer p u st) as [[e|c] st']; [|done]. by apply IH.
Qed.

(** X13. Issuer resolution ends without an issuer exactly when the fetch
    of every issuer URL of the certificate fails (in particular when there
    is none), and then it has tried them all. *)
Theorem resolveIssuer_absent_iff p cert st st' :
  resolveIssuer p cert st = (None, st')
  ↔ fetchesFail p (x509.IssuingCertificateURL cert) st = Some st'.
Proof.
  rewrite resolveIssuer_eq.
  generalize (x509.IssuingCertificateURL cert) as urls. intros urls.
  revert st. induction urls as [|u urls IH]; intros st.
  - destruct p; cbn; split; intros [= ->]; done.
  - rewrite (resolveIssuer_cons p cert). cbn [fetchesFail].
    destruct (fetchIssuer p u st) as [[e|c] st1]; [apply IH|].
    split; discriminate.
Qed.
End Issuer.

(** The first issuer URL cannot be reached, the second yields the
    certificate of the authority. *)
Lemma resolveIssuer_first_success_witness :
  resolveIssuer (Method (Scenario.verifier false))
    (Scenario.leaf 7 [] [] ["http://ca.test/missing.crt"; "http://ca.test/ca.crt";
                            "http://ca.test/other.crt"])
    (Scenario.at_time 500 ∅)
  = (Some Scenario.issuerCert,
     mkState 500 ∅ [EvGet "http://ca.test/missing.crt";
                    EvGet "http://ca.test/ca.crt"]).
Proof.
  refine (resolveIssuer_first_success
            (Method (Scenario.verifier false))
            (Scenario.leaf 7 [] [] ["http://ca.test/missing.crt";
                                    "http://ca.test/ca.crt";
                                    "http://ca.test/other.crt"])
            ["http://ca.test/missing.crt"] "http://ca.test/ca.crt"
            ["http://ca.test/other.crt"]
            (Scenario.at_time 500 ∅)
            (mkState 500 ∅ [EvGet "http://ca.test/missing.crt"])
            Scenario.issuerCert
            (mkState 500 ∅ [EvGet "http://ca.test/missing.crt";
                            EvGet "http://ca.test/ca.crt"]) _ _ _).
  - reflexivity.
  - vm_compute. reflexivity.
  - vm_compute. reflexivity.
Defined.

(** The responder at [ocsp.ca.test] answers the one-byte request. *)
Lemma sendOCSP_response_sound_witness :
  ∃ answer body,
    ocspSend (E:=Responder.env) (L:=x509.RevocationList)
             "http://ocsp.ca.test" [Byte.x00] (Scenario.at_time 500 ∅)
    = (inr answer, mkState 500 ∅ [EvGet "http://ocsp.ca.test/AA=="])
    ∧ http.StatusCode answer = http.StatusOK
    ∧ ocspReader (PackageLevel (Scenario.globals false)) (http.Body answer)
      = inr body
    ∧ (body ∉ [ocsp.UnauthorizedErrorResponse;
               ocsp.MalformedRequestErrorResponse;
               ocsp.InternalErrorErrorResponse; ocsp.TryLaterErrorResponse;
               ocsp.SigRequredErrorResponse])
    ∧ ocsp_ParseResponseForCert (Externals:=Responder.env) body
        (Inputs.leafOCSP 7 ["http://ocsp.ca.test"]) Scenario.issuerCert
      = inr {| ocsp.Status := ocsp.Good; ocsp.NextUpdate := 3000 |}.
Proof.
  refine (sendOCSP_response_sound (E:=Responder.env)
            (PackageLevel (Scenario.globals false))
            "http://ocsp.ca.test" [Byte.x00]
            (Inputs.leafOCSP 7 ["http://ocsp.ca.test"]) Scenario.issuerCert
            (Scenario.at_time 500 ∅)
            {| ocsp.Status := ocsp.Good; ocsp.NextUpdate := 3000 |}
            (mkState 500 ∅ [EvGet "http://ocsp.ca.test/AA=="]) _).
  vm_compute. reflexivity.
Defined.

(** Lenient verifier: the first responder cannot be reached, the second
    answers good, the third is not asked. *)
Lemma checkOCSP_first_answer_witness :
  checkOCSP (E:=Responder.env) (Method (Scenario.verifier false))
    (Inputs.leafOCSP 7 ["http://ocsp.test"; "http://ocsp.ca.test";
                        "http://ocsp3.test"])
    (Scenario.at_time 500 ∅)
  = ((negb (ocsp.status_eqb ocsp.Good ocsp.Good), true, None),
     mkState 500 ∅ [EvGet "http://ca.test/ca.crt"; EvGet "http://ocsp.test/AA==";
                    EvGet "http://ocsp.ca.test/AA=="]).
Proof.
  refine (checkOCSP_first_answer (E:=Responder.env)
            (Method (Scenario.verifier false))
            (Inputs.leafOCSP 7 ["http://ocsp.test"; "http://ocsp.ca.test";
                                "http://ocsp3.test"])
            (Scenario.at_time 500 ∅) Scenario.issuerCert
            (mkState 500 ∅ [EvGet "http://ca.test/ca.crt"])
            [Byte.x00]
            ["http://ocsp.test"] "http://ocsp.ca.test" ["http://ocsp3.test"]
            (mkState 500 ∅ [EvGet "http://ca.test/ca.crt";
                            EvGet "http://ocsp.test/AA=="])
            {| ocsp.Status := ocsp.Good; ocsp.NextUpdate := 3000 |}
            (mkState 500 ∅ [EvGet "http://ca.test/ca.crt";
                            EvGet "http://ocsp.test/AA==";
                            EvGet "http://ocsp.ca.test/AA=="])
            _ _ _ _ _ _).
  - reflexivity.
  - vm_compute. reflexivity.
  - reflexivity.
  - left. reflexivity.
  - vm_compute. reflexivity.
  - vm_compute. reflexivity.
Defined.

(** Strict package variables: the first responder cannot be reached. *)
Lemma checkOCSP_strict_abort_witness :
  checkOCSP (PackageLevel (Scenario.globals true))
    (Inputs.leafOCSP 7 ["http://ocsp.test"; "http://ocsp2.test"])
    (Scenario.at_time 500 ∅)
  = ((false, false, Some (ErrExternal 1)),
     mkState 500 ∅ [EvGet "http://ca.test/ca.crt"; EvGet "http://ocsp.test/AA=="]).
Proof.
  refine (checkOCSP_strict_abort
            (PackageLevel (Scenario.globals true))
            (Inputs.leafOCSP 7 ["http://ocsp.test"; "http://ocsp2.test"])
            (Scenario.at_time 500 ∅) Scenario.issuerCert
            (mkState 500 ∅ [EvGet "http://ca.test/ca.crt"])
            [Byte.x00] "http://ocsp.test" ["http://ocsp2.test"]
            (ErrExternal 1)
            (mkState 500 ∅ [EvGet "http://ca.test/ca.crt";
                            EvGet "http://ocsp.test/AA=="])
            _ _ _ _ _).
  - reflexivity.
  - reflexivity.
  - vm_compute. reflexivity.
  - reflexivity.
  - vm_compute. reflexivity.
Defined.

(** A leaf with a responder and no issuer URL. *)
Lemma CertificateRevokedOCSP_unchecked_nil_witness :
  x509.OCSPServer (Scenario.leaf 7 [] ["http://ocsp.test"] []) ≠ []
  ∧ Verifier.GetIssuer (Scenario.verifier false)
      (Scenario.leaf 7 [] ["http://ocsp.test"] []) (Scenario.at_time 500 ∅)
    = (None, Scenario.at_time 500 ∅).
Proof.
  refine (CertificateRevokedOCSP_unchecked_nil
            (Scenario.verifier false)
            (Scenario.leaf 7 [] ["http://ocsp.test"] [])
            (Scenario.at_time 500 ∅) false (Scenario.at_time 500 ∅) _).
  reflexivity.
Defined.

(** The request for the leaf with serial 13 cannot be built. *)
Lemma certIsRevokedOCSP_lenient_error_witness :
  ∃ issuer,
    (getIssuer (E:=Responder.env) (Scenario.globals false)
       (Inputs.leafOCSP 13 ["http://ocsp.ca.test"])
       (Scenario.at_time (L:=x509.RevocationList) 500 ∅)).1 = Some issuer
    ∧ ocsp_CreateRequest (Externals:=Responder.env)
        (Inputs.leafOCSP 13 ["http://ocsp.ca.test"]) issuer
      = inl (ErrExternal 5).
Proof.
  refine (certIsRevokedOCSP_lenient_error (E:=Responder.env)
            (Scenario.globals false)
            (Inputs.leafOCSP 13 ["http://ocsp.ca.test"])
            (Scenario.at_time 500 ∅) false false (ErrExternal 5) _).
  vm_compute. reflexivity.
Defined.

(** ** The mutex, nil entries and the options of a verifier *)

Section Mutex.
Context {World : Type} {E : Externals World}.

Lemma lockScoped_from_app held (tr1 tr2 : list Event) :
  lockScoped_from held (tr1 ++ tr2)
  = lockScoped_from held tr1 && lockScoped_from (heldAfter held tr1) tr2.
Proof.
  revert held. induction tr1 as [|e tr1 IH]; intros held; [done|].
  destruct e; cbn [app lockScoped_from heldAfter]; rewrite ?IH; try done.
  all: by rewrite andb_assoc.
Qed.

Lemma heldAfter_app held (tr1 tr2 : list Event) :
  heldAfter held (tr1 ++ tr2) = heldAfter (heldAfter held tr1) tr2.
Proof.
  revert held. induction tr1 as [|e tr1 IH]; intros held; [done|].
  destruct e; cbn [app heldAfter]; by rewrite ?IH.
Qed.

(** X10. The package-level CRL check, in [revoke.go] and in
    [revoke_legacy.go]: started with the mutex free, it sends no request
    while it holds the mutex and returns with the mutex free. *)
Theorem certIsRevokedCRL_lock_discipline :
  (∀ g cert uri (st : State World x509.RevocationList),
     lockScoped (trace st) = true → heldAfter false (trace st) = false →
     lockScoped (trace (certIsRevokedCRL g cert uri st).2) = true
     ∧ heldAfter false (trace (certIsRevokedCRL g cert uri st).2) = false)
  ∧ (∀ g cert uri (st : State World pkix.CertificateList),
     lockScoped (trace st) = true → heldAfter false (trace st) = false →
     lockScoped (trace (Legacy.certIsRevokedCRL g cert uri st).2) = true
     ∧ heldAfter false
         (trace (Legacy.certIsRevokedCRL g cert uri st).2) = false).
Proof.
  split; intros g cert uri st Hscoped Hfree.
  - destruct (certIsRevokedCRL_trace g cert uri st) as (evs & -> & Hshape).
    apply unlockedShape_scoped in Hshape as [Hs Hf]. unfold lockScoped in *.
    by rewrite lockScoped_from_app, heldAfter_app, Hscoped, Hfree, Hs, Hf.
  - destruct (Legacy_certIsRevokedCRL_trace g cert uri st) as (evs & -> & Hshape).
    apply unlockedShape_scoped in Hshape as [Hs Hf]. unfold lockScoped in *.
    by rewrite lockScoped_from_app, heldAfter_app, Hscoped, Hfree, Hs, Hf.
Qed.

(** X11. The CRL check of a [Verifier] returns with the mutex released on
    every path, also when the fetch or the validation fails. *)
Theorem CertificateRevokedCRL_releases v cert uri
    (st : State World x509.RevocationList) held :
  heldAfter held (trace (Verifier.CertificateRevokedCRL v cert uri st).2) = false.
Proof.
  destruct (CertificateRevokedCRL_trace v cert uri st)
    as (evs & -> & k & tail & -> & Htail).
  by rewrite !heldAfter_app.
Qed.
End Mutex.

Section Nil.
Context {World : Type} {E : Externals World}.

(** X9. A CRL check puts no nil entry into the cache and leaves none for
    its own URL: a key bound to nil after the call was bound to nil before
    it and is not the URL of the call. *)
Theorem checkCRL_nil_entries :
  (∀ p cert uri (st : State World x509.RevocationList) u,
     crls (checkCRL p cert uri st).2 !! u = Some None →
     crls st !! u = Some None ∧ u ≠ uri)
  ∧ (∀ g cert uri (st : State World pkix.CertificateList) u,
     crls (Legacy.certIsRevokedCRL g cert uri st).2 !! u = Some None →
     crls st !! u = Some None ∧ u ≠ uri).
Proof.
  split.
  - intros p cert uri st u.
    assert (Hout : let '((_, ok, err), st') := checkCRL p cert uri st in
                   cacheOutcome st st' uri ok err (acceptedList p cert uri st)).
    { destruct p as [g|v];
        [apply certIsRevokedCRL_cache|apply CertificateRevokedCRL_cache]. }
    destruct (checkCRL p cert uri st) as [[[revoked ok] err] st'].
    exact (cacheOutcome_nil _ _ _ _ _ _ _ Hout).
  - intros g cert uri st u.
    pose proof (Legacy_certIsRevokedCRL_cache g cert uri st) as Hout.
    destruct (Legacy.certIsRevokedCRL g cert uri st) as [[[revoked ok] err] st'].
    exact (cacheOutcome_nil _ _ _ _ _ _ _ Hout).
Qed.
End Nil.

Section Options.
Context {World : Type} {E : Externals World}.

Lemma fold_options_strict (opts : list VerifierOption) (v0 : Verifier) :
  Forall provided opts →
  (strict (fold_left (fun verifier opt => opt verifier) opts v0) = true
   ↔ strict v0 = true ∨ In WithStrict opts).
Proof.
  assert (Hne : ∀ o, provided o → (∀ v, strict (o v) = strict v) →
                     o ≠ WithStrict).
  { intros o _ Hkeep Heq.
    specialize (Hkeep {| strict := false; reader := io_ReadAll;
                         readerCRL := None; readerOCSP := None |}).
    rewrite Heq in Hkeep. discriminate. }
  intros Hall. revert v0. induction Hall as [|o opts Ho _ IH]; intros v0.
  - cbn. tauto.
  - cbn [fold_left In]. rewrite IH.
    destruct Ho as [|r|r|r].
    + cbn. tauto.
    + pose proof (Hne _ (provided_WithReader r) (fun _ => eq_refl)).
      cbn [strict WithReader]. tauto.
    + pose proof (Hne _ (provided_WithCRLReader r) (fun _ => eq_refl)).
      cbn [strict WithCRLReader]. tauto.
    + pose proof (Hne _ (provided_WithOCSPReader r) (fun _ => eq_refl)).
      cbn [strict WithOCSPReader]. tauto.
Qed.

(** X19. A verifier built by [NewVerifier] from the options [WithStrict],
    [WithReader], [WithCRLReader] and [WithOCSPReader] is strict exactly
    when [WithStrict] is among them, wherever it stands: no option switches
    the strict policy off again. *)
Theorem NewVerifier_strict (opts : list VerifierOption) :
  Forall provided opts →
  (strict (Verifier.NewVerifier opts) = true ↔ In WithStrict opts).
Proof.
  intros Hall. unfold Verifier.NewVerifier.
  rewrite (fold_options_strict _ _ Hall). cbn. split; [|auto].
  by intros [?|?].
Qed.

(** X20. A verifier built without [WithCRLReader] reads the bodies of lists
    with its general reader, and one built without [WithOCSPReader] reads
    the bodies of OCSP answers with it. *)
Theorem NewVerifier_readers (opts : list VerifierOption) :
  Forall provided opts →
  ((∀ r, ¬ In (WithCRLReader r) opts) →
   crlReader (Method (Verifier.NewVerifier opts))
   = reader (Verifier.NewVerifier opts))
  ∧ ((∀ r, ¬ In (WithOCSPReader r) opts) →
     ocspReader (Method (Verifier.NewVerifier opts))
     = reader (Verifier.NewVerifier opts)).
Proof.
  intros Hall. cbn [crlReader ocspReader]. unfold Verifier.readfunc.
  split; intros Hnone.
  - enough (readerCRL (Verifier.NewVerifier opts) = None) as -> by done.
    unfold Verifier.NewVerifier.
    assert (∀ v0, readerCRL v0 = None →
      readerCRL (fold_left (fun verifier opt => opt verifier) opts v0) = None)
      as Hfold.
    { induction Hall as [|o opts Ho _ IH]; intros v0 Hv0; [done|].
      cbn [fold_left]. apply IH.
      - intros r Hin. apply (Hnone r). by right.
      - destruct Ho as [|r|r|r]; cbn; try done.
        exfalso. apply (Hnone r). by left. }
    by apply Hfold.
  - enough (readerOCSP (Verifier.NewVerifier opts) = None) as -> by done.
    unfold Verifier.NewVerifier.
    assert (∀ v0, readerOCSP v0 = None →
      readerOCSP (fold_left (fun verifier opt => opt verifier) opts v0) = None)
      as Hfold.
    { induction Hall as [|o opts Ho _ IH]; intros v0 Hv0; [done|].
      cbn [fold_left]. apply IH.
      - intros r Hin. apply (Hnone r). by right.
      - destruct Ho as [|r|r|r]; cbn; try done.
        exfalso. apply (Hnone r). by left. }
    by apply Hfold.
Qed.
End Options.

(** Three options, [WithStrict] in the middle. *)
Lemma NewVerifier_strict_witness :
  strict (Verifier.NewVerifier (E:=Scenario.env)
            [WithReader inr; WithStrict; WithCRLReader inr]) = true
  ↔ In WithStrict [WithReader inr; WithStrict; WithCRLReader inr].
Proof.
  refine (NewVerifier_strict (E:=Scenario.env)
            [WithReader inr; WithStrict; WithCRLReader inr] _).
  repeat constructor.
Defined.

(** A strict verifier with a reader of its own and nothing else. *)
Lemma NewVerifier_readers_witness :
  crlReader (Method (Verifier.NewVerifier (E:=Scenario.env)
                       [WithStrict; WithReader inr]))
  = reader (Verifier.NewVerifier (E:=Scenario.env)
              [WithStrict; WithReader inr])
  ∧ ocspReader (Method (Verifier.NewVerifier (E:=Scenario.env)
                          [WithStrict; WithReader inr]))
    = reader (Verifier.NewVerifier (E:=Scenario.env)
                [WithStrict; WithReader inr]).
Proof.
  destruct (NewVerifier_readers (E:=Scenario.env)
              [WithStrict; WithReader inr]) as [Hcrl Hocsp].
  - repeat constructor.
  - split.
    + apply Hcrl. intros r [Heq|[Heq|[]]];
        apply (f_equal (fun o => readerCRL (o (Scenario.verifier false))))
          in Heq; discriminate Heq.
    + apply Hocsp. intros r [Heq|[Heq|[]]];
        apply (f_equal (fun o => readerOCSP (o (Scenario.verifier false))))
          in Heq; discriminate Heq.
Defined.

(** ** The package-level functions and the verifier, compared *)

Section Agreement.
Context {World : Type} {E : Externals World}.
Implicit Types (cert : x509.Certificate)
               (s : State World x509.RevocationList).
Variables (g : Globals) (v : Verifier).
Hypothesis Hconfig : sameConfig g v.
(** Every list the parser makes names the same serial numbers twice. *)
Hypothesis Hparser :
  ∀ body crl, x509_ParseRevocationList body = inr crl → sameSerials crl.

Lemma listed_agree cert crl :
  sameSerials crl →
  listedIn cert (x509.RevokedCertificates crl)
  = listedInEntries cert (x509.RevokedCertificateEntries crl).
Proof.
  unfold sameSerials, listedIn, listedInEntries.
  generalize (x509.RevokedCertificates crl) as old.
  generalize (x509.RevokedCertificateEntries crl) as new.
  intros new old. revert new.
  induction old as [|x old IH]; intros [|y new]; cbn; try done.
  intros [= -> Hrest]. by rewrite (IH _ Hrest).
Qed.

Lemma fetchIssuer_agree uri s s' :
  sameStore s s' →
  (fetchRemote g uri s).1 = (Verifier.fetchCert v uri s').1
  ∧ sameStore (fetchRemote g uri s).2 (Verifier.fetchCert v uri s').2.
Proof.
  intros [Hw Hc]. destruct Hconfig as (_ & Hread & _).
  unfold fetchRemote, Verifier.fetchCert, Verifier.fetch, client_Get; run.
  rewrite Hw. destruct (http_Get uri (world s')) as [[e|resp] w]; run;
    [done|].
  rewrite Hread. destruct (reader v (http.Body resp)); run; [done|].
  destruct (pem_Decode _); done.
Qed.

Lemma resolveIssuer_agree cert s s' :
  sameStore s s' →
  (getIssuer g cert s).1 = (Verifier.GetIssuer v cert s').1
  ∧ sameStore (getIssuer g cert s).2 (Verifier.GetIssuer v cert s').2.
Proof.
  unfold getIssuer, Verifier.GetIssuer.
  generalize (x509.IssuingCertificateURL cert) as urls. intros urls.
  revert s s'. induction urls as [|u urls IH]; intros s s' Hs; [done|].
  cbn [getIssuer_from Verifier.GetIssuer_from]; run.
  destruct (fetchIssuer_agree u s s' Hs) as [Hr Hst].
  destruct (fetchRemote g u s) as [r1 s1], (Verifier.fetchCert v u s') as [r2 s2].
  cbn [fst snd] in Hr, Hst. subst r2. destruct r1; [by apply IH|done].
Qed.

Lemma fetchCRL_agree uri s s' :
  sameStore s s' →
  sameStore (fetchCRL g uri s).2 (Verifier.fetchCRL v uri s').2
  ∧ match (fetchCRL g uri s).1, (Verifier.fetchCRL v uri s').1 with
    | inl _, inl _ => True
    | inr crl, inr crl' => crl = crl' ∧ sameSerials crl
    | _, _ => False
    end.
Proof.
  intros [Hw Hc]. destruct Hconfig as (_ & _ & Hread & _).
  unfold fetchCRL, Verifier.fetchCRL, Verifier.fetch, client_Get; run.
  rewrite Hw. destruct (http_Get uri (world s')) as [[e|resp] w]; run;
    [done|].
  rewrite <- Hread.
  destruct (crlRead g (http.Body resp)) as [e|body]; run;
    destruct (300 <=? http.StatusCode resp); run; try done.
  destruct (x509_ParseRevocationList body) as [e|crl] eqn:Hparse;
    run; cbn [fst snd]; [done|].
  split; [done|]. split; [done|]. by apply (Hparser body).
Qed.

Lemma sendOCSP_agree server req leaf issuer s s' :
  sameStore s s' →
  (sendOCSPRequest g server req leaf issuer s).1
  = (Verifier.fetchOCSP v server req leaf issuer s').1
  ∧ sameStore (sendOCSPRequest g server req leaf issuer s).2
              (Verifier.fetchOCSP v server req leaf issuer s').2.
Proof.
  intros [Hw Hc]. destruct Hconfig as (_ & _ & _ & Hread).
  unfold sendOCSPRequest, Verifier.fetchOCSP, ocspSend, client_Get, client_Post;
    run.
  destruct (256 <? _); run; rewrite Hw.
  - destruct (http_Post _ _ _ _) as [[e|resp] w]; run; [done|].
    destruct (negb _); run; [done|]. rewrite Hread.
    destruct (Verifier.readfunc v _ _); run; [done|].
    destruct (ocspErrorResponse _); done.
  - destruct (http_Get _ _) as [[e|resp] w]; run; [done|].
    destruct (negb _); run; [done|]. rewrite Hread.
    destruct (Verifier.readfunc v _ _); run; [done|].
    destruct (ocspErrorResponse _); done.
Qed.

Lemma cacheSameSerials_insert m uri crl :
  cacheSameSerials m → sameSerials crl →
  cacheSameSerials (<[uri := Some crl]> m).
Proof.
  intros Hm Hcrl u c. rewrite lookup_insert. case_decide; [|apply Hm].
  by intros [= <-].
Qed.

Lemma cacheSameSerials_delete m uri :
  cacheSameSerials m → cacheSameSerials (delete uri m).
Proof.
  intros Hm u c. rewrite lookup_delete. case_decide; [done|apply Hm].
Qed.

(** The part of the two checks after issuer resolution. *)
Ltac cache_goal Hg Hcs :=
  cbn [crls]; rewrite ?Hg, ?Hcs; cbn [crls];
  first [ assumption | by apply cacheSameSerials_delete ].

Ltac agree_fetch uri Hcs :=
  run;
  match goal with
  | |- context [fetchCRL g uri ?sb] =>
      match goal with
      | |- context [Verifier.fetchCRL v uri ?sb'] =>
          let Hst := fresh "Hst" in
          let Hres := fresh "Hres" in
          let Hg := fresh "Hg" in
          assert (sameStore sb sb') as Hst by (split; cbn [world crls]; congruence);
          destruct (fetchCRL_agree uri sb sb' Hst) as [[? ?] Hres];
          destruct (fetchCRL_spec g uri sb) as [Hg _];
          destruct (fetchCRL g uri sb) as [[?e|?crl] ?sc];
          destruct (Verifier.fetchCRL v uri sb') as [[?e|?crl] ?sc];
          cbn [fst snd] in *; try done; run;
          [ cbn [fst snd]; split; [done|];
            split; [split; cbn [world crls]; congruence|]; cache_goal Hg Hcs
          | destruct Hres as [<- Hres];
            match goal with
            | |- context [from_option ?chk None ?issuer] =>
                destruct (from_option chk None issuer)
            end; run; cbn [world crls trace];
            [ cbn [fst snd]; split; [done|];
              split; [split; cbn [world crls]; congruence|]; cache_goal Hg Hcs
            | rewrite (listed_agree _ _ Hres);
              match goal with
              | |- context [if ?b then _ else _] => destruct b
              end; run; cbn [world crls trace fst snd];
              (split; [done|]; split; [split; cbn [world crls]; congruence|];
               cbn [crls]; apply cacheSameSerials_insert; [|assumption];
               cache_goal Hg Hcs) ] ]
      end
  end.

Ltac agree_issuer cert Hi Hiw Hic Hcs :=
  match goal with
  | |- context [getIssuer g cert ?sa] =>
      match goal with
      | |- context [Verifier.GetIssuer v cert ?sa'] =>
          destruct (resolveIssuer_agree cert sa sa') as [Hi [Hiw Hic]];
          [split; cbn [world crls]; congruence|];
          pose proof (getIssuer_crls g cert sa) as Hcs;
          destruct (getIssuer g cert sa) as [?issuer ?sb];
          destruct (Verifier.GetIssuer v cert sa') as [?issuer ?sb];
          cbn [fst snd world crls] in Hi, Hiw, Hic, Hcs; subst
      end
  end.

Lemma checkCRL_agree cert uri s s' :
  sameStore s s' → cacheSameSerials (crls s) →
  observe (certIsRevokedCRL g cert uri s).1
  = observe (Verifier.CertificateRevokedCRL v cert uri s').1
  ∧ sameStore (certIsRevokedCRL g cert uri s).2
              (Verifier.CertificateRevokedCRL v cert uri s').2
  ∧ cacheSameSerials (crls (certIsRevokedCRL g cert uri s).2).
Proof.
  intros [Hw Hc] Hcache.
  unfold certIsRevokedCRL, certIsRevokedCRL_list,
    Verifier.CertificateRevokedCRL, Verifier.CertificateRevokedCRL_list,
    Lock, Unlock, emit, mapLookup, mapDelete, mapStore, Now;
    run; cbn [world crls trace]. rewrite <- Hw, <- Hc.
  destruct (crls s !! uri) as [[c|]|] eqn:Hlook; run; cbn [world crls trace];
    rewrite <- ?Hw, <- ?Hc.
  - destruct (time_Now (world s)) as [t w]; run.
    agree_issuer cert Hi Hiw Hic Hcs.
    destruct (time.Before t (x509.NextUpdate c)); run.
    + rewrite (listed_agree cert c (Hcache _ _ Hlook)).
      destruct (listedInEntries _ _); run; cbn [fst snd crls world];
        (split; [done|]; split; [split; cbn [world crls]; congruence|]);
        by rewrite Hcs.
    + agree_fetch uri Hcs.
  - agree_issuer cert Hi Hiw Hic Hcs. agree_fetch uri Hcs.
  - agree_issuer cert Hi Hiw Hic Hcs. agree_fetch uri Hcs.
Qed.

Lemma observe_inv (a b : Verdict) :
  observe a = observe b →
  a.1.1 = b.1.1 ∧ a.1.2 = b.1.2 ∧ (is_Some a.2 ↔ is_Some b.2).
Proof.
  destruct a as [[r ok] e], b as [[r' ok'] e']. cbn.
  intros [= -> -> He]. split_and!; try done.
  destruct e, e'; cbn in He; try done; split; eauto; intros [? ?]; done.
Qed.

Lemma checkCRLs_agree cert (urls : list string) s s' :
  sameStore s s' → cacheSameSerials (crls s) →
  observe <$> (revCheck_crls g cert urls s).1
  = observe <$> (Verifier.CertificateRevoked_crls v cert urls s').1
  ∧ sameStore (revCheck_crls g cert urls s).2
              (Verifier.CertificateRevoked_crls v cert urls s').2
  ∧ cacheSameSerials (crls (revCheck_crls g cert urls s).2).
Proof.
  destruct Hconfig as (Hflag & _).
  revert s s'. induction urls as [|uri urls IH]; intros s s' Hs Hcache; [done|].
  cbn [revCheck_crls Verifier.CertificateRevoked_crls].
  destruct (ldapURL uri); [by apply IH|]. run.
  destruct (checkCRL_agree cert uri s s' Hs Hcache) as (Hobs & Hst & Hc).
  destruct (certIsRevokedCRL g cert uri s) as [[[r ok] e] s1].
  destruct (Verifier.CertificateRevokedCRL v cert uri s') as [[[r' ok'] e'] s1'].
  cbn [fst snd] in *. apply observe_inv in Hobs as (Hr & Hok & He).
  cbn [fst snd] in Hr, Hok, He. subst r' ok'.
  assert (Hb : bool_decide (is_Some e) = bool_decide (is_Some e'))
    by (apply bool_decide_ext; done).
  destruct ok; cbn [negb].
  - destruct r; [|by apply IH]. run. cbn. by rewrite Hb.
  - rewrite Hflag. destruct (strict v); run; cbn; by rewrite Hb.
Qed.

Lemma ocspServers_agree (servers : list string) req leaf issuer e1 e2 s s' :
  sameStore s s' →
  decision (certIsRevokedOCSP_servers g servers req leaf issuer
              (HardFail g) e1 s).1
  = decision (Verifier.CertificateRevokedOCSP_servers v servers req leaf
                issuer e2 s').1
  ∧ sameStore (certIsRevokedOCSP_servers g servers req leaf issuer
                 (HardFail g) e1 s).2
              (Verifier.CertificateRevokedOCSP_servers v servers req leaf
                 issuer e2 s').2
  ∧ (strict v = true → servers ≠ [] →
     observe (certIsRevokedOCSP_servers g servers req leaf issuer
                (HardFail g) e1 s).1
     = observe (Verifier.CertificateRevokedOCSP_servers v servers req leaf
                  issuer e2 s').1).
Proof.
  destruct Hconfig as (Hflag & _). rewrite Hflag.
  revert e1 e2 s s'. induction servers as [|server rest IH];
    intros e1 e2 s s' Hs; [done|].
  cbn [certIsRevokedOCSP_servers Verifier.CertificateRevokedOCSP_servers]; run.
  destruct (sendOCSP_agree server req leaf issuer s s' Hs)
    as [Hr Hst].
  destruct (sendOCSPRequest g server req leaf issuer s) as [r1 s1].
  destruct (Verifier.fetchOCSP v server req leaf issuer s') as [r2 s1'].
  cbn [fst snd] in Hr, Hst. subst r2. destruct r1 as [err|resp]; run.
  - destruct (strict v) eqn:Hstrict; run; [done|].
    destruct (IH e1 (Some err) s1 s1' Hst) as (Hd & Hst' & _).
    split_and!; done.
  - done.
Qed.

Lemma checkOCSP_agree cert s s' :
  sameStore s s' →
  decision (certIsRevokedOCSP g cert (HardFail g) s).1
  = decision (Verifier.CertificateRevokedOCSP v cert s').1
  ∧ sameStore (certIsRevokedOCSP g cert (HardFail g) s).2
              (Verifier.CertificateRevokedOCSP v cert s').2
  ∧ (strict v = true →
     observe (certIsRevokedOCSP g cert (HardFail g) s).1
     = observe (Verifier.CertificateRevokedOCSP v cert s').1).
Proof.
  intros Hs. unfold certIsRevokedOCSP, Verifier.CertificateRevokedOCSP.
  destruct (x509.OCSPServer cert) as [|server rest] eqn:Hservers; [done|].
  cbn [length Nat.eqb]; run.
  destruct (resolveIssuer_agree cert s s' Hs) as [Hi Hst].
  destruct (getIssuer g cert s) as [issuer s1].
  destruct (Verifier.GetIssuer v cert s') as [issuer' s1'].
  cbn [fst snd] in Hi, Hst. subst issuer'.
  destruct issuer as [issuer|]; run; [|done].
  destruct (ocsp_CreateRequest cert issuer); run; [done|].
  destruct (ocspServers_agree (server :: rest) b cert issuer None None
              s1 s1' Hst) as (Hd & Hst' & Hobs).
  split_and!; try done. intros Hstrict. by apply Hobs.
Qed.

(** X21. When the package variables and a verifier hold the same flag and
    readers, and the lists made by the parser and those in the cache name
    the same serial numbers in both of their sequences, then
    [VerifyCertificateError] and [CertificateValid], started in the same
    state, return the same revoked and checked booleans and leave the same
    world and the same cache; under the strict policy their verdicts also
    agree on whether there is an error. *)
Theorem paths_agree cert s :
  cacheSameSerials (crls s) →
  decision (VerifyCertificateError g cert s).1
  = decision (Verifier.CertificateValid v cert s).1
  ∧ sameStore (VerifyCertificateError g cert s).2
              (Verifier.CertificateValid v cert s).2
  ∧ (strict v = true →
     observe (VerifyCertificateError g cert s).1
     = observe (Verifier.CertificateValid v cert s).1).
Proof.
  intros Hcache. destruct Hconfig as (Hflag & _).
  unfold VerifyCertificateError, Verifier.CertificateValid; run.
  destruct (Now s) as [t1 s1] eqn:H1.
  destruct (negb (time.Before t1 _)); run; [done|].
  destruct (Now s1) as [t2 s2] eqn:H2.
  destruct (negb (time.After t2 _)); run; [done|].
  assert (Hc2 : crls s2 = crls s).
  { destruct (Now_trace _ _ _ H1) as [_ Ha].
    destruct (Now_trace _ _ _ H2) as [_ Hb]. congruence. }
  unfold revCheck, Verifier.CertificateRevoked; run.
  destruct (checkCRLs_agree cert (x509.CRLDistributionPoints cert) s2 s2)
    as (Hobs & Hst & _); [done|by rewrite Hc2|].
  destruct (revCheck_crls g cert _ s2) as [r1 s3].
  destruct (Verifier.CertificateRevoked_crls v cert _ s2) as [r2 s3'].
  cbn [fst snd] in Hobs, Hst.
  destruct r1 as [[[a b] c]|], r2 as [[[a' b'] c']|]; try done; run.
  - cbn in Hobs. injection Hobs as -> -> Hb. cbn. split_and!; try done.
    all: intros _; by rewrite Hb.
  - destruct (checkOCSP_agree cert s3 s3' Hst) as (Hd & Hst' & Hobs').
    destruct (certIsRevokedOCSP g cert (HardFail g) s3) as [[[r ok] e] s4].
    destruct (Verifier.CertificateRevokedOCSP v cert s3') as [[[r' ok'] e'] s4'].
    cbn [fst snd decision] in *. injection Hd as -> ->.
    rewrite Hflag. destruct ok'; cbn [negb].
    + destruct r'; run; cbn; split_and!; done.
    + destruct (strict v); run; cbn; split_and!; try done.
      intros _. specialize (Hobs' eq_refl). cbn in Hobs'.
      by injection Hobs' as ->.
Qed.
End Agreement.

(** The strict package variables and the strict verifier of the scenario,
    at 500 with an empty cache, on a leaf revoked by its list. *)
Lemma paths_agree_witness :
  decision (VerifyCertificateError (Scenario.globals true)
              (Inputs.leafCRL 7) (Scenario.at_time 500 ∅)).1
  = decision (Verifier.CertificateValid (Scenario.verifier true)
                (Inputs.leafCRL 7) (Scenario.at_time 500 ∅)).1
  ∧ sameStore (VerifyCertificateError (Scenario.globals true)
                 (Inputs.leafCRL 7) (Scenario.at_time 500 ∅)).2
              (Verifier.CertificateValid (Scenario.verifier true)
                 (Inputs.leafCRL 7) (Scenario.at_time 500 ∅)).2
  ∧ (strict (Scenario.verifier true) = true →
     observe (VerifyCertificateError (Scenario.globals true)
                (Inputs.leafCRL 7) (Scenario.at_time 500 ∅)).1
     = observe (Verifier.CertificateValid (Scenario.verifier true)
                  (Inputs.leafCRL 7) (Scenario.at_time 500 ∅)).1).
Proof.
  refine (paths_agree (Scenario.globals true) (Scenario.verifier true) _ _
            (Inputs.leafCRL 7) (Scenario.at_time 500 ∅) _).
  - repeat split.
  - intros [|b [|? ?]] crl; cbn; intros [= <-]. reflexivity.
  - intros uri crl Hcrl. vm_compute in Hcrl. discriminate Hcrl.
Defined.

(** The package-level check with an empty cache and an empty trace. *)
Lemma certIsRevokedCRL_lock_discipline_witness :
  lockScoped (trace (certIsRevokedCRL (Scenario.globals false)
                       (Inputs.leafCRL 7) Inputs.sevenURL
                       (Scenario.at_time 500 ∅)).2) = true
  ∧ heldAfter false
      (trace (certIsRevokedCRL (Scenario.globals false)
                (Inputs.leafCRL 7) Inputs.sevenURL
                (Scenario.at_time 500 ∅)).2) = false.
Proof.
  refine (proj1 certIsRevokedCRL_lock_discipline (Scenario.globals false)
            (Inputs.leafCRL 7) Inputs.sevenURL (Scenario.at_time 500 ∅) _ _).
  - reflexivity.
  - reflexivity.
Defined.
